(** * tatoebatools: the parallel corpus and the Japanese indices table

    A shallow embedding of [tatoebatools/parallel_corpus.py] and
    [tatoebatools/jpn_indices.py].

    Python text ([str]) is represented by [string], holding the UTF-8
    encoding of the text.  The characters the code inspects (tab, backslash,
    quote, line ends, digits, signs) are ASCII, and no byte of a multi-byte
    UTF-8 sequence is ASCII, so splitting a line on bytes and splitting it on
    code points agree.  Python integers are [Z], dictionaries are [gmap],
    sets are [gset]. *)

From Stdlib Require Import ZArith Ascii String List.
From stdpp Require Import gmap strings list.

Local Open Scope string_scope.
Local Open Scope list_scope.
Local Open Scope Z_scope.

(** ** Values of the Python runtime *)

(** [datetime.date] and [datetime.datetime]. *)
Record date := Date { year : Z; month : Z; day : Z }.
Record datetime := Datetime { dt_date : date; hour : Z; minute : Z; second : Z }.

#[global] Instance date_eq_dec : EqDecision date.
Proof. solve_decision. Defined.

#[global] Instance datetime_eq_dec : EqDecision datetime.
Proof. solve_decision. Defined.

(** The exceptions the embedded code can meet. *)
Inductive exn :=
| KeyError (key : Z)
| AttributeError
| TypeError
| ValueError
| FileNotFoundError (path : string)
| PermissionError (path : string)
| OSError
| UnicodeDecodeError
| csv_Error.

(** [issubclass(type(e), OSError)] *)
Definition is_OSError (e : exn) : bool :=
  match e with
  | FileNotFoundError _ | PermissionError _ | OSError => true
  | _ => false
  end.

Inductive result (A : Type) :=
| Ok (a : A)
| Raise (e : exn).
Arguments Ok {A} a.
Arguments Raise {A} e.

(** The objects that travel through a csv row and a keyword call. *)
Inductive pyval :=
| PyNone
| PyStr (s : string)
| PyList (l : list string).

#[global] Instance pyval_eq_dec : EqDecision pyval.
Proof. solve_decision. Defined.

(** [x.date()]: only a datetime has the method, on [None] the attribute
    lookup fails. *)
Definition date_method (x : option datetime) : result date :=
  match x with
  | Some dt => Ok (dt_date dt)
  | None => Raise AttributeError
  end.

(** ** [int(x)] on the values of a row

    The ASCII fragment of the built-in: surrounding whitespace (tab, line
    feed, vertical tab, form feed, carriage return, space) is stripped, one
    sign is allowed, then decimal digits, single underscores allowed
    between digits.  (Digits and spaces outside ASCII, which the built-in
    also accepts, and its limit on the number of digits, are not modelled.) *)
Module PyInt.

Definition is_space (c : ascii) : bool :=
  let n := Z.of_nat (nat_of_ascii c) in
  ((9 <=? n) && (n <=? 13)) || (n =? 32).

Definition digit_of (c : ascii) : option Z :=
  let n := Z.of_nat (nat_of_ascii c) in
  if (48 <=? n) && (n <=? 57) then Some (n - 48) else None.

Fixpoint lstrip (s : string) : string :=
  match s with
  | String c s' => if is_space c then lstrip s' else s
  | EmptyString => EmptyString
  end.

Fixpoint rstrip (s : string) : string :=
  match s with
  | String c s' =>
      match rstrip s' with
      | EmptyString => if is_space c then EmptyString else String c EmptyString
      | r => String c r
      end
  | EmptyString => EmptyString
  end.

Definition strip (s : string) : string := rstrip (lstrip s).

(** The digits after the first one; [us] tells that the previous character
    was an underscore. *)
Fixpoint digits (acc : Z) (us : bool) (s : string) : option Z :=
  match s with
  | EmptyString => if us then None else Some acc
  | String c s' =>
      match digit_of c with
      | Some d => digits (10 * acc + d) false s'
      | None =>
          if Ascii.eqb c "_"%char
          then (if us then None else digits acc true s')
          else None
      end
  end.

Definition unsigned (s : string) : option Z :=
  match s with
  | String c s' =>
      match digit_of c with
      | Some d => digits d false s'
      | None => None
      end
  | EmptyString => None
  end.

Definition of_string (s : string) : option Z :=
  match strip s with
  | String "-"%char s' => Z.opp <$> unsigned s'
  | String "+"%char s' => unsigned s'
  | s' => unsigned s'
  end.

Definition int (x : pyval) : result Z :=
  match x with
  | PyStr s =>
      match of_string s with
      | Some n => Ok n
      | None => Raise ValueError
      end
  | PyNone | PyList _ => Raise TypeError
  end.

End PyInt.

(** ** The environment: version registry, data files, log *)

Inductive level := WARNING | ERROR.

(** What the code does to its environment, in the order it does it. *)
Inductive event :=
| EvOpen (path : string)
| EvLog (lvl : level) (msg : string)
| EvVersionEnter
| EvVersionGet (key : string)
| EvVersionExit
| EvUpdate (tables : gset string) (langs : gset string) (verbose : bool).

(** A link between a sentence and one of its translations. *)
Module Link.
Record t := Make { sentence_id : Z; translation_id : Z }.
End Link.

(** How reading a file that was opened can fail part-way: bytes that do
    not decode, or an error of the device. *)
Inductive read_failure := Undecodable | Interrupted.

Definition read_error (f : read_failure) : exn :=
  match f with
  | Undecodable => UnicodeDecodeError
  | Interrupted => OSError
  end.

(** A text file: one that opens and is read to its end, one that opens and
    gives some lines before the read fails, one that cannot be opened. *)
Inductive file_entry :=
| Readable (lines : list string)
| Broken (lines : list string) (f : read_failure)
| Unreadable.

(** An open text file object: the lines iterating it gives, and the
    exception that ends the iteration, if any. *)
Record TextFile := MkTextFile {
  file_lines : list string;
  file_end : option exn
}.

(** The local data.  [versions] is the registry of the downloaded
    datafiles, by filename.  [fs] holds the text files, by path, as the
    lines a text file object iterates over.  The tables whose parsers live
    outside the two embedded modules are kept as the records they iterate
    over, by path; [V] is the type of a sentence record. *)
Record World (V : Type) := MkWorld {
  versions : gmap string datetime;
  fs : gmap string file_entry;
  links_files : gmap string (list Link.t);
  sentences_files : gmap string (list V)
}.
Arguments MkWorld {V} _ _ _ _.
Arguments versions {V} _.
Arguments fs {V} _.
Arguments links_files {V} _.
Arguments sentences_files {V} _.

(** [pathlib]'s [joinpath] with a relative component. *)
Definition joinpath (dir name : string) : string := dir +:+ "/" +:+ name.

(** ** Ordinary calls: state, exceptions and a trace *)

Section Monad.
Context {V : Type}.

Definition M (A : Type) : Type := World V → result A * World V * list event.

Definition ret {A} (a : A) : M A := λ w, (Ok a, w, []).

Definition bind {A B} (m : M A) (k : A → M B) : M B := λ w,
  match m w with
  | (Ok a, w', es) => let '(r, w'', es') := k a w' in (r, w'', es ++ es')
  | (Raise e, w', es) => (Raise e, w', es)
  end.

Definition emit (ev : event) : M unit := λ w, (Ok tt, w, [ev]).

Definition lift {A} (r : result A) : M A := λ w, (r, w, []).

(** The value, when the call returns. *)
Definition value {A} (x : result A * World V * list event) : result A := x.1.1.
Definition world_after {A} (x : result A * World V * list event) : World V := x.1.2.
Definition events {A} (x : result A * World V * list event) : list event := x.2.

End Monad.

Declare Scope py_scope.
Delimit Scope py_scope with py.
Notation "'let*' x ':=' m 'in' k" := (bind m (λ x, k))
  (at level 10, x pattern, m at level 100, k at level 200) : py_scope.

(** ** Generators

    A generator is described by what it does when it is consumed to its
    end in a fixed world: the trace of its effects and of the items it
    yields, in order, and the exception that ends it, if any. *)
Record run (Y : Type) := MkRun {
  trace : list (event + Y);
  outcome : option exn
}.
Arguments MkRun {Y} _ _.
Arguments trace {Y} _.
Arguments outcome {Y} _.

Module Gen.
Section Gen.
Context {Y : Type}.

Definition skip : run Y := MkRun [] None.
Definition yield (y : Y) : run Y := MkRun [inr y] None.
Definition raise (e : exn) : run Y := MkRun [] (Some e).
Definition effect (ev : event) : run Y := MkRun [inl ev] None.

(** [r1] then, when [r1] ends normally, [r2]. *)
Definition seq (r1 r2 : run Y) : run Y :=
  match outcome r1 with
  | Some e => r1
  | None => MkRun (trace r1 ++ trace r2) (outcome r2)
  end.

(** [try: body except C: handler], [caught] deciding membership in C. *)
Definition try_except (body : run Y) (caught : exn → bool) (handler : run Y) : run Y :=
  match outcome body with
  | Some e => if caught e then MkRun (trace body ++ trace handler) (outcome handler) else body
  | None => body
  end.

(** A call made inside the generator's body. *)
Definition call {A} (r : result A) (k : A → run Y) : run Y :=
  match r with
  | Ok a => k a
  | Raise e => raise e
  end.

(** [for x in g: body x], [g] given by its trace and outcome. *)
Fixpoint for_each {A} (tr : list (event + A)) (o : option exn) (body : A → run Y) : run Y :=
  match tr with
  | [] => MkRun [] o
  | inl ev :: tr' => seq (effect ev) (for_each tr' o body)
  | inr a :: tr' => seq (body a) (for_each tr' o body)
  end.

(** [for x in xs: body x], [xs] a list. *)
Definition for_list {A} (xs : list A) (body : A → run Y) : run Y :=
  for_each (inr <$> xs) None body.

End Gen.

(** The items yielded and the effects performed. *)
Definition yielded {Y} (r : run Y) : list Y :=
  omap (λ s, match s with inr y => Some y | inl _ => None end) (trace r).
Definition effects {Y} (r : run Y) : list event :=
  omap (λ s, match s with inl ev => Some ev | inr _ => None end) (trace r).

(** [open(path)] in text mode. *)
Definition open {V} (path : string) (w : World V) : result TextFile :=
  match fs w !! path with
  | Some (Readable lines) => Ok (MkTextFile lines None)
  | Some (Broken lines f) => Ok (MkTextFile lines (Some (read_error f)))
  | Some Unreadable => Raise (PermissionError path)
  | None => Raise (FileNotFoundError path)
  end.

(** [with open(path) as f: body f] *)
Definition with_open {V Y} (path : string) (w : World V) (body : TextFile → run Y) : run Y :=
  seq (effect (EvOpen path)) (call (open path w) body).

End Gen.

(** ** The standard library's csv reader

    The reader's character automaton, for the default quoting mode
    (quotes are honoured when reading) and with the dialect's other
    settings free.  The end of a line is a token of its own. *)
Module csv.

Inductive ParserState :=
| START_RECORD | START_FIELD | ESCAPED_CHAR | AFTER_ESCAPED_CRNL
| IN_FIELD | IN_QUOTED_FIELD | ESCAPE_IN_QUOTED_FIELD
| QUOTE_IN_QUOTED_FIELD | EAT_CRNL.

#[global] Instance ParserState_eq_dec : EqDecision ParserState.
Proof. solve_decision. Defined.

Record Dialect := MkDialect {
  delimiter : ascii;
  quotechar : option ascii;
  escapechar : option ascii;
  doublequote : bool;
  skipinitialspace : bool;
  strict : bool
}.

(** The defaults of the [excel] dialect, which keyword arguments override. *)
Definition excel : Dialect :=
  MkDialect ","%char (Some "034"%char) None true false false.

Record ReaderObj := MkReader {
  state : ParserState;
  fields : list string;
  field : string
}.

Definition field_limit : Z := 131072.

Definition parse_reset : ReaderObj := MkReader START_RECORD [] "".

Definition set_state (self : ReaderObj) (s : ParserState) : ReaderObj :=
  MkReader s (fields self) (field self).

Definition parse_save_field (self : ReaderObj) : ReaderObj :=
  MkReader (state self) (fields self ++ [field self]) "".

(** A byte that continues a character written on several bytes. *)
Definition is_continuation (c : ascii) : bool :=
  let n := Z.of_nat (nat_of_ascii c) in
  (128 <=? n) && (n <? 192).

(** The number of characters of a text: the bytes that start one. *)
Fixpoint field_len (s : string) : nat :=
  match s with
  | EmptyString => 0%nat
  | String c s' => if is_continuation c then field_len s' else S (field_len s')
  end.

(** The reader takes one character at a time and refuses it when the
    field already holds [field_limit] characters; the bytes that continue
    a character come with the byte that starts it. *)
Definition parse_add_char (self : ReaderObj) (c : ascii) : result ReaderObj :=
  if negb (is_continuation c) && (field_limit <=? Z.of_nat (field_len (field self)))
  then Raise csv_Error
  else Ok (MkReader (state self) (fields self) (field self +:+ String c "")).

Definition is_char (o : option ascii) (c : ascii) : bool :=
  match o with
  | Some x => Ascii.eqb x c
  | None => false
  end.

Definition LF : ascii := "010"%char.
Definition CR : ascii := "013"%char.

Definition is_nl (c : ascii) : bool := Ascii.eqb c LF || Ascii.eqb c CR.

Definition then_state (r : result ReaderObj) (s : ParserState) : result ReaderObj :=
  match r with
  | Ok self => Ok (set_state self s)
  | Raise e => Raise e
  end.

Definition in_start_field (d : Dialect) (self : ReaderObj) (c : option ascii) : result ReaderObj :=
  match c with
  | None => Ok (set_state (parse_save_field self) START_RECORD)
  | Some c =>
      if is_nl c then Ok (set_state (parse_save_field self) EAT_CRNL)
      else if is_char (quotechar d) c then Ok (set_state self IN_QUOTED_FIELD)
      else if is_char (escapechar d) c then Ok (set_state self ESCAPED_CHAR)
      else if Ascii.eqb c " "%char && skipinitialspace d then Ok self
      else if Ascii.eqb c (delimiter d) then Ok (parse_save_field self)
      else then_state (parse_add_char self c) IN_FIELD
  end.

Definition in_field (d : Dialect) (self : ReaderObj) (c : option ascii) : result ReaderObj :=
  match c with
  | None => Ok (set_state (parse_save_field self) START_RECORD)
  | Some c =>
      if is_nl c then Ok (set_state (parse_save_field self) EAT_CRNL)
      else if is_char (escapechar d) c then Ok (set_state self ESCAPED_CHAR)
      else if Ascii.eqb c (delimiter d) then Ok (set_state (parse_save_field self) START_FIELD)
      else parse_add_char self c
  end.

Definition parse_process_char (d : Dialect) (self : ReaderObj) (c : option ascii) : result ReaderObj :=
  match state self with
  | START_RECORD =>
      match c with
      | None => Ok self
      | Some c' =>
          if is_nl c' then Ok (set_state self EAT_CRNL)
          else in_start_field d (set_state self START_FIELD) c
      end
  | START_FIELD => in_start_field d self c
  | ESCAPED_CHAR =>
      match c with
      | None => then_state (parse_add_char self LF) IN_FIELD
      | Some c' =>
          if is_nl c' then then_state (parse_add_char self c') AFTER_ESCAPED_CRNL
          else then_state (parse_add_char self c') IN_FIELD
      end
  | AFTER_ESCAPED_CRNL =>
      match c with
      | None => Ok self
      | Some _ => in_field d self c
      end
  | IN_FIELD => in_field d self c
  | IN_QUOTED_FIELD =>
      match c with
      | None => Ok self
      | Some c' =>
          if is_char (escapechar d) c' then Ok (set_state self ESCAPE_IN_QUOTED_FIELD)
          else if is_char (quotechar d) c' then
            (if doublequote d then Ok (set_state self QUOTE_IN_QUOTED_FIELD)
             else Ok (set_state self IN_FIELD))
          else parse_add_char self c'
      end
  | ESCAPE_IN_QUOTED_FIELD =>
      match c with
      | None => then_state (parse_add_char self LF) IN_QUOTED_FIELD
      | Some c' => then_state (parse_add_char self c') IN_QUOTED_FIELD
      end
  | QUOTE_IN_QUOTED_FIELD =>
      match c with
      | None => Ok (set_state (parse_save_field self) START_RECORD)
      | Some c' =>
          if is_char (quotechar d) c' then then_state (parse_add_char self c') IN_QUOTED_FIELD
          else if Ascii.eqb c' (delimiter d) then Ok (set_state (parse_save_field self) START_FIELD)
          else if is_nl c' then Ok (set_state (parse_save_field self) EAT_CRNL)
          else if negb (strict d) then then_state (parse_add_char self c') IN_FIELD
          else Raise csv_Error
      end
  | EAT_CRNL =>
      match c with
      | None => Ok (set_state self START_RECORD)
      | Some c' => if is_nl c' then Ok self else Raise csv_Error
      end
  end.

(** The characters of one line, then the end-of-line token. *)
Fixpoint process_line (d : Dialect) (self : ReaderObj) (line : string) : result ReaderObj :=
  match line with
  | EmptyString => parse_process_char d self None
  | String c rest =>
      match parse_process_char d self (Some c) with
      | Ok self' => process_line d self' rest
      | Raise e => Raise e
      end
  end.

(** [csv.reader(f, ...)] consumed to its end: a record is complete when a
    line leaves the automaton in [START_RECORD]; when the lines run out
    inside a record, what was read is returned as the last record (or is
    an error, for a strict dialect).  When the file ends its lines with an
    exception, [eof], the exception goes through the reader and what was
    read of the current record is lost. *)
Fixpoint reader_from (d : Dialect) (eof : option exn) (self : ReaderObj) (lines : list string)
  : run (list string) :=
  match lines with
  | [] =>
      match eof with
      | Some e => Gen.raise e
      | None =>
          if negb (String.eqb (field self) "") || bool_decide (state self = IN_QUOTED_FIELD)
          then (if strict d then Gen.raise csv_Error
                else Gen.yield (fields (parse_save_field self)))
          else Gen.skip
      end
  | line :: rest =>
      match process_line d self line with
      | Raise e => Gen.raise e
      | Ok self' =>
          if bool_decide (state self' = START_RECORD)
          then Gen.seq (Gen.yield (fields self')) (reader_from d eof parse_reset rest)
          else reader_from d eof self' rest
      end
  end.

Definition reader (f : TextFile) (d : Dialect) : run (list string) :=
  reader_from d (file_end f) parse_reset (file_lines f).

(** [dict(zip(fieldnames, row))] *)
Definition dict_zip (fieldnames : list string) (row : list string) : gmap (option string) pyval :=
  foldl (λ d kv, <[Some kv.1 := PyStr kv.2]> d) ∅ (zip fieldnames row).

(** One step of [DictReader.__next__], after a non-empty row was read;
    [restkey] and [restval] are left at their default, [None]. *)
Definition DictReader_row (fieldnames : list string) (row : list string) : gmap (option string) pyval :=
  let d := dict_zip fieldnames row in
  let lf := length fieldnames in
  let lr := length row in
  if (lf <? lr)%nat then <[None := PyList (drop lf row)]> d
  else if (lr <? lf)%nat then
    foldl (λ d key, <[Some key := PyNone]> d) d (drop lr fieldnames)
  else d.

(** [csv.DictReader(f, fieldnames=..., ...)]: empty rows are skipped. *)
Definition DictReader (f : TextFile) (fieldnames : list string) (d : Dialect)
  : run (gmap (option string) pyval) :=
  Gen.for_each (trace (reader f d)) (outcome (reader f d))
    (λ row, match row with
            | [] => Gen.skip
            | _ => Gen.yield (DictReader_row fieldnames row)
            end).

End csv.

(** ** The version registry and cached properties *)

Section Registry.
Context {V : Type}.

(** Modelled from the spec: the [Version] class ([version.py] is not
    among the embedded sources).  "Scoped open returning a mapping from
    filename to version value; absence of a key means not locally
    present": [vs[key]] is the registered version, [None] for a filename
    the registry does not hold. *)
Definition Version_getitem (key : string) : M (V:=V) (option datetime) :=
  λ w, (Ok (versions w !! key), w, [EvVersionGet key]).

(** Modelled from the spec: [with Version() as vs: body], the registry
    acquired before the body and released after it, on every exit. *)
Definition with_Version {A} (body : M (V:=V) A) : M A :=
  λ w, let '(r, w', es) := body w in (r, w', EvVersionEnter :: es ++ [EvVersionExit]).

(** Modelled from the spec: the [lazy_property] decorator ([utils.py] is
    not among the embedded sources), "computed once per instance
    (cached)": the first access runs the method and stores its result on
    the instance, later accesses return what is stored. *)
Definition lazy_property {Self A} (cached : Self → option A) (store : A → Self → Self)
    (fn : Self → M (V:=V) A) (self : Self) : M (A * Self) :=
  match cached self with
  | Some a => ret (a, self)
  | None => (let* a := fn self in ret (a, store a self))%py
  end.

End Registry.

(** ** [jpn_indices.py] *)

Module JpnIndex.

Record t := Make { _sid : pyval; _mid : pyval; _txt : pyval }.

Definition __init__ (sentence_id meaning_id text : pyval) : t :=
  Make sentence_id meaning_id text.

(** [JpnIndex( **row )]: the keywords must be exactly the parameters'
    names; a key that is not a string, an unknown or a missing keyword is
    a [TypeError]. *)
Definition from_kwargs (row : gmap (option string) pyval) : result t :=
  match row !! Some "sentence_id", row !! Some "meaning_id", row !! Some "text" with
  | Some a, Some b, Some c =>
      if decide (size row = 3%nat) then Ok (__init__ a b c) else Raise TypeError
  | _, _, _ => Raise TypeError
  end.

Definition sentence_id (self : t) : result Z := PyInt.int (_sid self).

Definition meaning_id (self : t) : result Z := PyInt.int (_mid self).

Definition text (self : t) : pyval := _txt self.

End JpnIndex.

Module JpnIndices.

(** An instance holds nothing but the cache of its lazy property. *)
Record t := Make { _lazy_version : option (option datetime) }.

(** [JpnIndices()] *)
Definition new : t := Make None.

Definition _table : string := "jpn_indices".
Definition _filename : string := "jpn_" +:+ _table +:+ ".tsv".

Definition TAB : ascii := "009"%char.
Definition BACKSLASH : ascii := "\"%char.

(** [delimiter="\t", escapechar="\\"] over the default dialect *)
Definition dialect : csv.Dialect :=
  csv.MkDialect TAB (csv.quotechar csv.excel) (Some BACKSLASH)
    (csv.doublequote csv.excel) (csv.skipinitialspace csv.excel) (csv.strict csv.excel).

Section WithConfig.
(** [config.DATA_DIR] *)
Variable DATA_DIR : string.
Context {V : Type}.

Definition _dir : string := joinpath DATA_DIR _table.
Definition _path : string := joinpath _dir _filename.

Definition filename (self : t) : string := _filename.

Definition path (self : t) : string := _path.

Definition __iter__ (self : t) (w : World V) : run JpnIndex.t :=
  Gen.try_except
    (Gen.with_open (path self) w (λ f,
       let fieldnames := ["sentence_id"; "meaning_id"; "text"] in
       let rows := csv.DictReader f fieldnames dialect in
       Gen.for_each (trace rows) (outcome rows) (λ row,
         Gen.call (JpnIndex.from_kwargs row) Gen.yield)))
    is_OSError
    (let msg := "no data locally available for the " +:+ "'" +:+ _table +:+ "' table." in
     Gen.effect (EvLog WARNING msg)).

Definition version (self : t) : M (V:=V) (option datetime * t) :=
  lazy_property _lazy_version (λ v _, Make (Some v))
    (λ self, with_Version (Version_getitem (filename self))) self.

End WithConfig.

End JpnIndices.

(** ** The tables [parallel_corpus.py] imports *)

(** [for x in g: ...] with a body that only collects: the generator [g] is
    consumed in the current world, its effects happen, and an exception
    that ends it propagates. *)
Definition consume {V Y} (g : World V → run Y) : M (V:=V) (list Y) :=
  λ w, let r := g w in
       (match outcome r with
        | None => Ok (Gen.yielded r)
        | Some e => Raise e
        end, w, Gen.effects r).

Definition logger_error {V} (msg : string) : M (V:=V) unit := emit (EvLog ERROR msg).

Module Links.

(** Modelled from the spec: the [Links] class ([links.py] is not among
    the embedded sources), a "VersionedTable specialization whose records
    map a source-sentence identifier to a target-sentence identifier for
    one ordered language pair", built like [JpnIndices]: a fixed table
    name, a file named after the language pair, a lazy version, records
    in file order, and a warning instead of a failure when the file
    cannot be opened. *)
Record t := Make {
  _src_lg : string;
  _tgt_lg : string;
  _lazy_version : option (option datetime)
}.

(** [Links(source_language_code, target_language_code)] *)
Definition new (source_language_code target_language_code : string) : t :=
  Make source_language_code target_language_code None.

Definition _table : string := "links".

Definition filename (self : t) : string :=
  _src_lg self +:+ "-" +:+ _tgt_lg self +:+ "_" +:+ _table +:+ ".tsv".

Section WithConfig.
Variable DATA_DIR : string.
Context {V : Type}.

Definition path (self : t) : string :=
  joinpath (joinpath DATA_DIR _table) (filename self).

Definition open (self : t) (w : World V) : result (list Link.t) :=
  match links_files w !! path self with
  | Some records => Ok records
  | None => Raise (FileNotFoundError (path self))
  end.

Definition __iter__ (self : t) (w : World V) : run Link.t :=
  Gen.try_except
    (Gen.seq (Gen.effect (EvOpen (path self)))
       (Gen.call (open self w) (λ rows, Gen.for_list rows Gen.yield)))
    is_OSError
    (let msg := "no data locally available for the " +:+ "'" +:+ _table +:+ "' table." in
     Gen.effect (EvLog WARNING msg)).

Definition version (self : t) : M (V:=V) (option datetime * t) :=
  lazy_property _lazy_version (λ v self, Make (_src_lg self) (_tgt_lg self) (Some v))
    (λ self, with_Version (Version_getitem (filename self))) self.

(** Modelled from the spec: "a pair of two sets — all distinct source
    identifiers and all distinct target identifiers appearing across
    every LinkRecord — computed by a single pass over [records()]". *)
Definition ids (self : t) : M (V:=V) (gset Z * gset Z) :=
  (let* lks := consume (__iter__ self) in
   ret (foldl (λ acc lk, ({[Link.sentence_id lk]} ∪ acc.1, {[Link.translation_id lk]} ∪ acc.2))
          (∅, ∅) lks))%py.

End WithConfig.

End Links.

Module SentencesDetailed.

(** Modelled from the spec: the [SentencesDetailed] class
    ([sentences_detailed.py] is not among the embedded sources), a
    "VersionedTable specialization whose records carry a sentence
    identifier plus sentence content fields", for one language code. *)
Record t := Make {
  _lg : string;
  _lazy_version : option (option datetime)
}.

(** [SentencesDetailed(language_code)] *)
Definition new (language_code : string) : t := Make language_code None.

Definition _table : string := "sentences_detailed".

Definition filename (self : t) : string := _lg self +:+ "_" +:+ _table +:+ ".tsv".

Section WithConfig.
Variable DATA_DIR : string.
Context {V : Type}.
(** The identifier a sentence record carries. *)
Variable sentence_id : V → Z.

Definition path (self : t) : string :=
  joinpath (joinpath DATA_DIR _table) (filename self).

Definition open (self : t) (w : World V) : result (list V) :=
  match sentences_files w !! path self with
  | Some records => Ok records
  | None => Raise (FileNotFoundError (path self))
  end.

Definition __iter__ (self : t) (w : World V) : run V :=
  Gen.try_except
    (Gen.seq (Gen.effect (EvOpen (path self)))
       (Gen.call (open self w) (λ rows, Gen.for_list rows Gen.yield)))
    is_OSError
    (let msg := "no data locally available for the " +:+ "'" +:+ _table +:+ "' table." in
     Gen.effect (EvLog WARNING msg)).

Definition version (self : t) : M (V:=V) (option datetime * t) :=
  lazy_property _lazy_version (λ v self, Make (_lg self) (Some v))
    (λ self, with_Version (Version_getitem (filename self))) self.

(** Modelled from the spec: "given a set of identifiers to retrieve,
    returns a mapping from identifier to SentenceRecord containing
    exactly the requested identifiers that are present in the backing
    file"; [verbose] "has no effect on the result's contents". *)
Definition get (self : t) (ids : gset Z) (verbose : bool) : M (V:=V) (gmap Z V) :=
  (let* records := consume (__iter__ self) in
   ret (foldl (λ (found : gmap Z V) s,
                 if decide (sentence_id s ∈ ids) then <[sentence_id s := s]> found else found)
          ∅ records))%py.

End WithConfig.

End SentencesDetailed.

(** ** [parallel_corpus.py] *)

Module ParallelCorpus.

Record t (V : Type) := Make {
  _src_lg : string;
  _tgt_lg : string;
  _upd : bool;
  _vb : bool;
  _sentences : gmap Z V;
  _translations : gmap Z V
}.
Arguments Make {V} _ _ _ _ _ _.
Arguments _src_lg {V} _.
Arguments _tgt_lg {V} _.
Arguments _upd {V} _.
Arguments _vb {V} _.
Arguments _sentences {V} _.
Arguments _translations {V} _.

(** [not x] for a version: a datetime is always true, [None] is false. *)
Definition not_ (x : option datetime) : bool :=
  match x with
  | Some _ => false
  | None => true
  end.

Section WithCollaborators.
Context {V : Type}.
(** [config.DATA_DIR] *)
Variable DATA_DIR : string.
(** The identifier a sentence record carries. *)
Variable sentence_id : V → Z.
(** What [Tatoeba().update(tables, langs, verbose)] does to the local
    data.  The updater is outside this development: any change of the
    local data is allowed, its own failures are not modelled. *)
Variable Tatoeba_update : gset string → gset string → bool → World V → World V.

Definition update_call (tables langs : gset string) (verbose : bool) : M (V:=V) unit :=
  λ w, (Ok tt, Tatoeba_update tables langs verbose w, [EvUpdate tables langs verbose]).

(** The truth value of a dictionary. *)
Definition truthy (d : gmap Z V) : bool := negb (size d =? 0)%nat.

(** [d[k]] *)
Definition getitem (d : gmap Z V) (k : Z) : result V :=
  match d !! k with
  | Some v => Ok v
  | None => Raise (KeyError k)
  end.

Definition __iter__ (self : t V) (w : World V) : run (V * V) :=
  if truthy (_sentences self) && truthy (_translations self) then
    let links := Links.__iter__ DATA_DIR (Links.new (_src_lg self) (_tgt_lg self)) w in
    Gen.for_each (trace links) (outcome links) (λ lk,
      Gen.call (getitem (_sentences self) (Link.sentence_id lk)) (λ s,
      Gen.call (getitem (_translations self) (Link.translation_id lk)) (λ t,
      Gen.yield (s, t))))
  else Gen.skip.

Definition _update (self : t V) : M (V:=V) unit :=
  (let tables_to_update : gset string := ∅ in
   let langs_to_update : gset string := ∅ in
   let* (tables_to_update, langs_to_update) :=
     if _upd self then
       ret (tables_to_update ∪ {["sentences_detailed"; "links"]},
            langs_to_update ∪ {[_src_lg self; _tgt_lg self]})
     else
       let* (v, _) := SentencesDetailed.version (SentencesDetailed.new (_src_lg self)) in
       let '(tables_to_update, langs_to_update) :=
         if not_ v
         then ({["sentences_detailed"]} ∪ tables_to_update, {[_src_lg self]} ∪ langs_to_update)
         else (tables_to_update, langs_to_update) in
       let* (v, _) := SentencesDetailed.version (SentencesDetailed.new (_tgt_lg self)) in
       let '(tables_to_update, langs_to_update) :=
         if not_ v
         then ({["sentences_detailed"]} ∪ tables_to_update, {[_tgt_lg self]} ∪ langs_to_update)
         else (tables_to_update, langs_to_update) in
       let* (v, _) := Links.version (Links.new (_src_lg self) (_tgt_lg self)) in
       let '(tables_to_update, langs_to_update) :=
         if not_ v
         then ({["links"]} ∪ tables_to_update,
               langs_to_update ∪ {[_src_lg self; _tgt_lg self]})
         else (tables_to_update, langs_to_update) in
       ret (tables_to_update, langs_to_update)
   in
   update_call tables_to_update langs_to_update false)%py.

Definition missing_msg (self : t V) : string :=
  _src_lg self +:+ "-" +:+ _tgt_lg self +:+ " parralel corpus: "
    +:+ "missing data file(s). please update your data.".

Definition differ_msg (self : t V) : string :=
  _src_lg self +:+ "-" +:+ _tgt_lg self +:+ " parralel corpus: "
    +:+ "data files' versions difer. please update your data.".

Definition _load (self : t V) : M (V:=V) (t V) :=
  (let links := Links.new (_src_lg self) (_tgt_lg self) in
   let src_corpus := SentencesDetailed.new (_src_lg self) in
   let tgt_corpus := SentencesDetailed.new (_tgt_lg self) in
   (* any(not tbl.version for tbl in (links, src_corpus, tgt_corpus)),
      which stops at the first table without a version *)
   let* (v, links) := Links.version links in
   let* (missing, src_corpus, tgt_corpus) :=
     if not_ v then ret (true, src_corpus, tgt_corpus)
     else
       let* (v, src_corpus) := SentencesDetailed.version src_corpus in
       if not_ v then ret (true, src_corpus, tgt_corpus)
       else
         let* (v, tgt_corpus) := SentencesDetailed.version tgt_corpus in
         ret (not_ v, src_corpus, tgt_corpus)
   in
   if missing then
     let* _ := logger_error (missing_msg self) in
     ret self
   else
     (* a == b == c, where c is evaluated only when a == b *)
     let* (v, links) := Links.version links in
     let* a := lift (date_method v) in
     let* (v, src_corpus) := SentencesDetailed.version src_corpus in
     let* b := lift (date_method v) in
     let* (same, tgt_corpus) :=
       if bool_decide (a = b) then
         let* (v, tgt_corpus) := SentencesDetailed.version tgt_corpus in
         let* c := lift (date_method v) in
         ret (bool_decide (b = c), tgt_corpus)
       else ret (false, tgt_corpus)
     in
     if negb same then
       let* _ := logger_error (differ_msg self) in
       ret self
     else
       let* (src_ids, tgt_ids) := Links.ids DATA_DIR links in
       let* sentences := SentencesDetailed.get DATA_DIR sentence_id src_corpus src_ids (_vb self) in
       let* translations := SentencesDetailed.get DATA_DIR sentence_id tgt_corpus tgt_ids (_vb self) in
       ret (Make (_src_lg self) (_tgt_lg self) (_upd self) (_vb self) sentences translations))%py.

Definition __init__ (source_language_code target_language_code : string)
    (update verbose : bool) : M (V:=V) (t V) :=
  (let self := Make source_language_code target_language_code update verbose ∅ ∅ in
   let* _ := _update self in
   let* self := _load self in
   ret self)%py.

End WithCollaborators.

End ParallelCorpus.

(** ** Vocabulary of the statements *)

(** [sub in s] on text. *)
Definition contains (sub s : string) : bool :=
  bool_decide (is_Some (String.index 0 sub s)).

(** The line [7], a tab, [42], a tab, and a Japanese text. *)
Definition crafted_line : string :=
  "7" +:+ String JpnIndices.TAB "42" +:+ String JpnIndices.TAB "ハロー".

(** The calls of the updater recorded in a trace. *)
Definition update_calls (evs : list event) : list (gset string * gset string * bool) :=
  omap (λ ev, match ev with
              | EvUpdate tables langs verbose => Some (tables, langs, verbose)
              | _ => None
              end) evs.

(** The files opened, or tried, in a trace. *)
Definition opened (evs : list event) : list string :=
  omap (λ ev, match ev with EvOpen p => Some p | _ => None end) evs.

Section Vocabulary.
Context {V : Type}.
Variable DATA_DIR : string.

(** The registered version of the link table of a pair, of the sentence
    table of a language. *)
Definition links_version (w : World V) (src tgt : string) : option datetime :=
  versions w !! Links.filename (Links.new src tgt).

Definition sentences_version (w : World V) (lg : string) : option datetime :=
  versions w !! SentencesDetailed.filename (SentencesDetailed.new lg).

(** The three tables of a pair all have a version. *)
Definition all_present (w : World V) (src tgt : string) : bool :=
  bool_decide (is_Some (links_version w src tgt))
  && bool_decide (is_Some (sentences_version w src))
  && bool_decide (is_Some (sentences_version w tgt)).

(** The three tables all have a version and the three dates are equal. *)
Definition consistent (w : World V) (src tgt : string) : bool :=
  match links_version w src tgt, sentences_version w src, sentences_version w tgt with
  | Some l, Some s, Some t =>
      bool_decide (dt_date l = dt_date s) && bool_decide (dt_date s = dt_date t)
  | _, _, _ => false
  end.

(** The records of the link table of a corpus, as iterating it gives them. *)
Definition link_records (self : ParallelCorpus.t V) (w : World V) : list Link.t :=
  Gen.yielded
    (Links.__iter__ DATA_DIR
       (Links.new (ParallelCorpus._src_lg self) (ParallelCorpus._tgt_lg self)) w).

(** Both identifiers of a link are keys of the loaded maps. *)
Definition both_present (self : ParallelCorpus.t V) (lk : Link.t) : bool :=
  bool_decide (is_Some (ParallelCorpus._sentences self !! Link.sentence_id lk))
  && bool_decide (is_Some (ParallelCorpus._translations self !! Link.translation_id lk)).

(** The records that come before the first one with a missing identifier. *)
Fixpoint present_prefix (self : ParallelCorpus.t V) (links : list Link.t) : list Link.t :=
  match links with
  | [] => []
  | lk :: rest => if both_present self lk then lk :: present_prefix self rest else []
  end.

(** The key whose lookup fails at a link with a missing identifier: the
    source identifier is looked up first. *)
Definition missing_key (self : ParallelCorpus.t V) (lk : Link.t) : Z :=
  match ParallelCorpus._sentences self !! Link.sentence_id lk with
  | Some _ => Link.translation_id lk
  | None => Link.sentence_id lk
  end.

(** The pair a link names, when both identifiers are keys. *)
Definition pair_of (self : ParallelCorpus.t V) (lk : Link.t) : option (V * V) :=
  match ParallelCorpus._sentences self !! Link.sentence_id lk,
        ParallelCorpus._translations self !! Link.translation_id lk with
  | Some s, Some t => Some (s, t)
  | _, _ => None
  end.

End Vocabulary.

(** ** Concrete local data

    A data directory with the English and French sentence tables and the
    table of the links from English to French, the three of them
    registered with the same date, and an updater that finds nothing to
    do.  A sentence record is its identifier and its text. *)
Module Scenario.

Definition DATA_DIR : string := "data".

Definition Sentence : Type := Z * string.

Definition sentence_id (s : Sentence) : Z := s.1.

Definition no_update : gset string → gset string → bool → World Sentence → World Sentence :=
  λ _ _ _ w, w.

Definition stamp (d h : Z) : datetime := Datetime (Date 2020 5 d) h 0 0.

Definition registry : gmap string datetime :=
  {[ "eng-fra_links.tsv" := stamp 17 3;
     "eng_sentences_detailed.tsv" := stamp 17 4;
     "fra_sentences_detailed.tsv" := stamp 17 5 ]}.

Definition local_data (links : list Link.t) (eng fra : list Sentence) : World Sentence :=
  MkWorld registry ∅
    {[ "data/links/eng-fra_links.tsv" := links ]}
    {[ "data/sentences_detailed/eng_sentences_detailed.tsv" := eng;
       "data/sentences_detailed/fra_sentences_detailed.tsv" := fra ]}.

(** [ParallelCorpus("eng", "fra", update=False)] on these data. *)
Definition construct (w : World Sentence) :=
  ParallelCorpus.__init__ DATA_DIR sentence_id no_update "eng" "fra" false true w.

Definition corpus (w : World Sentence) : ParallelCorpus.t Sentence :=
  match value (construct w) with
  | Ok self => self
  | Raise _ => ParallelCorpus.Make "eng" "fra" false true ∅ ∅
  end.

(** The second link names a French sentence the table lacks. *)
Definition gap_first : World Sentence :=
  local_data [Link.Make 2 99; Link.Make 1 10] [(1, "A"); (2, "B")] [(10, "X")].

Definition gap_last : World Sentence :=
  local_data [Link.Make 1 10; Link.Make 2 99] [(1, "A"); (2, "B")] [(10, "X")].

(** Every link names two sentences the tables hold. *)
Definition aligned : World Sentence :=
  local_data [Link.Make 1 10; Link.Make 2 11] [(1, "A"); (2, "B")] [(10, "X"); (11, "Y")].

(** Nothing is linked. *)
Definition no_links : World Sentence :=
  local_data [] [(1, "A"); (2, "B")] [(10, "X")].

(** The registry knows the sentence tables only, of two different dates. *)
Definition unlinked : World Sentence :=
  MkWorld {[ "eng_sentences_detailed.tsv" := stamp 17 4;
             "fra_sentences_detailed.tsv" := stamp 18 5 ]} ∅ ∅ ∅.

(** The world of C8, sentences standing for themselves. *)
Definition two_links : World string :=
  MkWorld ∅ ∅ {[ "data/links/eng-fra_links.tsv" := [Link.Make 1 10; Link.Make 2 11] ]} ∅.

Definition two_by_two : ParallelCorpus.t string :=
  ParallelCorpus.Make "eng" "fra" true true {[ 1 := "A"; 2 := "B" ]} {[ 10 := "X"; 11 := "Y" ]}.

(** A data directory that holds the crafted line as its indices table, and
    an empty one. *)
Definition crafted : World Sentence :=
  MkWorld ∅ {[ "data/jpn_indices/jpn_jpn_indices.tsv" := Readable [crafted_line] ]} ∅ ∅.

Definition nothing : World Sentence := MkWorld ∅ ∅ ∅ ∅.

End Scenario.

(** ** Writing the indices table

    The lines a writer of the table produces, to state what reading them
    gives back. *)

From Stdlib Require DecimalString DecimalPos.

(** [str(n)] for an integer. *)
Definition str_int (n : Z) : string :=
  DecimalString.NilEmpty.string_of_int (Z.to_int n).

Module Tsv.

Definition QUOTE : ascii := "034"%char.

(** The characters that must be escaped inside a field. *)
Definition special (c : ascii) : bool :=
  Ascii.eqb c JpnIndices.TAB || Ascii.eqb c JpnIndices.BACKSLASH || Ascii.eqb c QUOTE.

(** A backslash before every tab, backslash and quote. *)
Fixpoint escape (s : string) : string :=
  match s with
  | EmptyString => EmptyString
  | String c s' =>
      if special c then String JpnIndices.BACKSLASH (String c (escape s'))
      else String c (escape s')
  end.

(** No line end inside the text. *)
Fixpoint one_line (s : string) : bool :=
  match s with
  | EmptyString => true
  | String c s' => negb (csv.is_nl c) && one_line s'
  end.

(** A field the reader accepts whole: one line, of at most as many
    characters as the field limit. *)
Definition field_ok (f : string) : bool :=
  one_line f && (Z.of_nat (csv.field_len f) <=? csv.field_limit).

(** The fields of a row, each written by [w], separated by tabs. *)
Fixpoint join (w : string → string) (row : list string) : string :=
  match row with
  | [] => EmptyString
  | [f] => w f
  | f :: rest => w f +:+ String JpnIndices.TAB (join w rest)
  end.

(** The line of a row, every field escaped; the empty row is a blank line. *)
Definition line (row : list string) : string :=
  join escape row +:+ String csv.LF EmptyString.

(** A row that can be written: its fields are accepted, and it is not the
    single empty field, whose line would be blank. *)
Definition row_ok (row : list string) : bool :=
  forallb field_ok row && negb (bool_decide (row = [EmptyString])).

(** The line of an entry of the indices table. *)
Definition index_line (e : Z * Z * string) : string :=
  line [str_int e.1.1; str_int e.1.2; e.2].

(** An entry whose three fields the reader accepts whole. *)
Definition entry_ok (e : Z * Z * string) : bool :=
  (Z.of_nat (csv.field_len (str_int e.1.1)) <=? csv.field_limit)
  && (Z.of_nat (csv.field_len (str_int e.1.2)) <=? csv.field_limit)
  && field_ok e.2.

(** A text with no quote and no backslash in it; tabs and line ends are
    allowed. *)
Fixpoint quotable (s : string) : bool :=
  match s with
  | EmptyString => true
  | String c s' =>
      negb (Ascii.eqb c QUOTE) && negb (Ascii.eqb c JpnIndices.BACKSLASH) && quotable s'
  end.

(** A line whose third column is the text [s] between quotes. *)
Definition quoted_line (a b s : string) : string :=
  escape a +:+ String JpnIndices.TAB
    (escape b +:+ String JpnIndices.TAB
       (String QUOTE (s +:+ String QUOTE (String csv.LF EmptyString)))).

(** A line whose third column starts with a quote that is never closed. *)
Definition open_quote_line (a b s : string) : string :=
  escape a +:+ String JpnIndices.TAB
    (escape b +:+ String JpnIndices.TAB (String QUOTE (s +:+ String csv.LF EmptyString))).

(** The lines of a file, one after the other. *)
Definition concat (lines : list string) : string :=
  foldr String.append EmptyString lines.

(** The reader is at a place where the characters of a field are read:
    inside an unquoted field, or at the start of a field or of a record
    with nothing read yet. *)
Definition in_a_field (self : csv.ReaderObj) : Prop :=
  csv.state self = csv.IN_FIELD
  ∨ ((csv.state self = csv.START_FIELD ∨ csv.state self = csv.START_RECORD)
     ∧ csv.field self = EmptyString).

(** The field being read has room for the character [c]. *)
Definition has_room (self : csv.ReaderObj) (c : ascii) : Prop :=
  csv.is_continuation c = true
  ∨ Z.of_nat (csv.field_len (csv.field self)) < csv.field_limit.

(** The reader after the characters of a field were read. *)
Definition after_field (self : csv.ReaderObj) (f : string) : csv.ReaderObj :=
  match f with
  | EmptyString => self
  | _ => csv.MkReader csv.IN_FIELD (csv.fields self) (csv.field self +:+ f)
  end.

(** A line that, read from the start of a record, completes the record
    with the fields of [row]. *)
Definition reads_as (line : string) (row : list string) : Prop :=
  csv.process_line JpnIndices.dialect csv.parse_reset line
  = Ok (csv.MkReader csv.START_RECORD row EmptyString).

End Tsv.

(** The value of a column of a row, [None] past its end. *)
Definition column (row : list string) (i : nat) : pyval :=
  match row !! i with
  | Some s => PyStr s
  | None => PyNone
  end.

(** The record of a row of at most three columns. *)
Definition row_record (row : list string) : JpnIndex.t :=
  JpnIndex.Make (column row 0) (column row 1) (column row 2).

(** The rows that come before the first one with more than three columns. *)
Fixpoint fitting_prefix (rows : list (list string)) : list (list string) :=
  match rows with
  | [] => []
  | row :: rest => if (length row <=? 3)%nat then row :: fitting_prefix rest else []
  end.

(** Every row has at most three columns. *)
Definition all_fit (rows : list (list string)) : bool :=
  forallb (λ row, (length row <=? 3)%nat) rows.

(** The rows that are not blank lines. *)
Definition non_blank (rows : list (list string)) : list (list string) :=
  filter (λ row, row ≠ []) rows.

(** ** Reading a trace *)

(** One scoped lookup of the registry. *)
Definition version_lookup (filename : string) : list event :=
  [EvVersionEnter; EvVersionGet filename; EvVersionExit].

(** The filenames looked up in the registry, the errors logged. *)
Definition registry_gets (evs : list event) : list string :=
  omap (λ ev, match ev with EvVersionGet k => Some k | _ => None end) evs.

Definition errors (evs : list event) : list string :=
  omap (λ ev, match ev with EvLog ERROR msg => Some msg | _ => None end) evs.

Section Tables.
Context {V : Type}.
Variable DATA_DIR : string.

(** The records of the link file of a pair and of the sentence file of a
    language, none when the file is not there. *)
Definition links_of (w : World V) (src tgt : string) : list Link.t :=
  default [] (links_files w !! Links.path DATA_DIR (Links.new src tgt)).

Definition sentences_of (w : World V) (lg : string) : list V :=
  default [] (sentences_files w !! SentencesDetailed.path DATA_DIR (SentencesDetailed.new lg)).

End Tables.

(** ** Concrete indices tables *)
Module Sample.

Definition path : string := JpnIndices.path Scenario.DATA_DIR JpnIndices.new.

Definition table (lines : list string) : World Scenario.Sentence :=
  MkWorld ∅ {[ path := Readable lines ]} ∅ ∅.

(** The same table, when reading it fails after [lines]. *)
Definition failing (lines : list string) (f : read_failure) : World Scenario.Sentence :=
  MkWorld ∅ {[ path := Broken lines f ]} ∅ ∅.

(** A full row, a blank line, a row without text, a row with one column. *)
Definition ragged : list (list string) :=
  [["1"; "5"; "こんにちは"]; []; ["2"; "6"]; ["3"]].

(** A row with a fourth column between two full rows. *)
Definition wide : list string := ["2"; "6"; "b"; "c"].

Definition around_wide : list (list string) :=
  [["1"; "5"; "a"]] ++ wide :: [["3"; "7"; "d"]].

(** Entries, one with a negative identifier and a text holding a tab, a
    backslash and a quote. *)
Definition tricky : string :=
  "a" +:+ String JpnIndices.TAB ("b" +:+ String JpnIndices.BACKSLASH (String Tsv.QUOTE "c")).

Definition entries : list (Z * Z * string) :=
  [(7, 42, "ハロー"); (-3, 0, tricky)].

(** A text with a tab in it. *)
Definition spaced : string := "x" +:+ String JpnIndices.TAB "y".

Definition with_quoted : list string :=
  (Tsv.line <$> [["1"; "5"; "a"]])
  ++ Tsv.quoted_line "2" "6" spaced :: (Tsv.line <$> [["3"; "7"; "d"]]).

Definition with_open_quote : list string :=
  (Tsv.line <$> [["1"; "5"; "a"]])
  ++ Tsv.open_quote_line "2" "6" "x" :: [Tsv.line ["3"; "7"; "d"]].

End Sample.

(** * Properties *)

(** ** Generators *)

Section GenFacts.
Context {Y : Type}.

Lemma seq_effect (ev : event) (r : run Y) :
  Gen.seq (Gen.effect ev) r = MkRun (inl ev :: trace r) (outcome r).
Proof. reflexivity. Qed.

Lemma seq_yield (y : Y) (r : run Y) :
  Gen.seq (Gen.yield y) r = MkRun (inr y :: trace r) (outcome r).
Proof. reflexivity. Qed.

Lemma for_list_yield (xs : list Y) :
  Gen.for_list xs Gen.yield = MkRun (inr <$> xs) None.
Proof.
  unfold Gen.for_list. induction xs as [|x xs IH]; [done|].
  cbn [fmap list_fmap Gen.for_each]. fold (fmap (M:=list) (@inr event Y)).
  by rewrite IH.
Qed.

Lemma for_each_effects {A} (evs : list event) (tr : list (event + A)) o (body : A → run Y) :
  Gen.for_each ((inl <$> evs) ++ tr) o body
  = MkRun ((inl <$> evs) ++ trace (Gen.for_each tr o body)) (outcome (Gen.for_each tr o body)).
Proof.
  induction evs as [|ev evs IH]; cbn [fmap list_fmap app Gen.for_each].
  - by destruct (Gen.for_each tr o body).
  - fold (fmap (M:=list) (@inl event A)). fold (fmap (M:=list) (@inl event Y)).
    by rewrite IH, seq_effect.
Qed.

Lemma yielded_effects_items (evs : list event) (xs : list Y) o :
  Gen.yielded (MkRun ((inl <$> evs) ++ (inr <$> xs)) o) = xs.
Proof.
  unfold Gen.yielded. cbn [trace]. rewrite omap_app.
  induction evs as [|ev evs IH]; cbn.
  - induction xs as [|x xs IHx]; [done|]. cbn. by f_equal.
  - exact IH.
Qed.

End GenFacts.

(** ** The Japanese indices table *)

Section JpnIndicesFacts.
Context {V : Type}.
Variable DATA_DIR : string.

(** Opening a file fails with an [OSError] only. *)
Lemma open_raises_OSError (p : string) (w : World V) (e : exn) :
  Gen.open p w = Raise e → is_OSError e = true.
Proof.
  unfold Gen.open. destruct (fs w !! p) as [[lines|lines f|]|]; intros H; by simplify_eq.
Qed.

(** C5. When the datafile of the table cannot be opened, iterating the
    table yields nothing and ends normally (nothing propagates to the
    caller): all it does is try to open the file and log one warning,
    whose text names the table. *)
Theorem iter_unopenable_logs_warning (self : JpnIndices.t) (w : World V) (e : exn) :
  Gen.open (JpnIndices.path DATA_DIR self) w = Raise e →
  let r := JpnIndices.__iter__ DATA_DIR self w in
  Gen.yielded r = []
  ∧ outcome r = None
  ∧ ∃ msg, Gen.effects r = [EvOpen (JpnIndices.path DATA_DIR self); EvLog WARNING msg]
           ∧ contains JpnIndices._table msg = true.
Proof.
  intros Hopen r. subst r.
  pose proof (open_raises_OSError _ _ _ Hopen) as HOS.
  unfold JpnIndices.__iter__, Gen.with_open. rewrite Hopen.
  unfold Gen.try_except. cbn [Gen.call Gen.seq Gen.effect Gen.raise outcome trace].
  rewrite HOS. cbn [outcome trace app].
  split; [done|]. split; [done|].
  eexists. split; [reflexivity|]. by vm_compute.
Qed.

(** The first access: on an instance that holds no cached version, the
    property acquires the registry, looks the filename of the table up,
    releases the registry, and returns what the registry holds, having
    stored it on the instance. *)
Lemma version_first_access (w : World V) (self : JpnIndices.t) :
  JpnIndices._lazy_version self = None →
  JpnIndices.version self w
  = (Ok (versions w !! JpnIndices.filename self,
         JpnIndices.Make (Some (versions w !! JpnIndices.filename self))),
     w, [EvVersionEnter; EvVersionGet (JpnIndices.filename self); EvVersionExit]).
Proof.
  intros Hc. unfold JpnIndices.version, lazy_property. rewrite Hc. reflexivity.
Qed.

(** C6. The version of an instance is computed once: the first access
    looks the filename up in the registry, between acquiring and
    releasing it, and gives [None] when the registry does not hold the
    filename; every later access, whatever the registry has become,
    returns the value of the first one without touching the registry, and
    leaves the instance as it is. *)
Theorem version_computed_once (w : World V) :
  let first := JpnIndices.version JpnIndices.new w in
  ∃ v self',
    value first = Ok (v, self')
    ∧ v = versions w !! JpnIndices.filename JpnIndices.new
    ∧ events first
      = [EvVersionEnter; EvVersionGet (JpnIndices.filename JpnIndices.new); EvVersionExit]
    ∧ (versions w !! JpnIndices.filename JpnIndices.new = None → v = None)
    ∧ ∀ w' : World V, JpnIndices.version self' w' = (Ok (v, self'), w', []).
Proof.
  intros first. subst first. rewrite version_first_access by done.
  eexists _, _. split; [reflexivity|]. split; [reflexivity|].
  split; [reflexivity|]. split; [done|].
  intros w'. reflexivity.
Qed.

(** C7. A datafile made of the crafted line yields one record, whose
    [sentence_id] is the integer 7, whose [meaning_id] is the integer 42
    and whose [text] is the text of the third column. *)
Theorem crafted_line_parses (self : JpnIndices.t) (w : World V) :
  fs w !! JpnIndices.path DATA_DIR self = Some (Readable [crafted_line]) →
  let r := JpnIndices.__iter__ DATA_DIR self w in
  outcome r = None
  ∧ ∃ idx, Gen.yielded r = [idx]
           ∧ JpnIndex.sentence_id idx = Ok 7
           ∧ JpnIndex.meaning_id idx = Ok 42
           ∧ JpnIndex.text idx = PyStr "ハロー".
Proof.
  intros Hfile r. subst r.
  unfold JpnIndices.__iter__, Gen.with_open, Gen.open. rewrite Hfile.
  split; [by vm_compute|].
  eexists. split; [by vm_compute|]. by vm_compute.
Qed.

End JpnIndicesFacts.

(** ** The link table *)

Section LinksFacts.
Context {V : Type}.
Variable DATA_DIR : string.

(** Iterating the link table tries to open its file, then either yields
    the records in file order or logs a warning; it never fails. *)
Lemma Links_iter_run (self : Links.t) (w : World V) :
  ∃ evs, Links.__iter__ DATA_DIR self w
         = MkRun ((inl <$> (EvOpen (Links.path DATA_DIR self) :: evs))
                  ++ (inr <$> default [] (links_files w !! Links.path DATA_DIR self))) None.
Proof.
  unfold Links.__iter__, Links.open.
  destruct (links_files w !! Links.path DATA_DIR self) as [rows|].
  - exists []. cbn [Gen.call]. rewrite for_list_yield. reflexivity.
  - eexists [_]. reflexivity.
Qed.

Lemma Links_iter_yielded (self : Links.t) (w : World V) :
  Gen.yielded (Links.__iter__ DATA_DIR self w)
  = default [] (links_files w !! Links.path DATA_DIR self).
Proof.
  destruct (Links_iter_run self w) as [evs ->]. apply yielded_effects_items.
Qed.

End LinksFacts.

(** ** The parallel corpus: iteration *)

Section IterFacts.
Context {V : Type}.
Variable DATA_DIR : string.

Implicit Types (self : ParallelCorpus.t V) (w : World V) (lk : Link.t).

(** The body of the loop of [__iter__]. *)
Local Abbreviation body self :=
  (λ lk, Gen.call (ParallelCorpus.getitem (ParallelCorpus._sentences self) (Link.sentence_id lk))
     (λ s, Gen.call (ParallelCorpus.getitem (ParallelCorpus._translations self)
                       (Link.translation_id lk))
        (λ t, Gen.yield (s, t)))).

Lemma truthy_false (d : gmap Z V) : ParallelCorpus.truthy d = false ↔ d = ∅.
Proof.
  unfold ParallelCorpus.truthy. rewrite negb_false_iff, Nat.eqb_eq.
  apply map_size_empty_iff.
Qed.

Lemma body_present self lk :
  both_present self lk = true →
  ∃ p, pair_of self lk = Some p ∧ body self lk = Gen.yield p.
Proof.
  unfold both_present, pair_of, ParallelCorpus.getitem.
  intros [[s Hs]%bool_decide_eq_true [t Ht]%bool_decide_eq_true]%andb_true_iff.
  rewrite Hs, Ht. eexists. split; reflexivity.
Qed.

Lemma body_missing self lk :
  both_present self lk = false →
  body self lk = Gen.raise (KeyError (missing_key self lk)).
Proof.
  unfold both_present, missing_key, ParallelCorpus.getitem.
  destruct (ParallelCorpus._sentences self !! Link.sentence_id lk) as [s|]; [|done].
  destruct (ParallelCorpus._translations self !! Link.translation_id lk) as [t|]; [|done].
  intros H. exfalso. apply andb_false_iff in H.
  destruct H as [H|H]; apply bool_decide_eq_false in H; apply H; eauto.
Qed.

(** The join over a list of links: the pairs of the links before the
    first one with a missing identifier, then the failed lookup. *)
Lemma join_run self (links : list Link.t) :
  Gen.for_list links (body self)
  = MkRun (inr <$> omap (pair_of self) (present_prefix self links))
          (match drop (length (present_prefix self links)) links with
           | [] => None
           | lk :: _ => Some (KeyError (missing_key self lk))
           end).
Proof.
  unfold Gen.for_list. induction links as [|lk links IH]; [done|].
  cbn [fmap list_fmap Gen.for_each present_prefix].
  fold (fmap (M:=list) (@inr event Link.t)).
  destruct (both_present self lk) eqn:Hp.
  - destruct (body_present self lk Hp) as (p & Hpair & ->).
    rewrite IH, seq_yield. cbn [omap list_omap]. rewrite Hpair. reflexivity.
  - rewrite (body_missing self lk Hp). reflexivity.
Qed.

Lemma present_prefix_length_omap self (links : list Link.t) :
  length (omap (pair_of self) (present_prefix self links))
  = length (present_prefix self links).
Proof.
  induction links as [|lk links IH]; [done|]. cbn [present_prefix].
  destruct (both_present self lk) eqn:Hp; [|done].
  destruct (body_present self lk Hp) as (p & Hpair & _).
  cbn [omap list_omap]. rewrite Hpair. cbn. by rewrite <- IH.
Qed.

Lemma present_prefix_all self (links : list Link.t) :
  forallb (both_present self) links = true →
  present_prefix self links = links ∧ filter (λ lk, both_present self lk = true) links = links.
Proof.
  induction links as [|lk links IH]; [done|]. cbn [forallb present_prefix].
  intros [Hp Hrest]%andb_true_iff. rewrite Hp.
  destruct (IH Hrest) as [-> Hf]. split; [done|].
  rewrite filter_cons_True by done. by rewrite Hf.
Qed.

(** What iterating a corpus with two non-empty maps does. *)
Lemma iter_run_truthy self w :
  ParallelCorpus.truthy (ParallelCorpus._sentences self) = true →
  ParallelCorpus.truthy (ParallelCorpus._translations self) = true →
  Gen.yielded (ParallelCorpus.__iter__ DATA_DIR self w)
  = omap (pair_of self) (present_prefix self (link_records DATA_DIR self w))
  ∧ outcome (ParallelCorpus.__iter__ DATA_DIR self w)
    = match drop (length (present_prefix self (link_records DATA_DIR self w)))
              (link_records DATA_DIR self w) with
      | [] => None
      | lk :: _ => Some (KeyError (missing_key self lk))
      end.
Proof.
  intros Hs Ht. unfold ParallelCorpus.__iter__, link_records.
  rewrite Hs, Ht. cbn [andb].
  rewrite Links_iter_yielded.
  destruct (Links_iter_run DATA_DIR
              (Links.new (ParallelCorpus._src_lg self) (ParallelCorpus._tgt_lg self)) w)
    as [evs ->].
  cbn [trace outcome]. rewrite for_each_effects.
  fold (Gen.for_list (Y:=V*V)
          (default [] (links_files w !! Links.path DATA_DIR
             (Links.new (ParallelCorpus._src_lg self) (ParallelCorpus._tgt_lg self))))
          (body self)).
  rewrite join_run. cbn [trace outcome]. split; [|done].
  apply yielded_effects_items.
Qed.

(** What iterating a corpus with an empty map does: nothing. *)
Lemma iter_run_falsy self w :
  ParallelCorpus._sentences self = ∅ ∨ ParallelCorpus._translations self = ∅ →
  ParallelCorpus.__iter__ DATA_DIR self w = Gen.skip.
Proof.
  intros H. unfold ParallelCorpus.__iter__.
  destruct H as [H|H]; apply truthy_false in H; rewrite H; [done|].
  by rewrite andb_false_r.
Qed.

Lemma present_prefix_empty_map self (links : list Link.t) :
  ParallelCorpus._sentences self = ∅ ∨ ParallelCorpus._translations self = ∅ →
  present_prefix self links = [].
Proof.
  intros H. destruct links as [|lk links]; [done|]. cbn [present_prefix].
  assert (both_present self lk = false) as ->; [|done].
  unfold both_present. apply andb_false_iff.
  destruct H as [H|H]; rewrite H, lookup_empty; [left|right];
    apply bool_decide_eq_false; by intros [? ?].
Qed.

End IterFacts.

(** ** The parallel corpus: construction *)

Section ConstructionFacts.
Context {V : Type}.
Variable DATA_DIR : string.
Variable sentence_id : V → Z.
Variable Tatoeba_update : gset string → gset string → bool → World V → World V.

Implicit Types (self : ParallelCorpus.t V) (w : World V).

(** Reading a version on a fresh instance. *)
Lemma Links_version_new (src tgt : string) w :
  Links.version (Links.new src tgt) w
  = (Ok (links_version w src tgt, Links.Make src tgt (Some (links_version w src tgt))), w,
     [EvVersionEnter; EvVersionGet (Links.filename (Links.new src tgt)); EvVersionExit]).
Proof. reflexivity. Qed.

Lemma Links_version_cached (src tgt : string) (v : option datetime) w :
  Links.version (Links.Make src tgt (Some v)) w = (Ok (v, Links.Make src tgt (Some v)), w, []).
Proof. reflexivity. Qed.

Lemma Sentences_version_new (lg : string) w :
  SentencesDetailed.version (SentencesDetailed.new lg) w
  = (Ok (sentences_version w lg, SentencesDetailed.Make lg (Some (sentences_version w lg))), w,
     [EvVersionEnter; EvVersionGet (SentencesDetailed.filename (SentencesDetailed.new lg));
      EvVersionExit]).
Proof. reflexivity. Qed.

Lemma Sentences_version_cached (lg : string) (v : option datetime) w :
  SentencesDetailed.version (SentencesDetailed.Make lg (Some v)) w
  = (Ok (v, SentencesDetailed.Make lg (Some v)), w, []).
Proof. reflexivity. Qed.

(** Reading the tables never fails and leaves the local data as it is. *)
Lemma Links_ids_run (links : Links.t) w :
  ∃ ids evs, Links.ids DATA_DIR links w = (Ok ids, w, evs).
Proof.
  unfold Links.ids, bind, consume, ret.
  destruct (Links_iter_run DATA_DIR links w) as [evs ->]. cbn [outcome].
  eexists _, _. reflexivity.
Qed.

Lemma Sentences_iter_outcome (corpus : SentencesDetailed.t) w :
  outcome (SentencesDetailed.__iter__ DATA_DIR corpus w) = None.
Proof.
  unfold SentencesDetailed.__iter__, SentencesDetailed.open.
  destruct (sentences_files w !! SentencesDetailed.path DATA_DIR corpus) as [rows|].
  - cbn [Gen.call]. by rewrite for_list_yield.
  - reflexivity.
Qed.

Lemma Sentences_get_run (corpus : SentencesDetailed.t) (ids : gset Z) (verbose : bool) w :
  ∃ found evs,
    SentencesDetailed.get DATA_DIR sentence_id corpus ids verbose w = (Ok found, w, evs).
Proof.
  unfold SentencesDetailed.get, bind, consume, ret.
  rewrite Sentences_iter_outcome. eexists _, _. reflexivity.
Qed.

(** Loading: with three versions of one date the two maps are filled;
    otherwise the corpus is left as it was and the last thing done is to
    log the error, for a missing version or for differing dates.  In both
    cases the call returns and the local data are untouched. *)
Lemma load_run self w :
  let src := ParallelCorpus._src_lg self in
  let tgt := ParallelCorpus._tgt_lg self in
  ∃ self' evs,
    ParallelCorpus._load DATA_DIR sentence_id self w = (Ok self', w, evs)
    ∧ ParallelCorpus._src_lg self' = src
    ∧ ParallelCorpus._tgt_lg self' = tgt
    ∧ (consistent w src tgt = false →
         self' = self
         ∧ ∃ evs', evs = evs' ++ [EvLog ERROR (if all_present w src tgt
                                              then ParallelCorpus.differ_msg self
                                              else ParallelCorpus.missing_msg self)]).
Proof.
  intros src tgt.
  unfold ParallelCorpus._load, consistent, all_present. fold src tgt.
  cbv beta iota zeta delta [bind ret lift logger_error emit].
  rewrite Links_version_new. cbv beta iota zeta.
  destruct (links_version w src tgt) as [vl|];
    cbv beta iota zeta delta [ParallelCorpus.not_];
    [|eexists _, _; do 3 (split; [reflexivity|]); intros _; split; [done|];
      by eexists [_; _; _]].
  rewrite Sentences_version_new. cbv beta iota zeta.
  destruct (sentences_version w src) as [vs|];
    cbv beta iota zeta delta [ParallelCorpus.not_];
    [|eexists _, _; do 3 (split; [reflexivity|]); intros _; split; [done|];
      by eexists [_; _; _; _; _; _]].
  rewrite Sentences_version_new. cbv beta iota zeta.
  destruct (sentences_version w tgt) as [vt|];
    cbv beta iota zeta delta [ParallelCorpus.not_];
    [|eexists _, _; do 3 (split; [reflexivity|]); intros _; split; [done|];
      by eexists [_; _; _; _; _; _; _; _; _]].
  rewrite Links_version_cached. cbv beta iota zeta delta [date_method].
  rewrite Sentences_version_cached. cbv beta iota zeta.
  cbn [bool_decide andb]. 
  destruct (decide (dt_date vl = dt_date vs)) as [Hls|Hls];
    [rewrite (bool_decide_eq_true_2 _ Hls)|rewrite (bool_decide_eq_false_2 _ Hls)];
    cbv beta iota zeta;
    [|eexists _, _; do 3 (split; [reflexivity|]); intros _; split; [done|];
      by eexists [_; _; _; _; _; _; _; _; _]].
  rewrite Sentences_version_cached. cbv beta iota zeta.
  destruct (decide (dt_date vs = dt_date vt)) as [Hst|Hst];
    [rewrite (bool_decide_eq_true_2 _ Hst)|rewrite (bool_decide_eq_false_2 _ Hst)];
    cbv beta iota zeta; cbn [negb andb];
    [|eexists _, _; do 3 (split; [reflexivity|]); intros _; split; [done|];
      by eexists [_; _; _; _; _; _; _; _; _]].
  destruct (Links_ids_run (Links.Make src tgt (Some (Some vl))) w) as ([sids tids] & e1 & ->).
  cbv beta iota zeta.
  destruct (Sentences_get_run (SentencesDetailed.Make src (Some (Some vs))) sids
              (ParallelCorpus._vb self) w) as (found1 & e2 & ->).
  cbv beta iota zeta.
  destruct (Sentences_get_run (SentencesDetailed.Make tgt (Some (Some vt))) tids
              (ParallelCorpus._vb self) w) as (found2 & e3 & ->).
  cbv beta iota zeta.
  eexists _, _. do 3 (split; [reflexivity|]). intros ?; discriminate.
Qed.

(** C4. An update that is demanded: whatever the local data and whatever
    the verbosity of the corpus, the updater is called once, with the two
    table names, the two language codes and [verbose=False]. *)
Theorem update_demanded (src tgt : string) (vb : bool) (s t : gmap Z V) w :
  let r := ParallelCorpus._update Tatoeba_update (ParallelCorpus.Make src tgt true vb s t) w in
  value r = Ok tt
  ∧ update_calls (events r) = [({["sentences_detailed"; "links"]}, {[src; tgt]}, false)]
  ∧ world_after r
    = Tatoeba_update {["sentences_detailed"; "links"]} {[src; tgt]} false w.
Proof.
  cbv [ParallelCorpus._update ParallelCorpus._upd ParallelCorpus._src_lg ParallelCorpus._tgt_lg
       bind ret ParallelCorpus.update_call value world_after events fst snd app update_calls
       omap list_omap].
  rewrite !(left_id_L ∅ (∪)). done.
Qed.

(** C3. An update that is not demanded: the updater is called once, with
    [verbose=False]; a table name is passed exactly when a table of that
    name lacks a version, a language code exactly when its sentence table
    or the link table of the pair lacks one; with the three versions
    present both sets are empty. *)
Theorem update_missing_only (src tgt : string) (vb : bool) (s t : gmap Z V) w :
  let r := ParallelCorpus._update Tatoeba_update (ParallelCorpus.Make src tgt false vb s t) w in
  ∃ tables langs : gset string,
    value r = Ok tt
    ∧ update_calls (events r) = [(tables, langs, false)]
    ∧ world_after r = Tatoeba_update tables langs false w
    ∧ (∀ x, x ∈ tables ↔
         (x = "sentences_detailed"
          ∧ (sentences_version w src = None ∨ sentences_version w tgt = None))
         ∨ (x = "links" ∧ links_version w src tgt = None))
    ∧ (∀ l, l ∈ langs ↔
         (l = src ∧ (sentences_version w src = None ∨ links_version w src tgt = None))
         ∨ (l = tgt ∧ (sentences_version w tgt = None ∨ links_version w src tgt = None)))
    ∧ (all_present w src tgt = true → tables = ∅ ∧ langs = ∅).
Proof.
  intros r. subst r.
  unfold ParallelCorpus._update, all_present.
  cbn [ParallelCorpus._upd ParallelCorpus._src_lg ParallelCorpus._tgt_lg].
  cbv beta iota zeta delta [bind ret].
  rewrite Sentences_version_new. cbv beta iota zeta.
  destruct (sentences_version w src) as [vs|] eqn:Hs;
    cbv beta iota zeta delta [ParallelCorpus.not_];
    rewrite Sentences_version_new; cbv beta iota zeta;
    destruct (sentences_version w tgt) as [vt|] eqn:Ht;
    cbv beta iota zeta delta [ParallelCorpus.not_];
    rewrite Links_version_new; cbv beta iota zeta;
    destruct (links_version w src tgt) as [vl|] eqn:Hl;
    cbv beta iota zeta delta [ParallelCorpus.not_ ParallelCorpus.update_call value world_after
                              events fst snd];
    eexists _, _; (split; [reflexivity|]); (split; [reflexivity|]); (split; [reflexivity|]);
    (split; [|split; [|cbn; done]]);
    intros x; rewrite ?elem_of_union, ?elem_of_singleton, ?elem_of_empty;
    intuition (auto; discriminate).
Qed.

End ConstructionFacts.

Section CorpusClaims.
Context {V : Type}.
Variable DATA_DIR : string.
Variable sentence_id : V → Z.
Variable Tatoeba_update : gset string → gset string → bool → World V → World V.

Implicit Types (self : ParallelCorpus.t V) (w : World V).

(** The update step always returns, having called the updater. *)
Lemma update_run self w :
  ∃ tables langs evs,
    ParallelCorpus._update Tatoeba_update self w
    = (Ok tt, Tatoeba_update tables langs false w, evs).
Proof.
  unfold ParallelCorpus._update.
  cbv beta iota zeta delta [bind ret].
  destruct (ParallelCorpus._upd self).
  - eexists _, _, _. reflexivity.
  - rewrite Sentences_version_new. cbv beta iota zeta.
    destruct (sentences_version w (ParallelCorpus._src_lg self));
      cbv beta iota zeta delta [ParallelCorpus.not_];
      rewrite Sentences_version_new; cbv beta iota zeta;
      destruct (sentences_version w (ParallelCorpus._tgt_lg self));
      cbv beta iota zeta delta [ParallelCorpus.not_];
      rewrite Links_version_new; cbv beta iota zeta;
      destruct (links_version w (ParallelCorpus._src_lg self) (ParallelCorpus._tgt_lg self));
      cbv beta iota zeta delta [ParallelCorpus.not_ ParallelCorpus.update_call];
      eexists _, _, _; reflexivity.
Qed.

(** C2. Construction always returns a corpus, after one call of the
    updater.  Iterating that corpus, in any later state of the local data,
    yields a pair only if, in the data the updater left, the three tables
    had a version and the three dates were equal.  Otherwise iteration
    yields nothing and ends normally, and construction has logged an error
    whose text names the pair of languages and the failure: the pair
    followed by "missing data file(s)" when a version is absent, by "data
    files' versions difer" when the dates differ. *)
Theorem construction_gate (src tgt : string) (upd vb : bool) w0 :
  let r := ParallelCorpus.__init__ DATA_DIR sentence_id Tatoeba_update src tgt upd vb w0 in
  let w1 := world_after r in
  ∃ self,
    value r = Ok self
    ∧ (∃ tables langs, w1 = Tatoeba_update tables langs false w0)
    ∧ (∀ w, Gen.yielded (ParallelCorpus.__iter__ DATA_DIR self w) ≠ [] →
            consistent w1 src tgt = true)
    ∧ (consistent w1 src tgt = false →
         (∀ w, Gen.yielded (ParallelCorpus.__iter__ DATA_DIR self w) = []
               ∧ outcome (ParallelCorpus.__iter__ DATA_DIR self w) = None)
         ∧ EvLog ERROR
             (src +:+ "-" +:+ tgt
              +:+ (if all_present w1 src tgt
                   then " parralel corpus: data files' versions difer. please update your data."
                   else " parralel corpus: missing data file(s). please update your data."))
           ∈ events r).
Proof.
  intros r w1. subst w1 r. unfold ParallelCorpus.__init__.
  cbv beta iota zeta delta [bind ret].
  destruct (update_run (ParallelCorpus.Make src tgt upd vb ∅ ∅) w0)
    as (tables & langs & e1 & ->).
  cbv beta iota zeta.
  destruct (load_run DATA_DIR sentence_id (ParallelCorpus.Make src tgt upd vb ∅ ∅)
              (Tatoeba_update tables langs false w0))
    as (self' & e2 & -> & Hsrc & Htgt & Hbad).
  cbn [ParallelCorpus._src_lg ParallelCorpus._tgt_lg] in Hsrc, Htgt, Hbad.
  cbv beta iota zeta delta [value world_after events fst snd].
  exists self'. split; [reflexivity|]. split; [by eexists _, _|].
  assert (consistent (Tatoeba_update tables langs false w0) src tgt = false →
          ∀ w, ParallelCorpus.__iter__ DATA_DIR self' w = Gen.skip) as Hskip.
  { intros Hc w. destruct (Hbad Hc) as [-> _]. apply iter_run_falsy. by left. }
  split.
  - intros w Hy.
    destruct (consistent (Tatoeba_update tables langs false w0) src tgt) eqn:Hc; [done|].
    exfalso. apply Hy. by rewrite Hskip.
  - intros Hc. split.
    + intros w. by rewrite Hskip.
    + destruct (Hbad Hc) as [-> [evs' ->]].
      rewrite app_nil_r. apply elem_of_app. right.
      apply elem_of_app. right. apply list_elem_of_singleton.
      by destruct (all_present (Tatoeba_update tables langs false w0) src tgt).
Qed.

(** C1, as the code has it.  The number of pairs iteration yields is the
    number of link records that come before the first record with an
    identifier missing from the loaded maps; when no record has a missing
    identifier this is the number of link records whose two identifiers
    are keys of the maps, and iteration ends normally. *)
Theorem iter_count_present_prefix self w :
  let r := ParallelCorpus.__iter__ DATA_DIR self w in
  let links := link_records DATA_DIR self w in
  length (Gen.yielded r) = length (present_prefix self links)
  ∧ (forallb (both_present self) links = true →
       length (Gen.yielded r) = length (filter (λ lk, both_present self lk = true) links)
       ∧ outcome r = None).
Proof.
  intros r links. subst r links.
  destruct (ParallelCorpus.truthy (ParallelCorpus._sentences self)) eqn:Hs;
    [destruct (ParallelCorpus.truthy (ParallelCorpus._translations self)) eqn:Ht|].
  - destruct (iter_run_truthy DATA_DIR self w Hs Ht) as [-> ->].
    rewrite present_prefix_length_omap. split; [done|].
    intros Hall. destruct (present_prefix_all self _ Hall) as [-> ->].
    by rewrite drop_all.
  - apply truthy_false in Ht.
    rewrite iter_run_falsy by (by right).
    rewrite present_prefix_empty_map by (by right). split; [done|].
    intros Hall. destruct (present_prefix_all self _ Hall) as [Hp ->].
    rewrite <- Hp. by rewrite present_prefix_empty_map by (by right).
  - apply truthy_false in Hs.
    rewrite iter_run_falsy by (by left).
    rewrite present_prefix_empty_map by (by left). split; [done|].
    intros Hall. destruct (present_prefix_all self _ Hall) as [Hp ->].
    rewrite <- Hp. by rewrite present_prefix_empty_map by (by left).
Qed.

Lemma present_prefix_stops self (before after : list Link.t) (lk : Link.t) :
  forallb (both_present self) before = true →
  both_present self lk = false →
  present_prefix self (before ++ lk :: after) = before.
Proof.
  intros Hb Hlk. induction before as [|b before IH]; cbn [app present_prefix].
  - by rewrite Hlk.
  - cbn [forallb] in Hb. apply andb_true_iff in Hb as [Hb1 Hb2].
    rewrite Hb1. by rewrite IH.
Qed.

(** C9. With two non-empty maps, at the first link record whose source or
    target identifier is not a key of its map, iteration raises [KeyError]
    for that identifier (the source one when both are missing): the pairs
    of the records before it were yielded, nothing is yielded for it or
    after it. *)
Theorem iter_raises_at_missing_id self w (before after : list Link.t) (lk : Link.t) :
  ParallelCorpus._sentences self ≠ ∅ →
  ParallelCorpus._translations self ≠ ∅ →
  link_records DATA_DIR self w = before ++ lk :: after →
  forallb (both_present self) before = true →
  ParallelCorpus._sentences self !! Link.sentence_id lk = None
  ∨ ParallelCorpus._translations self !! Link.translation_id lk = None →
  let r := ParallelCorpus.__iter__ DATA_DIR self w in
  Gen.yielded r = omap (pair_of self) before
  ∧ length (Gen.yielded r) = length before
  ∧ outcome r = Some (KeyError (missing_key self lk)).
Proof.
  intros Hs Ht Hlinks Hbefore Hlk r. subst r.
  assert (ParallelCorpus.truthy (ParallelCorpus._sentences self) = true) as Hs'.
  { apply not_false_iff_true. by rewrite truthy_false. }
  assert (ParallelCorpus.truthy (ParallelCorpus._translations self) = true) as Ht'.
  { apply not_false_iff_true. by rewrite truthy_false. }
  assert (both_present self lk = false) as Hmiss.
  { unfold both_present. apply andb_false_iff.
    destruct Hlk as [H|H]; rewrite H; [left|right];
      apply bool_decide_eq_false; by intros [? ?]. }
  destruct (iter_run_truthy DATA_DIR self w Hs' Ht') as [-> ->].
  rewrite Hlinks, (present_prefix_stops self before after lk Hbefore Hmiss).
  split; [done|]. split.
  - rewrite <- (present_prefix_stops self before after lk Hbefore Hmiss) at 1.
    rewrite present_prefix_length_omap.
    by rewrite (present_prefix_stops self before after lk Hbefore Hmiss).
  - by rewrite drop_app_length.
Qed.

(** C10. With an empty map of source sentences or an empty map of
    translations, iteration does nothing at all: no pair is yielded, it
    ends normally, and no file is opened, the link table included. *)
Theorem iter_empty_map_is_silent self w :
  ParallelCorpus._sentences self = ∅ ∨ ParallelCorpus._translations self = ∅ →
  let r := ParallelCorpus.__iter__ DATA_DIR self w in
  Gen.yielded r = []
  ∧ outcome r = None
  ∧ Gen.effects r = []
  ∧ Links.path DATA_DIR (Links.new (ParallelCorpus._src_lg self) (ParallelCorpus._tgt_lg self))
    ∉ opened (Gen.effects r).
Proof.
  intros H r. subst r. rewrite iter_run_falsy by done.
  repeat split; try done. cbn. apply not_elem_of_nil.
Qed.

End CorpusClaims.

(** ** The scenarios *)

(** C8. With the links 1 to 10 and 2 to 11 in the link file, in that
    order, a source map of 1 and 2 and a target map of 10 and 11,
    iteration yields the pair of the first link, then the pair of the
    second, and ends normally. *)
Theorem two_links_two_pairs (DATA_DIR src tgt : string) (upd vb : bool) (w : World string) :
  links_files w !! Links.path DATA_DIR (Links.new src tgt)
  = Some [Link.Make 1 10; Link.Make 2 11] →
  let self := ParallelCorpus.Make src tgt upd vb
                {[ 1 := "A"; 2 := "B" ]} {[ 10 := "X"; 11 := "Y" ]} in
  Gen.yielded (ParallelCorpus.__iter__ DATA_DIR self w) = [("A", "X"); ("B", "Y")]
  ∧ outcome (ParallelCorpus.__iter__ DATA_DIR self w) = None.
Proof.
  intros Hfile self.
  assert (link_records DATA_DIR self w = [Link.Make 1 10; Link.Make 2 11]) as Hrec.
  { unfold link_records. rewrite Links_iter_yielded. subst self.
    cbn [ParallelCorpus._src_lg ParallelCorpus._tgt_lg]. by rewrite Hfile. }
  destruct (iter_run_truthy DATA_DIR self w) as [-> ->]; [by vm_compute..|].
  rewrite Hrec. split; by vm_compute.
Qed.

(** C1, as it is claimed, fails: with the link to a missing French
    sentence first in the link file, the three tables being present with
    one date, construction loads both maps, one link record has both its
    identifiers in them, and iteration yields no pair. *)
Lemma count_of_present_links_not_yielded :
  let r := Scenario.construct Scenario.gap_first in
  let self := Scenario.corpus Scenario.gap_first in
  value r = Ok self
  ∧ consistent (world_after r) "eng" "fra" = true
  ∧ length (filter (λ lk, both_present self lk = true)
              (link_records Scenario.DATA_DIR self (world_after r))) = 1%nat
  ∧ length (Gen.yielded (ParallelCorpus.__iter__ Scenario.DATA_DIR self (world_after r)))
    = 0%nat
  ∧ length (Gen.yielded (ParallelCorpus.__iter__ Scenario.DATA_DIR self (world_after r)))
    ≠ length (filter (λ lk, both_present self lk = true)
                (link_records Scenario.DATA_DIR self (world_after r))).
Proof.
  cbv zeta.
  assert (length (filter (λ lk, both_present (Scenario.corpus Scenario.gap_first) lk = true)
            (link_records Scenario.DATA_DIR (Scenario.corpus Scenario.gap_first)
               (world_after (Scenario.construct Scenario.gap_first)))) = 1%nat) as Hcount.
  { by vm_compute. }
  assert (length (Gen.yielded (ParallelCorpus.__iter__ Scenario.DATA_DIR
            (Scenario.corpus Scenario.gap_first)
            (world_after (Scenario.construct Scenario.gap_first)))) = 0%nat) as Hyield.
  { by vm_compute. }
  split; [by vm_compute|]. split; [by vm_compute|].
  split; [exact Hcount|]. split; [exact Hyield|].
  rewrite Hcount, Hyield. discriminate.
Qed.

(** ** The statements at the concrete data *)

Lemma iter_count_present_prefix_witness :
  let self := Scenario.corpus Scenario.aligned in
  forallb (both_present self) (link_records Scenario.DATA_DIR self Scenario.aligned) = true
  ∧ length (Gen.yielded (ParallelCorpus.__iter__ Scenario.DATA_DIR self Scenario.aligned))
    = length (filter (λ lk, both_present self lk = true)
                (link_records Scenario.DATA_DIR self Scenario.aligned))
  ∧ length (filter (λ lk, both_present self lk = true)
              (link_records Scenario.DATA_DIR self Scenario.aligned)) = 2%nat.
Proof.
  cbv zeta.
  assert (forallb (both_present (Scenario.corpus Scenario.aligned))
            (link_records Scenario.DATA_DIR (Scenario.corpus Scenario.aligned)
               Scenario.aligned) = true) as Hall by (by vm_compute).
  split; [exact Hall|]. split; [|by vm_compute].
  exact (proj1 (proj2 (iter_count_present_prefix Scenario.DATA_DIR
                         (Scenario.corpus Scenario.aligned) Scenario.aligned) Hall)).
Defined.

Lemma construction_gate_witness :
  consistent (world_after (Scenario.construct Scenario.unlinked)) "eng" "fra" = false
  ∧ ∃ self,
      value (Scenario.construct Scenario.unlinked) = Ok self
      ∧ (∀ w, Gen.yielded (ParallelCorpus.__iter__ Scenario.DATA_DIR self w) = [])
      ∧ EvLog ERROR "eng-fra parralel corpus: missing data file(s). please update your data."
        ∈ events (Scenario.construct Scenario.unlinked).
Proof.
  assert (consistent (world_after (Scenario.construct Scenario.unlinked)) "eng" "fra" = false)
    as Hc by (by vm_compute).
  split; [exact Hc|].
  destruct (construction_gate Scenario.DATA_DIR Scenario.sentence_id Scenario.no_update
              "eng" "fra" false true Scenario.unlinked)
    as (self & Hv & _ & _ & Hbad).
  destruct (Hbad Hc) as [Hnone Hlog].
  exists self. split; [exact Hv|]. split; [intros w; apply Hnone|exact Hlog].
Defined.

Lemma update_missing_only_witness :
  all_present Scenario.gap_first "eng" "fra" = true
  ∧ update_calls (events (ParallelCorpus._update Scenario.no_update
                            (ParallelCorpus.Make "eng" "fra" false true ∅ ∅)
                            Scenario.gap_first))
    = [(∅, ∅, false)].
Proof.
  assert (all_present Scenario.gap_first "eng" "fra" = true) as Hp by (by vm_compute).
  split; [exact Hp|].
  destruct (update_missing_only Scenario.no_update "eng" "fra" true ∅ ∅ Scenario.gap_first)
    as (tables & langs & _ & Hcalls & _ & _ & _ & Hnone).
  destruct (Hnone Hp) as [Ht Hl]. rewrite Hcalls, Ht, Hl. reflexivity.
Defined.

Lemma iter_unopenable_logs_warning_witness :
  Gen.open (JpnIndices.path Scenario.DATA_DIR JpnIndices.new) Scenario.nothing
  = Raise (FileNotFoundError "data/jpn_indices/jpn_jpn_indices.tsv")
  ∧ Gen.yielded (JpnIndices.__iter__ Scenario.DATA_DIR JpnIndices.new Scenario.nothing) = []
  ∧ outcome (JpnIndices.__iter__ Scenario.DATA_DIR JpnIndices.new Scenario.nothing) = None.
Proof.
  assert (Gen.open (JpnIndices.path Scenario.DATA_DIR JpnIndices.new) Scenario.nothing
          = Raise (FileNotFoundError "data/jpn_indices/jpn_jpn_indices.tsv")) as Ho
    by (by vm_compute).
  split; [exact Ho|].
  destruct (iter_unopenable_logs_warning Scenario.DATA_DIR JpnIndices.new Scenario.nothing
              _ Ho) as (Hy & Hout & _).
  split; [exact Hy|exact Hout].
Defined.

Lemma version_computed_once_witness :
  versions Scenario.nothing !! JpnIndices.filename JpnIndices.new = None
  ∧ ∃ self', value (JpnIndices.version JpnIndices.new Scenario.nothing) = Ok (None, self')
             ∧ JpnIndices.version self' Scenario.gap_first
               = (Ok (None, self'), Scenario.gap_first, []).
Proof.
  assert (versions Scenario.nothing !! JpnIndices.filename JpnIndices.new = None) as Hn
    by (by vm_compute).
  split; [exact Hn|].
  destruct (version_computed_once Scenario.nothing) as (v & self' & Hv & _ & _ & Hnone & Hlater).
  exists self'. rewrite <- (Hnone Hn). split; [exact Hv|apply Hlater].
Defined.

Lemma crafted_line_parses_witness :
  fs Scenario.crafted !! JpnIndices.path Scenario.DATA_DIR JpnIndices.new
  = Some (Readable [crafted_line])
  ∧ ∃ idx, Gen.yielded (JpnIndices.__iter__ Scenario.DATA_DIR JpnIndices.new Scenario.crafted)
           = [idx]
           ∧ JpnIndex.sentence_id idx = Ok 7
           ∧ JpnIndex.meaning_id idx = Ok 42
           ∧ JpnIndex.text idx = PyStr "ハロー".
Proof.
  assert (fs Scenario.crafted !! JpnIndices.path Scenario.DATA_DIR JpnIndices.new
          = Some (Readable [crafted_line])) as Hf by (by vm_compute).
  split; [exact Hf|].
  exact (proj2 (crafted_line_parses Scenario.DATA_DIR JpnIndices.new Scenario.crafted Hf)).
Defined.

Lemma two_links_two_pairs_witness :
  links_files Scenario.two_links !! Links.path Scenario.DATA_DIR (Links.new "eng" "fra")
  = Some [Link.Make 1 10; Link.Make 2 11]
  ∧ Gen.yielded (ParallelCorpus.__iter__ Scenario.DATA_DIR Scenario.two_by_two
                   Scenario.two_links)
    = [("A", "X"); ("B", "Y")].
Proof.
  assert (links_files Scenario.two_links
            !! Links.path Scenario.DATA_DIR (Links.new "eng" "fra")
          = Some [Link.Make 1 10; Link.Make 2 11]) as Hf by (by vm_compute).
  split; [exact Hf|].
  exact (proj1 (two_links_two_pairs Scenario.DATA_DIR "eng" "fra" true true
                  Scenario.two_links Hf)).
Defined.

Lemma iter_raises_at_missing_id_witness :
  let self := Scenario.corpus Scenario.gap_last in
  ParallelCorpus._sentences self ≠ ∅
  ∧ ParallelCorpus._translations self ≠ ∅
  ∧ link_records Scenario.DATA_DIR self Scenario.gap_last
    = [Link.Make 1 10] ++ Link.Make 2 99 :: []
  ∧ ParallelCorpus._translations self !! 99 = None
  ∧ Gen.yielded (ParallelCorpus.__iter__ Scenario.DATA_DIR self Scenario.gap_last)
    = [((1, "A"), (10, "X"))]
  ∧ outcome (ParallelCorpus.__iter__ Scenario.DATA_DIR self Scenario.gap_last)
    = Some (KeyError 99).
Proof.
  cbv zeta.
  assert (ParallelCorpus._sentences (Scenario.corpus Scenario.gap_last) ≠ ∅) as Hs.
  { intros H. apply (f_equal (λ m : gmap Z Scenario.Sentence, m !! 1)) in H.
    vm_compute in H. discriminate. }
  assert (ParallelCorpus._translations (Scenario.corpus Scenario.gap_last) ≠ ∅) as Ht.
  { intros H. apply (f_equal (λ m : gmap Z Scenario.Sentence, m !! 10)) in H.
    vm_compute in H. discriminate. }
  assert (link_records Scenario.DATA_DIR (Scenario.corpus Scenario.gap_last) Scenario.gap_last
          = [Link.Make 1 10] ++ Link.Make 2 99 :: []) as Hl by (by vm_compute).
  assert (ParallelCorpus._translations (Scenario.corpus Scenario.gap_last) !! 99 = None)
    as Hm by (by vm_compute).
  assert (forallb (both_present (Scenario.corpus Scenario.gap_last)) [Link.Make 1 10] = true)
    as Hb by (by vm_compute).
  split; [exact Hs|]. split; [exact Ht|]. split; [exact Hl|]. split; [exact Hm|].
  destruct (iter_raises_at_missing_id Scenario.DATA_DIR (Scenario.corpus Scenario.gap_last)
              Scenario.gap_last [Link.Make 1 10] [] (Link.Make 2 99) Hs Ht Hl Hb
              (or_intror Hm)) as (Hy & _ & Ho).
  split; [rewrite Hy; by vm_compute|rewrite Ho; by vm_compute].
Defined.

Lemma iter_empty_map_is_silent_witness :
  let self := Scenario.corpus Scenario.no_links in
  consistent Scenario.no_links "eng" "fra" = true
  ∧ ParallelCorpus._sentences self = ∅
  ∧ Gen.yielded (ParallelCorpus.__iter__ Scenario.DATA_DIR self Scenario.no_links) = []
  ∧ Gen.effects (ParallelCorpus.__iter__ Scenario.DATA_DIR self Scenario.no_links) = [].
Proof.
  cbv zeta.
  assert (ParallelCorpus._sentences (Scenario.corpus Scenario.no_links) = ∅) as He
    by (by vm_compute).
  split; [by vm_compute|]. split; [exact He|].
  destruct (iter_empty_map_is_silent Scenario.DATA_DIR (Scenario.corpus Scenario.no_links)
              Scenario.no_links (or_introl He)) as (Hy & _ & Hf & _).
  split; [exact Hy|exact Hf].
Defined.

(** * Further properties *)

(** ** Integers written in decimal *)

Section IntFacts.

Import DecimalString.

Lemma digits_of_uint_acc (u : Decimal.uint) (acc : positive) :
  PyInt.digits (Z.pos acc) false (NilEmpty.string_of_uint u)
  = Some (Z.pos (Pos.of_uint_acc u acc)).
Proof.
  revert acc. induction u as [|u IH|u IH|u IH|u IH|u IH|u IH|u IH|u IH|u IH|u IH]; intros acc;
    [reflexivity|..];
    cbn [NilEmpty.string_of_uint PyInt.digits Pos.of_uint_acc];
    match goal with
    | |- context [PyInt.digit_of ?c] =>
        let v := eval vm_compute in (PyInt.digit_of c) in
        change (PyInt.digit_of c) with v
    end;
    cbv beta iota; rewrite <- IH; f_equal; lia.
Qed.

Lemma digits_of_uint (u : Decimal.uint) :
  PyInt.digits 0 false (NilEmpty.string_of_uint u) = Some (Z.of_N (Pos.of_uint u)).
Proof.
  induction u as [|u IH|u IH|u IH|u IH|u IH|u IH|u IH|u IH|u IH|u IH];
    [reflexivity|exact IH|..];
    cbn [NilEmpty.string_of_uint PyInt.digits Pos.of_uint];
    match goal with
    | |- context [PyInt.digit_of ?c] =>
        let v := eval vm_compute in (PyInt.digit_of c) in
        change (PyInt.digit_of c) with v
    end;
    cbv beta iota; cbn [Z.mul Z.add Z.of_N]; apply digits_of_uint_acc.
Qed.

Lemma unsigned_of_uint (u : Decimal.uint) :
  u ≠ Decimal.Nil →
  PyInt.unsigned (NilEmpty.string_of_uint u) = Some (Z.of_N (Pos.of_uint u)).
Proof.
  intros Hne. rewrite <- digits_of_uint. by destruct u.
Qed.

Lemma lstrip_of_uint (u : Decimal.uint) :
  PyInt.lstrip (NilEmpty.string_of_uint u) = NilEmpty.string_of_uint u.
Proof. by destruct u. Qed.

Lemma rstrip_of_uint (u : Decimal.uint) :
  PyInt.rstrip (NilEmpty.string_of_uint u) = NilEmpty.string_of_uint u.
Proof.
  induction u as [|u IH|u IH|u IH|u IH|u IH|u IH|u IH|u IH|u IH|u IH]; [reflexivity|..];
    cbn [NilEmpty.string_of_uint PyInt.rstrip]; rewrite IH;
    by destruct (NilEmpty.string_of_uint u).
Qed.

(** [int(str(n))] is [n]. *)
Lemma int_of_str (n : Z) : PyInt.of_string (str_int n) = Some n.
Proof.
  unfold str_int, PyInt.of_string, PyInt.strip.
  destruct n as [|p|p]; [reflexivity| |]; cbn [Z.to_int NilEmpty.string_of_int].
  - rewrite lstrip_of_uint, rstrip_of_uint.
    pose proof (DecimalPos.Unsigned.to_uint_nonnil p) as Hne.
    pose proof (unsigned_of_uint (Pos.to_uint p) Hne) as Hu.
    rewrite DecimalPos.Unsigned.of_to in Hu. cbn [Z.of_N] in Hu.
    destruct (Pos.to_uint p); [done|exact Hu..].
  - change (PyInt.lstrip (String "-" ?s)) with (String "-"%char s).
    assert (PyInt.rstrip (String "-" (NilEmpty.string_of_uint (Pos.to_uint p)))
            = String "-" (NilEmpty.string_of_uint (Pos.to_uint p))) as ->.
    { cbn [PyInt.rstrip]. rewrite rstrip_of_uint.
      by destruct (NilEmpty.string_of_uint (Pos.to_uint p)). }
    rewrite (unsigned_of_uint _ (DecimalPos.Unsigned.to_uint_nonnil p)).
    by rewrite DecimalPos.Unsigned.of_to.
Qed.

Lemma one_line_of_uint (u : Decimal.uint) :
  Tsv.one_line (NilEmpty.string_of_uint u) = true.
Proof.
  induction u as [|u IH|u IH|u IH|u IH|u IH|u IH|u IH|u IH|u IH|u IH]; [reflexivity|..];
    cbn [NilEmpty.string_of_uint Tsv.one_line]; rewrite IH; reflexivity.
Qed.

Lemma one_line_str_int (n : Z) : Tsv.one_line (str_int n) = true.
Proof.
  unfold str_int.
  destruct n as [|p|p]; [reflexivity|..]; cbn [Z.to_int NilEmpty.string_of_int Tsv.one_line];
    rewrite one_line_of_uint; reflexivity.
Qed.

End IntFacts.

(** ** Reading the lines of the indices table *)

Section TsvFacts.

Implicit Types (self : csv.ReaderObj) (c : ascii) (f : string).

Local Abbreviation d := JpnIndices.dialect.

Lemma special_false c :
  Tsv.special c = false →
  Ascii.eqb c JpnIndices.TAB = false ∧ Ascii.eqb c JpnIndices.BACKSLASH = false
  ∧ Ascii.eqb c Tsv.QUOTE = false.
Proof.
  unfold Tsv.special. intros H.
  apply orb_false_iff in H as [H ?]. apply orb_false_iff in H as [? ?]. auto.
Qed.

Lemma add_char_ok self c :
  Tsv.has_room self c →
  csv.parse_add_char self c
  = Ok (csv.MkReader (csv.state self) (csv.fields self) (csv.field self +:+ String c "")).
Proof.
  intros [H|H]; unfold csv.parse_add_char.
  - by rewrite H.
  - destruct (Z.leb_spec csv.field_limit (Z.of_nat (csv.field_len (csv.field self))));
      [lia|by rewrite andb_false_r].
Qed.

Lemma step_plain self c :
  Tsv.in_a_field self → Tsv.special c = false → csv.is_nl c = false →
  Tsv.has_room self c →
  csv.parse_process_char d self (Some c)
  = Ok (csv.MkReader csv.IN_FIELD (csv.fields self) (csv.field self +:+ String c "")).
Proof.
  intros Hat Hsp Hnl Hlen. apply special_false in Hsp as (Ht & Hb & Hq).
  destruct self as [st fl fd]. unfold Tsv.in_a_field in Hat. unfold Tsv.has_room in Hlen.
  cbn [csv.state csv.field csv.fields] in *.
  assert (Ascii.eqb Tsv.QUOTE c = false) as Hq' by (by rewrite Ascii.eqb_sym).
  assert (Ascii.eqb JpnIndices.BACKSLASH c = false) as Hb' by (by rewrite Ascii.eqb_sym).
  destruct Hat as [->|[[-> | ->] ->]];
    cbn [csv.parse_process_char csv.state csv.in_field csv.in_start_field csv.set_state
         csv.fields csv.field];
    rewrite ?Hnl;
    cbn [d JpnIndices.dialect csv.escapechar csv.quotechar csv.delimiter csv.skipinitialspace
         csv.excel csv.is_char];
    fold Tsv.QUOTE; rewrite ?Hq', ?Hb', ?Ht, ?andb_false_r;
    rewrite add_char_ok by exact Hlen; reflexivity.
Qed.

Lemma step_escaped self c :
  Tsv.in_a_field self → csv.is_nl c = false →
  Tsv.has_room self c →
  ∃ self1,
    csv.parse_process_char d self (Some JpnIndices.BACKSLASH) = Ok self1
    ∧ csv.parse_process_char d self1 (Some c)
      = Ok (csv.MkReader csv.IN_FIELD (csv.fields self) (csv.field self +:+ String c "")).
Proof.
  intros Hat Hnl Hlen.
  destruct self as [st fl fd]. unfold Tsv.in_a_field in Hat. unfold Tsv.has_room in Hlen.
  cbn [csv.state csv.field csv.fields] in *.
  destruct Hat as [->|[[-> | ->] ->]]; eexists; (split; [reflexivity|]);
    cbn [csv.parse_process_char csv.state csv.set_state csv.fields csv.field];
    rewrite Hnl; rewrite add_char_ok by exact Hlen; reflexivity.
Qed.

Lemma append_cons c f (g : string) : String c f +:+ g = String c (f +:+ g).
Proof. reflexivity. Qed.

Lemma append_nil_r f : f +:+ "" = f.
Proof. induction f as [|c f IH]; [done|]. rewrite !append_cons. cbn [String.length]. by rewrite IH. Qed.

Lemma append_assoc (f g h : string) : (f +:+ g) +:+ h = f +:+ (g +:+ h).
Proof. induction f as [|c f IH]; [done|]. rewrite !append_cons. cbn [String.length]. by rewrite IH. Qed.

Lemma length_append (f g : string) :
  csv.field_len (f +:+ g) = (csv.field_len f + csv.field_len g)%nat.
Proof.
  induction f as [|c f IH]; [done|]. rewrite !append_cons. cbn [csv.field_len].
  rewrite IH. by destruct (csv.is_continuation c).
Qed.

(** A field that has room for a text has room for its first character. *)
Lemma has_room_first self c f :
  Z.of_nat (csv.field_len (csv.field self) + csv.field_len (String c f)) ≤ csv.field_limit →
  Tsv.has_room self c
  ∧ Z.of_nat (csv.field_len (csv.field self +:+ String c "") + csv.field_len f)
    ≤ csv.field_limit.
Proof.
  intros Hlen. rewrite length_append. cbn [csv.field_len] in *. unfold Tsv.has_room.
  destruct (csv.is_continuation c); (split; [|lia]); [by left|right; lia].
Qed.

(** Reading the escaped characters of a field puts the field in the buffer. *)
Lemma scan_field f (rest : string) self :
  Tsv.in_a_field self → Tsv.one_line f = true →
  Z.of_nat (csv.field_len (csv.field self) + csv.field_len f) ≤ csv.field_limit →
  csv.process_line d self (Tsv.escape f +:+ rest)
  = csv.process_line d (Tsv.after_field self f) rest.
Proof.
  revert self. induction f as [|c f IH]; intros self Hat Hone Hlen; [done|].
  cbn [Tsv.one_line] in Hone. apply andb_true_iff in Hone as [Hnl Hone].
  apply negb_true_iff in Hnl.
  destruct (has_room_first self c f Hlen) as [Hlt Hlen'].
  set (self' := csv.MkReader csv.IN_FIELD (csv.fields self) (csv.field self +:+ String c "")).
  assert (csv.process_line d self (Tsv.escape (String c f) +:+ rest)
          = csv.process_line d self' (Tsv.escape f +:+ rest)) as ->.
  { cbn [Tsv.escape]. destruct (Tsv.special c) eqn:Hsp.
    - destruct (step_escaped self c Hat Hnl Hlt) as (self1 & H1 & H2).
      rewrite !append_cons. cbn [csv.process_line]. by rewrite H1, H2.
    - rewrite append_cons. cbn [csv.process_line].
      by rewrite (step_plain self c Hat Hsp Hnl Hlt). }
  rewrite IH; [|by left|done|].
  - unfold Tsv.after_field. subst self'. cbn [csv.fields csv.field].
    destruct f as [|c' f].
    + reflexivity.
    + by rewrite append_assoc.
  - subst self'. cbn [csv.field]. exact Hlen'.
Qed.

Lemma in_a_field_after self f : Tsv.in_a_field self → Tsv.in_a_field (Tsv.after_field self f).
Proof. intros H. destruct f; [done|]. by left. Qed.

(** A tab after a field saves the field and starts the next one. *)
Lemma step_tab self :
  Tsv.in_a_field self →
  csv.parse_process_char d self (Some JpnIndices.TAB)
  = Ok (csv.MkReader csv.START_FIELD (csv.fields self ++ [csv.field self]) "").
Proof.
  intros Hat. destruct self as [st fl fd]. unfold Tsv.in_a_field in Hat.
  cbn [csv.state csv.field csv.fields] in *.
  destruct Hat as [->|[[-> | ->] ->]]; reflexivity.
Qed.

(** A line end after a field, then the end of the line, save the field and
    complete the record. *)
Lemma step_line_end self :
  Tsv.in_a_field self → csv.state self ≠ csv.START_RECORD →
  csv.process_line d self (String csv.LF "")
  = Ok (csv.MkReader csv.START_RECORD (csv.fields self ++ [csv.field self]) "").
Proof.
  intros Hat Hst. destruct self as [st fl fd]. unfold Tsv.in_a_field in Hat.
  cbn [csv.state csv.field csv.fields] in *.
  destruct Hat as [->|[[-> | ->] ->]]; done.
Qed.

(** Reading the line of a row, from the start of a record or of a field,
    appends the fields of the row and completes the record. *)
Lemma scan_row (row : list string) self :
  csv.state self = csv.START_RECORD ∨ csv.state self = csv.START_FIELD →
  csv.field self = "" →
  row ≠ [] →
  (csv.state self = csv.START_RECORD → row ≠ [""]) →
  forallb Tsv.field_ok row = true →
  csv.process_line d self (Tsv.line row)
  = Ok (csv.MkReader csv.START_RECORD (csv.fields self ++ row) "").
Proof.
  revert self. induction row as [|f row IH]; intros self Hst Hfd Hne Hrec Hok; [done|].
  cbn [forallb] in Hok. apply andb_true_iff in Hok as [Hf Hok].
  unfold Tsv.field_ok in Hf. apply andb_true_iff in Hf as [Hone Hlen].
  apply Z.leb_le in Hlen.
  assert (Tsv.in_a_field self) as Hat.
  { right. split; [destruct Hst; auto|done]. }
  assert (Z.of_nat (csv.field_len (csv.field self) + csv.field_len f) ≤ csv.field_limit)
    as Hlen' by (rewrite Hfd; cbn [csv.field_len]; lia).
  unfold Tsv.line. destruct row as [|f2 row].
  - cbn [Tsv.join]. rewrite (scan_field f _ self Hat Hone Hlen').
    rewrite step_line_end; [|by apply in_a_field_after|].
    + destruct f as [|c f]; cbn [Tsv.after_field csv.fields csv.field]; by rewrite Hfd.
    + destruct f as [|c f]; cbn [Tsv.after_field csv.state]; [|done].
      intros Hs. by apply Hrec.
  - change (Tsv.join Tsv.escape (f :: f2 :: row))
      with (Tsv.escape f +:+ String JpnIndices.TAB (Tsv.join Tsv.escape (f2 :: row))).
    rewrite append_assoc, append_cons.
    rewrite (scan_field f _ self Hat Hone Hlen').
    cbn [csv.process_line]. rewrite step_tab by (by apply in_a_field_after).
    fold (Tsv.line (f2 :: row)). rewrite IH; [|by right|done|done|done|done].
    cbn [csv.fields]. rewrite <- app_assoc. cbn [app].
    destruct f as [|c f]; cbn [Tsv.after_field csv.fields csv.field]; by rewrite Hfd.
Qed.

(** The line of a row reads as the row; a blank line reads as no field. *)
Lemma line_reads_row (row : list string) :
  Tsv.row_ok row = true → Tsv.reads_as (Tsv.line row) row.
Proof.
  unfold Tsv.row_ok, Tsv.reads_as. intros [Hok Hne]%andb_true_iff.
  apply negb_true_iff, bool_decide_eq_false in Hne.
  destruct row as [|f row]; [reflexivity|].
  rewrite scan_row; [done|by left|done|done|done|done].
Qed.

Lemma lines_read_rows (rows : list (list string)) :
  forallb Tsv.row_ok rows = true → Forall2 Tsv.reads_as (Tsv.line <$> rows) rows.
Proof.
  induction rows as [|row rows IH]; intros Hok; [constructor|].
  cbn [forallb] in Hok. apply andb_true_iff in Hok as [Hrow Hok].
  constructor; [by apply line_reads_row|by apply IH].
Qed.

(** The reader over lines that each complete a record gives the records,
    then goes on with the lines that follow. *)
Lemma reader_from_app (eof : option exn) (lines rest : list string)
    (rows : list (list string)) :
  Forall2 Tsv.reads_as lines rows →
  csv.reader_from d eof csv.parse_reset (lines ++ rest)
  = MkRun ((inr <$> rows) ++ trace (csv.reader_from d eof csv.parse_reset rest))
          (outcome (csv.reader_from d eof csv.parse_reset rest)).
Proof.
  induction 1 as [|line row lines rows Hline _ IH].
  - cbn [app fmap list_fmap]. by destruct (csv.reader_from d eof csv.parse_reset rest).
  - cbn [app csv.reader_from]. unfold Tsv.reads_as in Hline. rewrite Hline.
    cbn [csv.state]. rewrite bool_decide_eq_true_2 by done.
    rewrite IH. reflexivity.
Qed.

Lemma reader_reads (lines : list string) (rows : list (list string)) :
  Forall2 Tsv.reads_as lines rows →
  csv.reader (MkTextFile lines None) d = MkRun (inr <$> rows) None.
Proof.
  intros H. unfold csv.reader. cbn [file_lines file_end]. rewrite <- (app_nil_r lines).
  rewrite (reader_from_app None lines [] rows H). cbn. by rewrite app_nil_r.
Qed.

(** The dictionaries of the rows, blank lines left out. *)
Lemma DictReader_rows (tr : list (list string)) (o : option exn) (fieldnames : list string) :
  Gen.for_each (inr <$> tr) o
    (λ row : list string,
       match row with
       | [] => Gen.skip
       | _ => Gen.yield (csv.DictReader_row fieldnames row)
       end)
  = MkRun (inr <$> (csv.DictReader_row fieldnames <$> non_blank tr)) o.
Proof.
  induction tr as [|row rows IH]; [reflexivity|].
  cbn [fmap list_fmap Gen.for_each].
  fold (fmap (M:=list) (@inr event (list string))). rewrite IH.
  unfold non_blank. destruct row as [|f row].
  - rewrite filter_cons_False by (intros H; by apply H). reflexivity.
  - rewrite filter_cons_True by done. reflexivity.
Qed.

Lemma non_blank_spec (rows : list (list string)) : Forall (λ row, row ≠ []) (non_blank rows).
Proof.
  unfold non_blank. apply Forall_forall. intros row Hin.
  by apply list_elem_of_filter in Hin as [? _].
Qed.

(** The record of a row: the columns, [None] for a missing one; a row of
    more than three columns cannot be passed as keywords. *)
Lemma from_kwargs_row (row : list string) :
  row ≠ [] →
  JpnIndex.from_kwargs
    (csv.DictReader_row ["sentence_id"; "meaning_id"; "text"] row)
  = if (length row <=? 3)%nat then Ok (row_record row) else Raise TypeError.
Proof.
  intros Hne.
  destruct row as [|a [|b [|c [|e row]]]]; [done|by vm_compute..].
Qed.

(** Reading columns that are followed by a tab. *)
Lemma scan_columns (row : list string) (rest : string) self :
  csv.state self = csv.START_RECORD ∨ csv.state self = csv.START_FIELD →
  csv.field self = "" →
  row ≠ [] →
  forallb Tsv.field_ok row = true →
  csv.process_line d self (Tsv.join Tsv.escape row +:+ String JpnIndices.TAB rest)
  = csv.process_line d (csv.MkReader csv.START_FIELD (csv.fields self ++ row) "") rest.
Proof.
  revert self. induction row as [|f row IH]; intros self Hst Hfd Hne Hok; [done|].
  cbn [forallb] in Hok. apply andb_true_iff in Hok as [Hf Hok].
  unfold Tsv.field_ok in Hf. apply andb_true_iff in Hf as [Hone Hlen].
  apply Z.leb_le in Hlen.
  assert (Tsv.in_a_field self) as Hat.
  { right. split; [destruct Hst; auto|done]. }
  assert (Z.of_nat (csv.field_len (csv.field self) + csv.field_len f) ≤ csv.field_limit)
    as Hlen' by (rewrite Hfd; cbn [csv.field_len]; lia).
  assert (csv.fields (Tsv.after_field self f) ++ [csv.field (Tsv.after_field self f)]
          = csv.fields self ++ [f]) as Hsaved.
  { destruct f as [|c f]; cbn [Tsv.after_field csv.fields csv.field]; by rewrite Hfd. }
  destruct row as [|f2 row].
  - cbn [Tsv.join]. rewrite (scan_field f _ self Hat Hone Hlen').
    cbn [csv.process_line]. rewrite step_tab by (by apply in_a_field_after).
    by rewrite Hsaved.
  - change (Tsv.join Tsv.escape (f :: f2 :: row))
      with (Tsv.escape f +:+ String JpnIndices.TAB (Tsv.join Tsv.escape (f2 :: row))).
    rewrite append_assoc, append_cons.
    rewrite (scan_field f _ self Hat Hone Hlen').
    cbn [csv.process_line]. rewrite step_tab by (by apply in_a_field_after).
    rewrite IH; [|by right|done|done|done].
    cbn [csv.fields]. rewrite Hsaved, <- app_assoc. reflexivity.
Qed.

(** Inside quotes a character that is neither the quote nor the backslash
    is added to the field. *)
Lemma quoted_char self c :
  csv.state self = csv.IN_QUOTED_FIELD →
  Ascii.eqb c Tsv.QUOTE = false → Ascii.eqb c JpnIndices.BACKSLASH = false →
  csv.parse_process_char d self (Some c) = csv.parse_add_char self c.
Proof.
  intros Hst Hcq Hcb. destruct self as [st fl fd]. cbn [csv.state] in Hst. subst st.
  cbn [csv.parse_process_char csv.state d JpnIndices.dialect csv.escapechar csv.quotechar
       csv.excel csv.is_char].
  fold Tsv.QUOTE. by rewrite (Ascii.eqb_sym _ c), Hcb, (Ascii.eqb_sym _ c), Hcq.
Qed.

(** Inside quotes every character but the quote and the backslash is kept,
    tabs and line ends included. *)
Lemma scan_quoted (s rest : string) self :
  csv.state self = csv.IN_QUOTED_FIELD →
  Tsv.quotable s = true →
  Z.of_nat (csv.field_len (csv.field self) + csv.field_len s) ≤ csv.field_limit →
  csv.process_line d self (s +:+ rest)
  = csv.process_line d
      (csv.MkReader csv.IN_QUOTED_FIELD (csv.fields self) (csv.field self +:+ s)) rest.
Proof.
  revert self. induction s as [|c s IH]; intros self Hst Hq Hlen.
  - destruct self as [st fl fd]. cbn [csv.state csv.fields csv.field] in *. subst st.
    by rewrite append_nil_r.
  - cbn [Tsv.quotable] in Hq. apply andb_true_iff in Hq as [Hc Hq].
    apply andb_true_iff in Hc as [Hcq Hcb]. apply negb_true_iff in Hcq, Hcb.
    destruct (has_room_first self c s Hlen) as [Hlt Hlen'].
    rewrite append_cons. cbn [csv.process_line].
    rewrite (quoted_char self c Hst Hcq Hcb), add_char_ok by done.
    rewrite IH; [|done|done|exact Hlen'].
    cbn [csv.fields csv.field]. by rewrite append_assoc.
Qed.

(** Past the field limit the reader gives up: inside quotes, a text that
    does not fit in what is left of the field raises the reader's error. *)
Lemma scan_quoted_overflow (s rest : string) self :
  csv.state self = csv.IN_QUOTED_FIELD →
  Tsv.quotable s = true →
  Z.of_nat (csv.field_len (csv.field self)) ≤ csv.field_limit →
  csv.field_limit < Z.of_nat (csv.field_len (csv.field self) + csv.field_len s) →
  csv.process_line d self (s +:+ rest) = Raise csv_Error.
Proof.
  revert self. induction s as [|c s IH]; intros self Hst Hq Hfit Hover.
  - cbn [csv.field_len] in Hover. lia.
  - cbn [Tsv.quotable] in Hq. apply andb_true_iff in Hq as [Hc Hq].
    apply andb_true_iff in Hc as [Hcq Hcb]. apply negb_true_iff in Hcq, Hcb.
    rewrite append_cons. cbn [csv.process_line].
    rewrite (quoted_char self c Hst Hcq Hcb).
    cbn [csv.field_len] in Hover.
    destruct (csv.is_continuation c) eqn:Hcont.
    + rewrite add_char_ok by (by left).
      apply IH; [done|done| |]; cbn [csv.field]; rewrite length_append;
        cbn [csv.field_len]; rewrite Hcont; lia.
    + destruct (Z.leb_spec csv.field_limit (Z.of_nat (csv.field_len (csv.field self))))
        as [Hfull|Hroom].
      * unfold csv.parse_add_char. rewrite Hcont. cbn [negb andb].
        by rewrite (proj2 (Z.leb_le _ _) Hfull).
      * rewrite add_char_ok by (by right).
        apply IH; [done|done| |]; cbn [csv.field]; rewrite length_append;
          cbn [csv.field_len]; rewrite Hcont; lia.
Qed.

(** A quoted third column is read without its quotes. *)
Lemma quoted_line_reads (a b s : string) :
  Tsv.field_ok a = true → Tsv.field_ok b = true →
  Tsv.quotable s = true → Z.of_nat (csv.field_len s) ≤ csv.field_limit →
  Tsv.reads_as (Tsv.quoted_line a b s) [a; b; s].
Proof.
  intros Ha Hb Hq Hlen. unfold Tsv.reads_as, Tsv.quoted_line.
  rewrite <- (append_cons JpnIndices.TAB (Tsv.escape b)), <- append_assoc.
  change (Tsv.escape a +:+ String JpnIndices.TAB (Tsv.escape b))
    with (Tsv.join Tsv.escape [a; b]).
  rewrite scan_columns; [|by left|done|done|by cbn [forallb]; rewrite Ha, Hb].
  cbn [csv.process_line csv.parse_reset csv.fields app].
  change (csv.parse_process_char d (csv.MkReader csv.START_FIELD [a; b] "") (Some Tsv.QUOTE))
    with (Ok (csv.MkReader csv.IN_QUOTED_FIELD [a; b] "")).
  cbv beta iota. rewrite scan_quoted; [|done|done|cbn [csv.field csv.field_len]; lia].
  reflexivity.
Qed.

(** After a quote that is never closed, the lines that follow are read
    into the same field, and the record is given at the end of the file. *)
Lemma reader_from_open_quote (tail : list string) self :
  csv.state self = csv.IN_QUOTED_FIELD →
  forallb Tsv.quotable tail = true →
  Z.of_nat (csv.field_len (csv.field self) + csv.field_len (Tsv.concat tail))
    ≤ csv.field_limit →
  csv.reader_from d None self tail
  = Gen.yield (csv.fields self ++ [csv.field self +:+ Tsv.concat tail]).
Proof.
  revert self. induction tail as [|line tail IH]; intros self Hst Hq Hlen.
  - cbn [csv.reader_from Tsv.concat foldr]. rewrite Hst, append_nil_r.
    rewrite bool_decide_eq_true_2 by done. by rewrite orb_true_r.
  - cbn [forallb] in Hq. apply andb_true_iff in Hq as [Hl Hq].
    cbn [Tsv.concat foldr] in Hlen. fold (Tsv.concat tail) in Hlen.
    rewrite length_append in Hlen.
    cbn [csv.reader_from].
    assert (csv.process_line d self line
            = Ok (csv.MkReader csv.IN_QUOTED_FIELD (csv.fields self)
                    (csv.field self +:+ line))) as ->.
    { transitivity (csv.process_line d self (line +:+ "")); [by rewrite append_nil_r|].
      rewrite scan_quoted; [reflexivity|done|done|lia]. }
    cbn [csv.process_line csv.parse_process_char csv.state].
    rewrite bool_decide_eq_false_2 by done.
    rewrite IH; [|done|done|].
    + cbn [csv.fields csv.field Tsv.concat foldr]. by rewrite append_assoc.
    + cbn [csv.field]. rewrite length_append. lia.
Qed.

(** When the lines that follow do not fit in a field, the reader fails
    with its own error and the record is never given. *)
Lemma reader_from_open_quote_overflow (eof : option exn) (tail : list string) self :
  csv.state self = csv.IN_QUOTED_FIELD →
  forallb Tsv.quotable tail = true →
  Z.of_nat (csv.field_len (csv.field self)) ≤ csv.field_limit →
  csv.field_limit
    < Z.of_nat (csv.field_len (csv.field self) + csv.field_len (Tsv.concat tail)) →
  csv.reader_from d eof self tail = Gen.raise csv_Error.
Proof.
  revert self. induction tail as [|line tail IH]; intros self Hst Hq Hfit Hover.
  - cbn [Tsv.concat foldr csv.field_len] in Hover. lia.
  - cbn [forallb] in Hq. apply andb_true_iff in Hq as [Hl Hq].
    cbn [Tsv.concat foldr] in Hover. fold (Tsv.concat tail) in Hover.
    rewrite length_append in Hover.
    cbn [csv.reader_from].
    destruct (Z.leb_spec (Z.of_nat (csv.field_len (csv.field self) + csv.field_len line))
                csv.field_limit) as [Hroom|Hfull].
    + assert (csv.process_line d self line
              = Ok (csv.MkReader csv.IN_QUOTED_FIELD (csv.fields self)
                      (csv.field self +:+ line))) as ->.
      { transitivity (csv.process_line d self (line +:+ "")); [by rewrite append_nil_r|].
        rewrite scan_quoted; [reflexivity|done|done|lia]. }
      cbn [csv.state]. rewrite bool_decide_eq_false_2 by done.
      apply IH; [done|done| |]; cbn [csv.field]; rewrite length_append; lia.
    + assert (csv.process_line d self line = Raise csv_Error) as ->; [|done].
      transitivity (csv.process_line d self (line +:+ "")); [by rewrite append_nil_r|].
      by apply scan_quoted_overflow.
Qed.

Lemma quotable_line (s : string) :
  Tsv.quotable s = true → Tsv.quotable (s +:+ String csv.LF "") = true.
Proof.
  induction s as [|c s IH]; [done|]. rewrite append_cons. cbn [Tsv.quotable].
  intros [-> Hq]%andb_true_iff. by rewrite IH.
Qed.

(** The line that opens a quote in its third column: two columns are
    read, and the rest of the line is read inside the quotes. *)
Lemma open_quote_line_reads (a b s : string) :
  Tsv.field_ok a = true → Tsv.field_ok b = true →
  csv.process_line d csv.parse_reset (Tsv.open_quote_line a b s)
  = csv.process_line d (csv.MkReader csv.IN_QUOTED_FIELD [a; b] "")
      (s +:+ String csv.LF "").
Proof.
  intros Ha Hb. unfold Tsv.open_quote_line.
  rewrite <- (append_cons JpnIndices.TAB (Tsv.escape b)), <- append_assoc.
  change (Tsv.escape a +:+ String JpnIndices.TAB (Tsv.escape b))
    with (Tsv.join Tsv.escape [a; b]).
  rewrite scan_columns; [|by left|done|done|by cbn [forallb]; rewrite Ha, Hb].
  cbn [csv.process_line csv.parse_reset csv.fields app].
  change (csv.parse_process_char d (csv.MkReader csv.START_FIELD [a; b] "") (Some Tsv.QUOTE))
    with (Ok (csv.MkReader csv.IN_QUOTED_FIELD [a; b] "")).
  reflexivity.
Qed.

(** The reader from that line on is the reader inside the quotes, from
    the rest of the line on. *)
Lemma reader_from_open_quote_line (eof : option exn) (a b s : string) (tail : list string) :
  Tsv.field_ok a = true → Tsv.field_ok b = true →
  csv.reader_from d eof csv.parse_reset (Tsv.open_quote_line a b s :: tail)
  = csv.reader_from d eof (csv.MkReader csv.IN_QUOTED_FIELD [a; b] "")
      ((s +:+ String csv.LF "") :: tail).
Proof.
  intros Ha Hb. cbn [csv.reader_from]. by rewrite open_quote_line_reads.
Qed.

(** Whatever the dialect and the characters, the reader fails with its
    own error only, and yields rows without any effect. *)
Lemma add_char_raises self c e : csv.parse_add_char self c = Raise e → e = csv_Error.
Proof. unfold csv.parse_add_char. case_match; intros; by simplify_eq. Qed.

Lemma then_state_raises (r : result csv.ReaderObj) s e :
  (∀ e', r = Raise e' → e' = csv_Error) → csv.then_state r s = Raise e → e = csv_Error.
Proof. destruct r; cbn; intros Hr H; [done|]. simplify_eq. by apply Hr. Qed.

Lemma process_char_raises (dl : csv.Dialect) self (c : option ascii) e :
  csv.parse_process_char dl self c = Raise e → e = csv_Error.
Proof.
  unfold csv.parse_process_char, csv.in_start_field, csv.in_field.
  repeat case_match; intros Hraise; simplify_eq; try done;
    first [ by eapply add_char_raises
          | eapply then_state_raises; [|exact Hraise]; intros e'; apply add_char_raises ].
Qed.

Lemma process_line_raises (dl : csv.Dialect) (line : string) self e :
  csv.process_line dl self line = Raise e → e = csv_Error.
Proof.
  revert self. induction line as [|c line IH]; intros self; cbn [csv.process_line].
  - apply process_char_raises.
  - destruct (csv.parse_process_char dl self (Some c)) eqn:Hc.
    + apply IH.
    + intros H. simplify_eq. by eapply process_char_raises.
Qed.

Lemma reader_from_run (dl : csv.Dialect) (eof : option exn) (lines : list string) self :
  ∃ rows o,
    csv.reader_from dl eof self lines = MkRun (inr <$> rows) o
    ∧ (o = eof ∨ o = Some csv_Error).
Proof.
  revert self. induction lines as [|line lines IH]; intros self; cbn [csv.reader_from].
  - destruct eof as [e|]; [exists [], (Some e); auto|].
    destruct (_ || _).
    + destruct (csv.strict dl).
      * exists [], (Some csv_Error). auto.
      * eexists [_], None. auto.
    + exists [], None. auto.
  - destruct (csv.process_line dl self line) as [self'|e] eqn:Hl.
    + destruct (bool_decide _).
      * destruct (IH csv.parse_reset) as (rows & o & -> & Ho).
        exists (csv.fields self' :: rows), o. auto.
      * apply IH.
    + apply process_line_raises in Hl as ->. exists [], (Some csv_Error). auto.
Qed.

Lemma from_kwargs_raises (row : gmap (option string) pyval) e :
  JpnIndex.from_kwargs row = Raise e → e = TypeError.
Proof. unfold JpnIndex.from_kwargs. repeat case_match; intros; by simplify_eq. Qed.

Lemma records_run (dicts : list (gmap (option string) pyval)) (o : option exn) :
  ∃ idxs o',
    Gen.for_each (inr <$> dicts) o (λ row, Gen.call (JpnIndex.from_kwargs row) Gen.yield)
    = MkRun (inr <$> idxs) o'
    ∧ (o' = o ∨ o' = Some TypeError).
Proof.
  induction dicts as [|row dicts IH]; [exists [], o; auto|].
  cbn [fmap list_fmap Gen.for_each].
  fold (fmap (M:=list) (@inr event (gmap (option string) pyval))).
  destruct IH as (idxs & o' & -> & Ho).
  destruct (JpnIndex.from_kwargs row) as [idx|e] eqn:Hrow.
  - exists (idx :: idxs), o'. auto.
  - apply from_kwargs_raises in Hrow as ->. exists [], (Some TypeError). auto.
Qed.

(** The records of the dictionaries, up to the first row that is too wide. *)
Lemma records_of_rows (rows : list (list string)) (o : option exn) :
  Forall (λ row, row ≠ []) rows →
  Gen.for_each
    (inr <$> (csv.DictReader_row ["sentence_id"; "meaning_id"; "text"] <$> rows)) o
    (λ row, Gen.call (JpnIndex.from_kwargs row) Gen.yield)
  = MkRun (inr <$> (row_record <$> fitting_prefix rows))
          (if all_fit rows then o else Some TypeError).
Proof.
  induction 1 as [|row rows Hne _ IH]; [reflexivity|].
  cbn [fmap list_fmap Gen.for_each fitting_prefix all_fit forallb].
  fold (fmap (M:=list) (csv.DictReader_row ["sentence_id"; "meaning_id"; "text"])).
  fold (fmap (M:=list) (@inr event (gmap (option string) pyval))).
  rewrite (from_kwargs_row row Hne).
  destruct (length row <=? 3)%nat.
  - cbn [Gen.call andb]. rewrite IH. reflexivity.
  - reflexivity.
Qed.

End TsvFacts.

Section IndicesFile.
Context {V : Type}.
Variable DATA_DIR : string.

Implicit Types (self : JpnIndices.t) (w : World V).

Local Abbreviation d := JpnIndices.dialect.

Lemma yielded_cons_effect {Y} (ev : event) (tr : list (event + Y)) o :
  Gen.yielded (MkRun (inl ev :: tr) o) = Gen.yielded (MkRun tr o).
Proof. reflexivity. Qed.

Lemma yielded_items {Y} (xs : list Y) o : Gen.yielded (MkRun (inr <$> xs) o) = xs.
Proof. apply (yielded_effects_items [] xs o). Qed.

Lemma effects_items {Y} (xs : list Y) o : Gen.effects (MkRun (inr <$> xs) o) = [].
Proof. unfold Gen.effects. cbn [trace]. induction xs as [|x xs IH]; [done|]. exact IH. Qed.

Lemma effects_open_items {Y} (p : string) (xs : list Y) o :
  Gen.effects (MkRun (inl (EvOpen p) :: (inr <$> xs)) o) = [EvOpen p].
Proof.
  unfold Gen.effects. cbn [trace omap list_omap]. f_equal. apply (effects_items xs o).
Qed.

Lemma fitting_prefix_all (rows : list (list string)) :
  all_fit rows = true → fitting_prefix rows = rows.
Proof.
  induction rows as [|row rows IH]; [done|]. cbn [all_fit forallb fitting_prefix].
  intros [-> Hr]%andb_true_iff. by rewrite IH.
Qed.

Lemma all_fit_non_blank (rows : list (list string)) :
  all_fit rows = true → all_fit (non_blank rows) = true.
Proof.
  unfold all_fit, non_blank. intros Hfit. apply forallb_forall. intros row Hin.
  apply list_elem_of_In, list_elem_of_filter in Hin as [_ Hin].
  eapply forallb_forall in Hfit; [exact Hfit|]. by apply list_elem_of_In.
Qed.

Lemma non_blank_app (rows1 rows2 : list (list string)) :
  non_blank (rows1 ++ rows2) = non_blank rows1 ++ non_blank rows2.
Proof. apply filter_app. Qed.

Lemma non_blank_cons (row : list string) (rows : list (list string)) :
  row ≠ [] → non_blank (row :: rows) = row :: non_blank rows.
Proof. intros H. unfold non_blank. by rewrite filter_cons_True. Qed.

(** Iterating a table that the reader splits into [rows]: the file is
    opened, the records of the rows are yielded up to the first row that
    is too wide, where [TypeError] ends the iteration. *)
Lemma iter_of_reader self w (f : TextFile) (rows : list (list string)) (o : option exn) :
  Gen.open (JpnIndices.path DATA_DIR self) w = Ok f →
  csv.reader f d = MkRun (inr <$> rows) o →
  match o with Some e => is_OSError e = false | None => True end →
  JpnIndices.__iter__ DATA_DIR self w
  = MkRun (inl (EvOpen (JpnIndices.path DATA_DIR self))
             :: (inr <$> (row_record <$> fitting_prefix (non_blank rows))))
          (if all_fit (non_blank rows) then o else Some TypeError).
Proof.
  intros Hfile Hrows Ho.
  unfold JpnIndices.__iter__, Gen.with_open. rewrite Hfile.
  cbn [Gen.call]. unfold csv.DictReader. rewrite Hrows.
  cbn [trace outcome]. rewrite DictReader_rows. cbn [trace outcome].
  rewrite (records_of_rows _ o (non_blank_spec rows)).
  rewrite seq_effect. cbn [trace outcome].
  unfold Gen.try_except. cbn [outcome].
  destruct (all_fit (non_blank rows)); [|done].
  destruct o as [e|]; [by rewrite Ho|done].
Qed.

Lemma open_readable w (p : string) (lines : list string) :
  fs w !! p = Some (Readable lines) → Gen.open p w = Ok (MkTextFile lines None).
Proof. intros H. unfold Gen.open. by rewrite H. Qed.

Lemma iter_of_rows self w (lines : list string) (rows : list (list string)) :
  fs w !! JpnIndices.path DATA_DIR self = Some (Readable lines) →
  csv.reader (MkTextFile lines None) d = MkRun (inr <$> rows) None →
  JpnIndices.__iter__ DATA_DIR self w
  = MkRun (inl (EvOpen (JpnIndices.path DATA_DIR self))
             :: (inr <$> (row_record <$> fitting_prefix (non_blank rows))))
          (if all_fit (non_blank rows) then None else Some TypeError).
Proof.
  intros Hfile Hrows.
  by apply (iter_of_reader self w _ rows None (open_readable _ _ _ Hfile) Hrows).
Qed.

Lemma iter_of_fitting_rows self w (lines : list string) (rows : list (list string)) :
  fs w !! JpnIndices.path DATA_DIR self = Some (Readable lines) →
  csv.reader (MkTextFile lines None) d = MkRun (inr <$> rows) None →
  all_fit rows = true →
  let r := JpnIndices.__iter__ DATA_DIR self w in
  Gen.yielded r = row_record <$> non_blank rows
  ∧ outcome r = None
  ∧ Gen.effects r = [EvOpen (JpnIndices.path DATA_DIR self)].
Proof.
  intros Hfile Hrows Hfit r. subst r.
  rewrite (iter_of_rows self w _ rows Hfile Hrows).
  pose proof (all_fit_non_blank rows Hfit) as Hfit'.
  rewrite Hfit', (fitting_prefix_all _ Hfit').
  rewrite yielded_cons_effect, yielded_items, effects_open_items. done.
Qed.

(** X1.  Reading what was written.  For a table made of the lines of rows of
    at most three columns, with blank lines anywhere, iteration opens the
    file, yields one record per row that is not blank, in order, holding
    the fields as they were before escaping and [None] for a missing
    column, and ends normally. *)
Theorem indices_rows_read_back self w (rows : list (list string)) :
  fs w !! JpnIndices.path DATA_DIR self = Some (Readable (Tsv.line <$> rows)) →
  forallb Tsv.row_ok rows = true →
  all_fit rows = true →
  let r := JpnIndices.__iter__ DATA_DIR self w in
  Gen.yielded r = row_record <$> non_blank rows
  ∧ outcome r = None
  ∧ Gen.effects r = [EvOpen (JpnIndices.path DATA_DIR self)].
Proof.
  intros Hfile Hok Hfit.
  exact (iter_of_fitting_rows self w _ rows Hfile
           (reader_reads _ rows (lines_read_rows rows Hok)) Hfit).
Qed.

(** X4.  A row of more than three columns.  The records of the rows before it
    are yielded, then iteration ends with [TypeError]: the error is not
    an [OSError], so it is not caught and no warning is logged. *)
Theorem indices_wide_row_raises self w (before after : list (list string))
    (wide : list string) :
  fs w !! JpnIndices.path DATA_DIR self
  = Some (Readable (Tsv.line <$> (before ++ wide :: after))) →
  forallb Tsv.row_ok (before ++ wide :: after) = true →
  all_fit before = true →
  (3 < length wide)%nat →
  let r := JpnIndices.__iter__ DATA_DIR self w in
  Gen.yielded r = row_record <$> non_blank before
  ∧ outcome r = Some TypeError
  ∧ Gen.effects r = [EvOpen (JpnIndices.path DATA_DIR self)].
Proof.
  intros Hfile Hok Hfit Hwide r. subst r.
  rewrite (iter_of_rows self w _ _ Hfile (reader_reads _ _ (lines_read_rows _ Hok))).
  assert (wide ≠ []) as Hne by (intros ->; cbn in Hwide; lia).
  assert ((length wide <=? 3)%nat = false) as Hw by (apply Nat.leb_gt; lia).
  rewrite non_blank_app, (non_blank_cons wide after Hne).
  pose proof (all_fit_non_blank before Hfit) as Hfit'.
  assert (fitting_prefix (non_blank before ++ wide :: non_blank after) = non_blank before
          ∧ all_fit (non_blank before ++ wide :: non_blank after) = false) as [-> ->].
  { induction (non_blank before) as [|row rows IH]; cbn [app fitting_prefix all_fit forallb].
    - by rewrite Hw.
    - cbn [all_fit forallb] in Hfit'. apply andb_true_iff in Hfit' as [-> Hfit'].
      destruct (IH Hfit') as [-> Hf]. unfold all_fit in Hf. by rewrite Hf. }
  rewrite yielded_cons_effect, yielded_items, effects_open_items. done.
Qed.

(** X3.  A row of fewer than three columns does not stop the iteration: its
    record is yielded, its text is [None] when the third column is
    missing, and reading its [meaning_id] raises [TypeError] when the
    second one is. *)
Theorem indices_short_rows_fail_late self w (rows : list (list string)) :
  fs w !! JpnIndices.path DATA_DIR self = Some (Readable (Tsv.line <$> rows)) →
  forallb Tsv.row_ok rows = true →
  all_fit rows = true →
  let r := JpnIndices.__iter__ DATA_DIR self w in
  outcome r = None
  ∧ Forall2 (λ row idx,
               ((length row < 3)%nat → JpnIndex.text idx = PyNone)
               ∧ ((length row < 2)%nat → JpnIndex.meaning_id idx = Raise TypeError)
               ∧ (∀ a, row !! 0%nat = Some a → JpnIndex.sentence_id idx = PyInt.int (PyStr a)))
      (non_blank rows) (Gen.yielded r).
Proof.
  intros Hfile Hok Hfit r. subst r.
  destruct (iter_of_fitting_rows self w _ rows Hfile
              (reader_reads _ rows (lines_read_rows rows Hok)) Hfit) as (-> & -> & _).
  split; [done|]. apply Forall2_fmap_r, Forall_Forall2_diag, Forall_forall.
  intros row _. split; [|split].
  - intros Hl. destruct row as [|a [|b [|c row]]]; cbn in Hl; try lia; reflexivity.
  - intros Hl. destruct row as [|a [|b row]]; cbn in Hl; try lia; reflexivity.
  - intros a Ha. destruct row as [|a' row]; [done|]. cbn in Ha. by simplify_eq.
Qed.

(** X2.  Entries read back.  A table written one entry per line (the two
    identifiers in decimal, the text with its tabs, backslashes and
    quotes escaped) is read as one record per entry, in order, whose
    accessors give back the two integers and the text. *)
Theorem index_entries_read_back self w (entries : list (Z * Z * string)) :
  fs w !! JpnIndices.path DATA_DIR self = Some (Readable (Tsv.index_line <$> entries)) →
  forallb Tsv.entry_ok entries = true →
  let r := JpnIndices.__iter__ DATA_DIR self w in
  outcome r = None
  ∧ Forall2 (λ e idx,
               JpnIndex.sentence_id idx = Ok e.1.1
               ∧ JpnIndex.meaning_id idx = Ok e.1.2
               ∧ JpnIndex.text idx = PyStr e.2)
      entries (Gen.yielded r).
Proof.
  intros Hfile Hok r. subst r.
  set (row_of := λ e : Z * Z * string, [str_int e.1.1; str_int e.1.2; e.2]).
  change (Tsv.index_line <$> entries) with ((Tsv.line ∘ row_of) <$> entries) in Hfile.
  rewrite list_fmap_compose in Hfile.
  assert (forallb Tsv.row_ok (row_of <$> entries) = true) as Hrows.
  { apply forallb_forall. intros row Hin.
    apply list_elem_of_In, list_elem_of_fmap in Hin as (e & -> & Hin).
    eapply forallb_forall in Hok; [|by apply list_elem_of_In].
    unfold Tsv.entry_ok in Hok. apply andb_true_iff in Hok as [Hok Ht].
    apply andb_true_iff in Hok as [Hs Hm].
    unfold Tsv.row_ok, row_of. cbn [forallb]. unfold Tsv.field_ok at 1 2.
    rewrite !one_line_str_int, Hs, Hm, Ht. cbn [andb].
    by rewrite bool_decide_eq_false_2. }
  assert (all_fit (row_of <$> entries) = true) as Hfit.
  { apply forallb_forall. intros row Hin.
    by apply list_elem_of_In, list_elem_of_fmap in Hin as (e & -> & _). }
  assert (non_blank (row_of <$> entries) = row_of <$> entries) as Hnb.
  { clear Hfile Hok Hrows Hfit. unfold non_blank.
    induction entries as [|e es IH]; [done|].
    cbn [fmap list_fmap]. rewrite filter_cons_True by done. f_equal. exact IH. }
  destruct (iter_of_fitting_rows self w _ _ Hfile
              (reader_reads _ _ (lines_read_rows _ Hrows)) Hfit) as (-> & -> & _).
  split; [done|]. rewrite Hnb.
  apply Forall2_fmap_r, Forall2_fmap_r, Forall_Forall2_diag, Forall_forall.
  intros e _. unfold compose.
  change (row_record (row_of e))
    with (JpnIndex.Make (PyStr (str_int e.1.1)) (PyStr (str_int e.1.2)) (PyStr e.2)).
  unfold JpnIndex.sentence_id, JpnIndex.meaning_id, JpnIndex.text, PyInt.int.
  cbn [JpnIndex._sid JpnIndex._mid JpnIndex._txt]. by rewrite !int_of_str.
Qed.

(** X5.  A text between quotes.  The reader takes a third column that starts
    with a quote as quoted: its record holds the text without the quotes,
    tabs inside it included, and the rows around it are read as usual. *)
Theorem indices_quoted_text_loses_quotes self w (before after : list (list string))
    (a b s : string) :
  fs w !! JpnIndices.path DATA_DIR self
  = Some (Readable ((Tsv.line <$> before) ++ Tsv.quoted_line a b s :: (Tsv.line <$> after))) →
  forallb Tsv.row_ok (before ++ after) = true →
  all_fit (before ++ after) = true →
  Tsv.field_ok a = true → Tsv.field_ok b = true →
  Tsv.quotable s = true → Z.of_nat (csv.field_len s) ≤ csv.field_limit →
  let r := JpnIndices.__iter__ DATA_DIR self w in
  Gen.yielded r
  = (row_record <$> non_blank before)
    ++ JpnIndex.Make (PyStr a) (PyStr b) (PyStr s) :: (row_record <$> non_blank after)
  ∧ outcome r = None.
Proof.
  intros Hfile Hok Hfit Ha Hb Hq Hlen r. subst r.
  rewrite forallb_app in Hok. apply andb_true_iff in Hok as [Hok1 Hok2].
  unfold all_fit in Hfit. rewrite forallb_app in Hfit.
  apply andb_true_iff in Hfit as [Hfit1 Hfit2].
  assert (Forall2 Tsv.reads_as
            ((Tsv.line <$> before) ++ Tsv.quoted_line a b s :: (Tsv.line <$> after))
            (before ++ [a; b; s] :: after)) as Hreads.
  { apply Forall2_app; [by apply lines_read_rows|].
    constructor; [by apply quoted_line_reads|by apply lines_read_rows]. }
  assert (all_fit (before ++ [a; b; s] :: after) = true) as Hfit'.
  { unfold all_fit. rewrite forallb_app. cbn [forallb]. by rewrite Hfit1, Hfit2. }
  destruct (iter_of_fitting_rows self w _ _ Hfile (reader_reads _ _ Hreads) Hfit')
    as (-> & -> & _).
  split; [|done].
  rewrite non_blank_app, non_blank_cons by done. by rewrite fmap_app.
Qed.

(** X6.  A quote that is never closed.  When the third column of a line
    starts with a quote and no quote follows in the file, every line
    after it is taken into that one text, tabs and line ends included.
    While that text, the rest of the line and the lines after it, has at
    most [csv.field_limit] characters, the file gives the records of the
    rows before the line, then a single record holding the text, and
    iteration ends normally.  When the text is longer, the file gives the
    records of the rows before the line only, and iteration ends with the
    reader's error. *)
Theorem indices_open_quote_swallows_rest self w (before : list (list string))
    (a b s : string) (tail : list string) :
  fs w !! JpnIndices.path DATA_DIR self
  = Some (Readable ((Tsv.line <$> before) ++ Tsv.open_quote_line a b s :: tail)) →
  forallb Tsv.row_ok before = true →
  all_fit before = true →
  Tsv.field_ok a = true → Tsv.field_ok b = true →
  Tsv.quotable s = true → forallb Tsv.quotable tail = true →
  let text := (s +:+ String csv.LF "") +:+ Tsv.concat tail in
  let r := JpnIndices.__iter__ DATA_DIR self w in
  if Z.of_nat (csv.field_len text) <=? csv.field_limit
  then Gen.yielded r
       = (row_record <$> non_blank before)
         ++ [JpnIndex.Make (PyStr a) (PyStr b) (PyStr text)]
       ∧ outcome r = None
  else Gen.yielded r = row_record <$> non_blank before
       ∧ outcome r = Some csv_Error.
Proof.
  intros Hfile Hok Hfit Ha Hb Hq Htail text r. subst r.
  assert (forallb Tsv.quotable ((s +:+ String csv.LF "") :: tail) = true) as Hqs.
  { cbn [forallb]. by rewrite (quotable_line s Hq), Htail. }
  destruct (Z.leb_spec (Z.of_nat (csv.field_len text)) csv.field_limit) as [Hlen|Hlen].
  - assert (csv.reader
              (MkTextFile ((Tsv.line <$> before) ++ Tsv.open_quote_line a b s :: tail) None) d
            = MkRun (inr <$> (before ++ [[a; b; text]])) None) as Hreader.
    { unfold csv.reader. cbn [file_lines file_end].
      rewrite (reader_from_app None _ _ before (lines_read_rows _ Hok)).
      rewrite reader_from_open_quote_line by done.
      rewrite reader_from_open_quote; [|done|exact Hqs|exact Hlen].
      cbn [csv.fields csv.field trace outcome Gen.yield app]. by rewrite fmap_app. }
    assert (all_fit (before ++ [[a; b; text]]) = true) as Hfit'.
    { unfold all_fit in *. rewrite forallb_app. cbn [forallb]. by rewrite Hfit. }
    destruct (iter_of_fitting_rows self w _ _ Hfile Hreader Hfit') as (-> & -> & _).
    split; [|done].
    rewrite non_blank_app, non_blank_cons by done. by rewrite fmap_app.
  - assert (csv.reader
              (MkTextFile ((Tsv.line <$> before) ++ Tsv.open_quote_line a b s :: tail) None) d
            = MkRun (inr <$> before) (Some csv_Error)) as Hreader.
    { unfold csv.reader. cbn [file_lines file_end].
      rewrite (reader_from_app None _ _ before (lines_read_rows _ Hok)).
      rewrite reader_from_open_quote_line by done.
      rewrite reader_from_open_quote_overflow; [|done|exact Hqs|done|exact Hlen].
      cbn [trace outcome Gen.raise]. by rewrite app_nil_r. }
    rewrite (iter_of_reader self w _ before (Some csv_Error)
               (open_readable _ _ _ Hfile) Hreader eq_refl).
    pose proof (all_fit_non_blank before Hfit) as Hfit'.
    rewrite Hfit', (fitting_prefix_all _ Hfit').
    by rewrite yielded_cons_effect, yielded_items.
Qed.

(** The body of the iteration over a file that opens: the file is opened,
    records are yielded, and the end is the end of the file's lines, the
    [TypeError] of a row that is too wide, or the reader's own error. *)
Lemma iter_of_file self w (f : TextFile) :
  Gen.open (JpnIndices.path DATA_DIR self) w = Ok f →
  ∃ (idxs : list JpnIndex.t) (o : option exn),
    (o = file_end f ∨ o = Some TypeError ∨ o = Some csv_Error)
    ∧ JpnIndices.__iter__ DATA_DIR self w
      = Gen.try_except
          (MkRun (inl (EvOpen (JpnIndices.path DATA_DIR self)) :: (inr <$> idxs)) o)
          is_OSError
          (Gen.effect
             (EvLog WARNING "no data locally available for the 'jpn_indices' table.")).
Proof.
  intros Hopen. unfold JpnIndices.__iter__, Gen.with_open. rewrite Hopen.
  cbn [Gen.call]. unfold csv.DictReader, csv.reader.
  destruct (reader_from_run d (file_end f) (file_lines f) csv.parse_reset)
    as (rows & o & -> & Ho).
  cbn [trace outcome]. rewrite DictReader_rows. cbn [trace outcome].
  destruct (records_run (csv.DictReader_row ["sentence_id"; "meaning_id"; "text"]
                           <$> non_blank rows) o) as (idxs & o' & -> & Ho').
  rewrite seq_effect. cbn [trace outcome].
  exists idxs, o'. split; [|reflexivity].
  destruct Ho' as [->| ->]; [destruct Ho as [->| ->]|]; auto.
Qed.

Lemma effects_open_items_effect {Y} (p : string) (xs : list Y) (ev : event) o :
  Gen.effects (MkRun ((inl (EvOpen p) :: (inr <$> xs)) ++ [inl ev]) o) = [EvOpen p; ev].
Proof.
  unfold Gen.effects. cbn [trace app omap list_omap]. f_equal.
  induction xs as [|x xs IH]; [done|]. exact IH.
Qed.

(** X7.  Whatever the file holds.  Iteration tries to open the file of the
    table, once, and does nothing else to its environment, apart from one
    warning at most.  Over a file that is read to its end there is no
    warning, and iteration ends normally, with the [TypeError] of a row
    that is too wide, or with the reader's own error.  Over a file whose
    bytes stop being text part-way there is no warning either, and
    iteration ends with [UnicodeDecodeError], unless the [TypeError] or
    the reader's error comes first; it never ends normally.  Over a file
    whose reading fails part-way with an [OSError], the failure is taken
    for a missing file: the warning is logged and iteration ends normally,
    unless the [TypeError] or the reader's error comes first.  When the
    file cannot be opened, the warning is logged, nothing is yielded and
    iteration ends normally.  In no case does iteration end with the error
    of an identifier that is not a number. *)
Theorem indices_iter_effects_and_outcomes self w :
  let r := JpnIndices.__iter__ DATA_DIR self w in
  let path := JpnIndices.path DATA_DIR self in
  let warning := EvLog WARNING "no data locally available for the 'jpn_indices' table." in
  match fs w !! path with
  | Some (Readable _) =>
      Gen.effects r = [EvOpen path]
      ∧ (outcome r = None ∨ outcome r = Some TypeError ∨ outcome r = Some csv_Error)
  | Some (Broken _ Undecodable) =>
      Gen.effects r = [EvOpen path]
      ∧ (outcome r = Some UnicodeDecodeError ∨ outcome r = Some TypeError
         ∨ outcome r = Some csv_Error)
  | Some (Broken _ Interrupted) =>
      (Gen.effects r = [EvOpen path; warning] ∧ outcome r = None)
      ∨ (Gen.effects r = [EvOpen path]
         ∧ (outcome r = Some TypeError ∨ outcome r = Some csv_Error))
  | Some Unreadable | None =>
      Gen.effects r = [EvOpen path; warning] ∧ outcome r = None ∧ Gen.yielded r = []
  end.
Proof.
  intros r path warning. subst r path warning.
  destruct (fs w !! JpnIndices.path DATA_DIR self) as [[lines|lines [|]|]|] eqn:Hfile.
  - destruct (iter_of_file self w (MkTextFile lines None)) as (idxs & o & Ho & ->);
      [unfold Gen.open; by rewrite Hfile|].
    cbn [file_end] in Ho. unfold Gen.try_except. cbn [outcome].
    destruct Ho as [->|[->| ->]]; cbn [is_OSError outcome];
      rewrite effects_open_items; auto.
  - destruct (iter_of_file self w (MkTextFile lines (Some UnicodeDecodeError)))
      as (idxs & o & Ho & ->); [unfold Gen.open; by rewrite Hfile|].
    cbn [file_end] in Ho. unfold Gen.try_except. cbn [outcome].
    destruct Ho as [->|[->| ->]]; cbn [is_OSError outcome];
      rewrite effects_open_items; auto.
  - destruct (iter_of_file self w (MkTextFile lines (Some OSError)))
      as (idxs & o & Ho & ->); [unfold Gen.open; by rewrite Hfile|].
    cbn [file_end] in Ho. unfold Gen.try_except. cbn [outcome].
    destruct Ho as [->|[->| ->]]; cbn [is_OSError outcome trace Gen.effect].
    + left. by rewrite effects_open_items_effect.
    + right. rewrite effects_open_items. auto.
    + right. rewrite effects_open_items. auto.
  - unfold JpnIndices.__iter__, Gen.with_open, Gen.open. rewrite Hfile. done.
  - unfold JpnIndices.__iter__, Gen.with_open, Gen.open. rewrite Hfile. done.
Qed.

End IndicesFile.

(** ** The parallel corpus, further *)

Section CorpusFurther.
Context {V : Type}.
Variable DATA_DIR : string.
Variable sentence_id : V → Z.
Variable Tatoeba_update : gset string → gset string → bool → World V → World V.

Implicit Types (self : ParallelCorpus.t V) (w : World V).

(** What reading the tables does. *)
Lemma Links_iter_exact (links : Links.t) w :
  outcome (Links.__iter__ DATA_DIR links w) = None
  ∧ Gen.yielded (Links.__iter__ DATA_DIR links w)
    = default [] (links_files w !! Links.path DATA_DIR links)
  ∧ opened (Gen.effects (Links.__iter__ DATA_DIR links w)) = [Links.path DATA_DIR links]
  ∧ errors (Gen.effects (Links.__iter__ DATA_DIR links w)) = []
  ∧ registry_gets (Gen.effects (Links.__iter__ DATA_DIR links w)) = []
  ∧ update_calls (Gen.effects (Links.__iter__ DATA_DIR links w)) = [].
Proof.
  unfold Links.__iter__, Links.open.
  destruct (links_files w !! Links.path DATA_DIR links) as [rows|].
  - cbn [Gen.call]. rewrite for_list_yield, seq_effect. cbn [trace outcome default].
    unfold Gen.try_except. cbn [outcome].
    by rewrite yielded_cons_effect, yielded_items, effects_open_items.
  - done.
Qed.

Lemma Sentences_iter_exact (corpus : SentencesDetailed.t) w :
  outcome (SentencesDetailed.__iter__ DATA_DIR corpus w) = None
  ∧ Gen.yielded (SentencesDetailed.__iter__ DATA_DIR corpus w)
    = default [] (sentences_files w !! SentencesDetailed.path DATA_DIR corpus)
  ∧ opened (Gen.effects (SentencesDetailed.__iter__ DATA_DIR corpus w))
    = [SentencesDetailed.path DATA_DIR corpus]
  ∧ errors (Gen.effects (SentencesDetailed.__iter__ DATA_DIR corpus w)) = []
  ∧ registry_gets (Gen.effects (SentencesDetailed.__iter__ DATA_DIR corpus w)) = []
  ∧ update_calls (Gen.effects (SentencesDetailed.__iter__ DATA_DIR corpus w)) = [].
Proof.
  unfold SentencesDetailed.__iter__, SentencesDetailed.open.
  destruct (sentences_files w !! SentencesDetailed.path DATA_DIR corpus) as [rows|].
  - cbn [Gen.call]. rewrite for_list_yield, seq_effect. cbn [trace outcome default].
    unfold Gen.try_except. cbn [outcome].
    by rewrite yielded_cons_effect, yielded_items, effects_open_items.
  - done.
Qed.

(** The identifiers of the link table: those of its records. *)
Lemma Links_ids_exact (links : Links.t) w :
  ∃ ids evs,
    Links.ids DATA_DIR links w = (Ok ids, w, evs)
    ∧ (∀ i, i ∈ ids.1 ↔ ∃ lk, lk ∈ default [] (links_files w !! Links.path DATA_DIR links)
                              ∧ Link.sentence_id lk = i)
    ∧ (∀ i, i ∈ ids.2 ↔ ∃ lk, lk ∈ default [] (links_files w !! Links.path DATA_DIR links)
                              ∧ Link.translation_id lk = i)
    ∧ opened evs = [Links.path DATA_DIR links]
    ∧ errors evs = [] ∧ registry_gets evs = [] ∧ update_calls evs = [].
Proof.
  destruct (Links_iter_exact links w) as (Ho & Hy & Hop & He & Hg & Hu).
  unfold Links.ids, bind, consume, ret. rewrite Ho, Hy.
  eexists _, _. split; [reflexivity|]. rewrite app_nil_r.
  split; [|split; [|done]].
  - clear Ho Hy Hop He Hg Hu. intros i.
    induction (default [] _) as [|lk lks IH] using rev_ind.
    + cbn. rewrite elem_of_empty. split; [done|]. intros (lk & Hin & _).
      by apply elem_of_nil in Hin.
    + rewrite foldl_app. cbn [foldl fst]. rewrite elem_of_union, elem_of_singleton, IH.
      split.
      * intros [->|(lk' & Hin & <-)].
        -- exists lk. split; [|done]. apply elem_of_app. right. by apply list_elem_of_singleton.
        -- exists lk'. split; [|done]. apply elem_of_app. by left.
      * intros (lk' & Hin & <-). apply elem_of_app in Hin as [Hin|Hin].
        -- right. by exists lk'.
        -- left. by apply list_elem_of_singleton in Hin as ->.
  - clear Ho Hy Hop He Hg Hu. intros i.
    induction (default [] _) as [|lk lks IH] using rev_ind.
    + cbn. rewrite elem_of_empty. split; [done|]. intros (lk & Hin & _).
      by apply elem_of_nil in Hin.
    + rewrite foldl_app. cbn [foldl snd]. rewrite elem_of_union, elem_of_singleton, IH.
      split.
      * intros [->|(lk' & Hin & <-)].
        -- exists lk. split; [|done]. apply elem_of_app. right. by apply list_elem_of_singleton.
        -- exists lk'. split; [|done]. apply elem_of_app. by left.
      * intros (lk' & Hin & <-). apply elem_of_app in Hin as [Hin|Hin].
        -- right. by exists lk'.
        -- left. by apply list_elem_of_singleton in Hin as ->.
Qed.

(** The map a sentence table gives for a set of identifiers: every entry
    is a record of the file stored under its own identifier, which was
    asked for; every identifier asked for that a record of the file
    carries has an entry. *)
Lemma Sentences_get_exact (corpus : SentencesDetailed.t) (ids : gset Z) (verbose : bool) w :
  ∃ found evs,
    SentencesDetailed.get DATA_DIR sentence_id corpus ids verbose w = (Ok found, w, evs)
    ∧ (∀ i s, found !! i = Some s →
              sentence_id s = i ∧ i ∈ ids
              ∧ s ∈ default [] (sentences_files w !! SentencesDetailed.path DATA_DIR corpus))
    ∧ (∀ s, s ∈ default [] (sentences_files w !! SentencesDetailed.path DATA_DIR corpus) →
            sentence_id s ∈ ids → is_Some (found !! sentence_id s))
    ∧ opened evs = [SentencesDetailed.path DATA_DIR corpus]
    ∧ errors evs = [] ∧ registry_gets evs = [] ∧ update_calls evs = [].
Proof.
  destruct (Sentences_iter_exact corpus w) as (Ho & Hy & Hop & He & Hg & Hu).
  unfold SentencesDetailed.get, bind, consume, ret. rewrite Ho, Hy.
  eexists _, _. split; [reflexivity|]. rewrite app_nil_r.
  split; [|split; [|done]].
  - clear Ho Hy Hop He Hg Hu.
    induction (default [] _) as [|x xs IH] using rev_ind.
    + intros i s. cbn. by rewrite lookup_empty.
    + intros i s. rewrite foldl_app. cbn [foldl]. destruct (decide _) as [Hin|Hin].
      * rewrite lookup_insert. destruct (decide (sentence_id x = i)) as [<-|Hne].
        -- intros [= <-]. split; [done|]. split; [done|].
           apply elem_of_app. right. by apply list_elem_of_singleton.
        -- intros Hl. destruct (IH i s Hl) as (? & ? & ?).
           split; [done|]. split; [done|]. apply elem_of_app. by left.
      * intros Hl. destruct (IH i s Hl) as (? & ? & ?).
        split; [done|]. split; [done|]. apply elem_of_app. by left.
  - clear Ho Hy Hop He Hg Hu.
    induction (default [] _) as [|x xs IH] using rev_ind.
    + intros s Hs. by apply elem_of_nil in Hs.
    + intros s Hs Hid. rewrite foldl_app. cbn [foldl].
      apply elem_of_app in Hs as [Hs|Hs].
      * destruct (decide _); [|by apply IH].
        rewrite lookup_insert. destruct (decide _); [done|by apply IH].
      * apply list_elem_of_singleton in Hs as ->.
        rewrite decide_True by done. rewrite lookup_insert_eq. done.
Qed.

(** Loading from three versions of one date. *)
Lemma load_consistent self w :
  let src := ParallelCorpus._src_lg self in
  let tgt := ParallelCorpus._tgt_lg self in
  consistent w src tgt = true →
  ∃ (sentences translations : gmap Z V) (evs : list event),
    ParallelCorpus._load DATA_DIR sentence_id self w
    = (Ok (ParallelCorpus.Make src tgt (ParallelCorpus._upd self) (ParallelCorpus._vb self)
             sentences translations), w,
       version_lookup (Links.filename (Links.new src tgt))
       ++ version_lookup (SentencesDetailed.filename (SentencesDetailed.new src))
       ++ version_lookup (SentencesDetailed.filename (SentencesDetailed.new tgt))
       ++ evs)
    ∧ opened evs = [Links.path DATA_DIR (Links.new src tgt);
                    SentencesDetailed.path DATA_DIR (SentencesDetailed.new src);
                    SentencesDetailed.path DATA_DIR (SentencesDetailed.new tgt)]
    ∧ errors evs = [] ∧ registry_gets evs = [] ∧ update_calls evs = []
    ∧ (∀ i s, sentences !! i = Some s →
              sentence_id s = i ∧ s ∈ sentences_of DATA_DIR w src
              ∧ ∃ lk, lk ∈ links_of DATA_DIR w src tgt ∧ Link.sentence_id lk = i)
    ∧ (∀ lk s, lk ∈ links_of DATA_DIR w src tgt → s ∈ sentences_of DATA_DIR w src →
               sentence_id s = Link.sentence_id lk →
               is_Some (sentences !! Link.sentence_id lk))
    ∧ (∀ i s, translations !! i = Some s →
              sentence_id s = i ∧ s ∈ sentences_of DATA_DIR w tgt
              ∧ ∃ lk, lk ∈ links_of DATA_DIR w src tgt ∧ Link.translation_id lk = i)
    ∧ (∀ lk s, lk ∈ links_of DATA_DIR w src tgt → s ∈ sentences_of DATA_DIR w tgt →
               sentence_id s = Link.translation_id lk →
               is_Some (translations !! Link.translation_id lk)).
Proof.
  intros src tgt. unfold consistent.
  destruct (links_version w src tgt) as [vl|] eqn:Hvl; [|done].
  destruct (sentences_version w src) as [vs|] eqn:Hvs; [|done].
  destruct (sentences_version w tgt) as [vt|] eqn:Hvt; [|done].
  intros [Hls Hst]%andb_true_iff.
  unfold ParallelCorpus._load. fold src tgt.
  cbv beta iota zeta delta [bind ret lift logger_error emit].
  rewrite Links_version_new, Hvl. cbv beta iota zeta delta [ParallelCorpus.not_].
  rewrite Sentences_version_new, Hvs. cbv beta iota zeta delta [ParallelCorpus.not_].
  rewrite Sentences_version_new, Hvt. cbv beta iota zeta delta [ParallelCorpus.not_].
  rewrite Links_version_cached. cbv beta iota zeta delta [date_method].
  rewrite Sentences_version_cached. cbv beta iota zeta.
  rewrite Hls. cbv beta iota zeta.
  rewrite Sentences_version_cached. cbv beta iota zeta.
  rewrite Hst. cbv beta iota zeta. cbn [negb].
  destruct (Links_ids_exact (Links.Make src tgt (Some (Some vl))) w)
    as ([sids tids] & e1 & -> & Hsids & Htids & Ho1 & He1 & Hg1 & Hu1).
  cbv beta iota zeta.
  destruct (Sentences_get_exact (SentencesDetailed.Make src (Some (Some vs))) sids
              (ParallelCorpus._vb self) w)
    as (found1 & e2 & -> & Hsound1 & Hcompl1 & Ho2 & He2 & Hg2 & Hu2).
  cbv beta iota zeta.
  destruct (Sentences_get_exact (SentencesDetailed.Make tgt (Some (Some vt))) tids
              (ParallelCorpus._vb self) w)
    as (found2 & e3 & -> & Hsound2 & Hcompl2 & Ho3 & He3 & Hg3 & Hu3).
  cbv beta iota zeta.
  cbn [fst snd] in Hsids, Htids.
  exists found1, found2, (e1 ++ e2 ++ e3).
  split; [|split; [|split; [|split; [|split; [|split; [|split; [|split]]]]]]].
  - unfold version_lookup. cbn [app]. by rewrite !app_nil_r.
  - unfold opened in *. by rewrite !omap_app, Ho1, Ho2, Ho3.
  - unfold errors in *. by rewrite !omap_app, He1, He2, He3.
  - unfold registry_gets in *. by rewrite !omap_app, Hg1, Hg2, Hg3.
  - unfold update_calls in *. by rewrite !omap_app, Hu1, Hu2, Hu3.
  - intros i s Hl. destruct (Hsound1 i s Hl) as (? & Hin & ?).
    split; [done|]. split; [done|]. by apply Hsids.
  - intros lk s Hlk Hs Heq. rewrite <- Heq. apply Hcompl1; [done|].
    rewrite Heq. apply Hsids. by exists lk.
  - intros i s Hl. destruct (Hsound2 i s Hl) as (? & Hin & ?).
    split; [done|]. split; [done|]. by apply Htids.
  - intros lk s Hlk Hs Heq. rewrite <- Heq. apply Hcompl2; [done|].
    rewrite Heq. apply Htids. by exists lk.
Qed.

(** Loading when a version is missing or the dates differ: the lookups
    made, then the error. *)
Lemma load_inconsistent self w :
  let src := ParallelCorpus._src_lg self in
  let tgt := ParallelCorpus._tgt_lg self in
  consistent w src tgt = false →
  ParallelCorpus._load DATA_DIR sentence_id self w
  = (Ok self, w,
     match links_version w src tgt, sentences_version w src with
     | None, _ => version_lookup (Links.filename (Links.new src tgt))
     | Some _, None =>
         version_lookup (Links.filename (Links.new src tgt))
         ++ version_lookup (SentencesDetailed.filename (SentencesDetailed.new src))
     | Some _, Some _ =>
         version_lookup (Links.filename (Links.new src tgt))
         ++ version_lookup (SentencesDetailed.filename (SentencesDetailed.new src))
         ++ version_lookup (SentencesDetailed.filename (SentencesDetailed.new tgt))
     end
     ++ [EvLog ERROR (if all_present w src tgt
                      then ParallelCorpus.differ_msg self
                      else ParallelCorpus.missing_msg self)]).
Proof.
  intros src tgt. unfold consistent, all_present, ParallelCorpus._load. fold src tgt.
  cbv beta iota zeta delta [bind ret lift logger_error emit].
  rewrite Links_version_new. cbv beta iota zeta.
  destruct (links_version w src tgt) as [vl|];
    cbv beta iota zeta delta [ParallelCorpus.not_]; [|done].
  rewrite Sentences_version_new. cbv beta iota zeta.
  destruct (sentences_version w src) as [vs|];
    cbv beta iota zeta delta [ParallelCorpus.not_]; [|done].
  rewrite Sentences_version_new. cbv beta iota zeta.
  destruct (sentences_version w tgt) as [vt|];
    cbv beta iota zeta delta [ParallelCorpus.not_]; [|done].
  rewrite Links_version_cached. cbv beta iota zeta delta [date_method].
  rewrite Sentences_version_cached. cbv beta iota zeta.
  destruct (bool_decide (dt_date vl = dt_date vs)); cbv beta iota zeta; [|done].
  rewrite Sentences_version_cached. cbv beta iota zeta.
  destruct (bool_decide (dt_date vs = dt_date vt)); cbv beta iota zeta; done.
Qed.

(** Iterating when every link record has both its identifiers in the maps. *)
Lemma iter_all_present self w :
  forallb (both_present self) (link_records DATA_DIR self w) = true →
  outcome (ParallelCorpus.__iter__ DATA_DIR self w) = None
  ∧ Forall2 (λ lk p,
               ParallelCorpus._sentences self !! Link.sentence_id lk = Some p.1
               ∧ ParallelCorpus._translations self !! Link.translation_id lk = Some p.2)
      (link_records DATA_DIR self w)
      (Gen.yielded (ParallelCorpus.__iter__ DATA_DIR self w)).
Proof.
  intros Hall.
  assert (Forall2 (λ lk p,
            ParallelCorpus._sentences self !! Link.sentence_id lk = Some p.1
            ∧ ParallelCorpus._translations self !! Link.translation_id lk = Some p.2)
          (link_records DATA_DIR self w)
          (omap (pair_of self) (link_records DATA_DIR self w))) as Hpairs.
  { induction (link_records DATA_DIR self w) as [|lk links IH]; [constructor|].
    cbn [forallb] in Hall. apply andb_true_iff in Hall as [Hlk Hall].
    destruct (body_present self lk Hlk) as (p & Hp & _).
    cbn [omap list_omap]. rewrite Hp. constructor; [|by apply IH].
    unfold pair_of in Hp. repeat case_match; by simplify_eq. }
  destruct (present_prefix_all self _ Hall) as [Hprefix _].
  destruct (ParallelCorpus.truthy (ParallelCorpus._sentences self)) eqn:Hs;
    [destruct (ParallelCorpus.truthy (ParallelCorpus._translations self)) eqn:Ht|].
  - destruct (iter_run_truthy DATA_DIR self w Hs Ht) as [-> ->].
    rewrite Hprefix, drop_all. done.
  - apply truthy_false in Ht.
    rewrite <- Hprefix in Hpairs. rewrite present_prefix_empty_map in Hpairs by (by right).
    rewrite <- Hprefix at 1. rewrite present_prefix_empty_map by (by right).
    rewrite iter_run_falsy by (by right). done.
  - apply truthy_false in Hs.
    rewrite <- Hprefix in Hpairs. rewrite present_prefix_empty_map in Hpairs by (by left).
    rewrite <- Hprefix at 1. rewrite present_prefix_empty_map by (by left).
    rewrite iter_run_falsy by (by left). done.
Qed.

(** X8.  The pairs follow the links.  When the maps hold both identifiers of
    every link record, iteration ends normally and yields one pair per
    link record, in the order of the link file: the sentence stored under
    the link's source identifier and the translation stored under its
    target identifier. *)
Theorem iter_pairs_follow_links self w :
  forallb (both_present self) (link_records DATA_DIR self w) = true →
  let r := ParallelCorpus.__iter__ DATA_DIR self w in
  outcome r = None
  ∧ Forall2 (λ lk p,
               ParallelCorpus._sentences self !! Link.sentence_id lk = Some p.1
               ∧ ParallelCorpus._translations self !! Link.translation_id lk = Some p.2)
      (link_records DATA_DIR self w) (Gen.yielded r).
Proof. intros Hall r. exact (iter_all_present self w Hall). Qed.

(** The update step, exactly. *)
Lemma update_exact self w :
  ∃ tables langs,
    ParallelCorpus._update Tatoeba_update self w
    = (Ok tt, Tatoeba_update tables langs false w,
       (if ParallelCorpus._upd self then []
        else version_lookup (SentencesDetailed.filename
                               (SentencesDetailed.new (ParallelCorpus._src_lg self)))
             ++ version_lookup (SentencesDetailed.filename
                                  (SentencesDetailed.new (ParallelCorpus._tgt_lg self)))
             ++ version_lookup (Links.filename
                                  (Links.new (ParallelCorpus._src_lg self)
                                     (ParallelCorpus._tgt_lg self))))
       ++ [EvUpdate tables langs false]).
Proof.
  unfold ParallelCorpus._update.
  cbv beta iota zeta delta [bind ret].
  destruct (ParallelCorpus._upd self); [eexists _, _; reflexivity|].
  rewrite Sentences_version_new. cbv beta iota zeta.
  destruct (sentences_version w (ParallelCorpus._src_lg self));
    cbv beta iota zeta delta [ParallelCorpus.not_];
    rewrite Sentences_version_new; cbv beta iota zeta;
    destruct (sentences_version w (ParallelCorpus._tgt_lg self));
    cbv beta iota zeta delta [ParallelCorpus.not_];
    rewrite Links_version_new; cbv beta iota zeta;
    destruct (links_version w (ParallelCorpus._src_lg self) (ParallelCorpus._tgt_lg self));
    cbv beta iota zeta delta [ParallelCorpus.not_ ParallelCorpus.update_call];
    eexists _, _; reflexivity.
Qed.

(** X9.  How the update step uses the registry.  When the update is demanded
    the registry is not consulted: the call of the updater is all that
    happens.  Otherwise the three versions are looked up, each between its
    own acquire and release, in the order source sentences, target
    sentences, links, all three even when the first is missing, and the
    call of the updater comes last.  No data file is opened and nothing is
    logged either way. *)
Theorem update_trace (src tgt : string) (upd vb : bool) (s t : gmap Z V) w :
  let r := ParallelCorpus._update Tatoeba_update (ParallelCorpus.Make src tgt upd vb s t) w in
  ∃ tables langs,
    events r
    = (if upd then []
       else version_lookup (SentencesDetailed.filename (SentencesDetailed.new src))
            ++ version_lookup (SentencesDetailed.filename (SentencesDetailed.new tgt))
            ++ version_lookup (Links.filename (Links.new src tgt)))
      ++ [EvUpdate tables langs false].
Proof.
  intros r. subst r.
  destruct (update_exact (ParallelCorpus.Make src tgt upd vb s t) w) as (tables & langs & ->).
  by exists tables, langs.
Qed.

(** X10.  With nothing local, an update that is not demanded asks the updater
    for exactly what a demanded update asks, and leaves the same data. *)
Theorem update_from_nothing_is_full (src tgt : string) (vb vb' : bool) (s t s' t' : gmap Z V) w :
  sentences_version w src = None →
  sentences_version w tgt = None →
  links_version w src tgt = None →
  let lazy :=
    ParallelCorpus._update Tatoeba_update (ParallelCorpus.Make src tgt false vb s t) w in
  let forced :=
    ParallelCorpus._update Tatoeba_update (ParallelCorpus.Make src tgt true vb' s' t') w in
  update_calls (events lazy) = update_calls (events forced)
  ∧ update_calls (events lazy) = [({["sentences_detailed"; "links"]}, {[src; tgt]}, false)]
  ∧ world_after lazy = world_after forced.
Proof.
  intros Hs Ht Hl lazy forced. subst lazy forced. unfold ParallelCorpus._update.
  cbn [ParallelCorpus._upd ParallelCorpus._src_lg ParallelCorpus._tgt_lg].
  cbv beta iota zeta delta [bind ret].
  rewrite !Sentences_version_new, Hs. cbv beta iota zeta delta [ParallelCorpus.not_].
  rewrite Sentences_version_new, Ht. cbv beta iota zeta delta [ParallelCorpus.not_].
  rewrite Links_version_new, Hl.
  cbv beta iota zeta delta [ParallelCorpus.not_ ParallelCorpus.update_call events
                            world_after fst snd].
  assert (({["links"]} ∪ ({["sentences_detailed"]} ∪ ({["sentences_detailed"]} ∪ ∅)) : gset string)
          = {["sentences_detailed"; "links"]}) as ->.
  { apply set_eq. intros x.
    rewrite ?elem_of_union, ?elem_of_singleton, ?elem_of_empty. intuition. }
  assert (({[tgt]} ∪ ({[src]} ∪ ∅) ∪ {[src; tgt]} : gset string) = {[src; tgt]}) as ->.
  { apply set_eq. intros x.
    rewrite ?elem_of_union, ?elem_of_singleton, ?elem_of_empty. intuition. }
  rewrite !(left_id_L ∅ (∪)). done.
Qed.

(** X11.  A load that fails touches the registry only.  When a version is
    missing or the dates differ, the corpus and the local data are left
    as they are, no data file is opened, the updater is not called, and
    one error is logged.  The lookups stop at the first missing version:
    one lookup when the link table has none, two when the source
    sentences have none, three otherwise, each version being looked up
    once. *)
Theorem load_failure_trace self w :
  let src := ParallelCorpus._src_lg self in
  let tgt := ParallelCorpus._tgt_lg self in
  consistent w src tgt = false →
  let r := ParallelCorpus._load DATA_DIR sentence_id self w in
  value r = Ok self
  ∧ world_after r = w
  ∧ opened (events r) = []
  ∧ update_calls (events r) = []
  ∧ errors (events r) = [if all_present w src tgt
                         then ParallelCorpus.differ_msg self
                         else ParallelCorpus.missing_msg self]
  ∧ registry_gets (events r)
    = match links_version w src tgt, sentences_version w src with
      | None, _ => [Links.filename (Links.new src tgt)]
      | Some _, None =>
          [Links.filename (Links.new src tgt);
           SentencesDetailed.filename (SentencesDetailed.new src)]
      | Some _, Some _ =>
          [Links.filename (Links.new src tgt);
           SentencesDetailed.filename (SentencesDetailed.new src);
           SentencesDetailed.filename (SentencesDetailed.new tgt)]
      end.
Proof.
  intros src tgt Hc r. subst r.
  rewrite (load_inconsistent self w Hc). fold src tgt.
  cbv beta iota zeta delta [value world_after events fst snd].
  destruct (links_version w src tgt); [destruct (sentences_version w src)|]; done.
Qed.

(** X12.  A load that succeeds reads each thing once, in order.  With three
    versions of one date, each version is looked up in the registry once
    (the dates are compared on the cached values), then the link file, the
    file of the source sentences and the file of the target sentences are
    opened, in that order; no error is logged, the updater is not called,
    the local data and the parameters of the corpus are unchanged. *)
Theorem load_success_trace self w :
  let src := ParallelCorpus._src_lg self in
  let tgt := ParallelCorpus._tgt_lg self in
  consistent w src tgt = true →
  let r := ParallelCorpus._load DATA_DIR sentence_id self w in
  ∃ self',
    value r = Ok self'
    ∧ world_after r = w
    ∧ registry_gets (events r)
      = [Links.filename (Links.new src tgt);
         SentencesDetailed.filename (SentencesDetailed.new src);
         SentencesDetailed.filename (SentencesDetailed.new tgt)]
    ∧ opened (events r)
      = [Links.path DATA_DIR (Links.new src tgt);
         SentencesDetailed.path DATA_DIR (SentencesDetailed.new src);
         SentencesDetailed.path DATA_DIR (SentencesDetailed.new tgt)]
    ∧ errors (events r) = []
    ∧ update_calls (events r) = []
    ∧ ParallelCorpus._src_lg self' = src ∧ ParallelCorpus._tgt_lg self' = tgt
    ∧ ParallelCorpus._upd self' = ParallelCorpus._upd self
    ∧ ParallelCorpus._vb self' = ParallelCorpus._vb self.
Proof.
  intros src tgt Hc r. subst r.
  destruct (load_consistent self w Hc)
    as (S & T & evs & -> & Ho & He & Hg & Hu & _). fold src tgt.
  eexists. split; [reflexivity|]. split; [reflexivity|].
  cbv beta iota zeta delta [events snd].
  unfold registry_gets, opened, errors, update_calls in *.
  rewrite !omap_app, Ho, He, Hg, Hu. done.
Qed.

(** X13.  What a successful load puts in the maps.  Every entry of the map of
    source sentences is a record of the source sentence file, stored under
    its own identifier, which is the source identifier of some link record;
    and the source identifier of a link record is a key as soon as the
    file has a record with it.  The same holds for the translations, with
    the target file and the target identifiers. *)
Theorem load_fills_maps_from_links self w :
  let src := ParallelCorpus._src_lg self in
  let tgt := ParallelCorpus._tgt_lg self in
  consistent w src tgt = true →
  ∃ self',
    value (ParallelCorpus._load DATA_DIR sentence_id self w) = Ok self'
    ∧ (∀ i s, ParallelCorpus._sentences self' !! i = Some s →
              sentence_id s = i ∧ s ∈ sentences_of DATA_DIR w src
              ∧ ∃ lk, lk ∈ links_of DATA_DIR w src tgt ∧ Link.sentence_id lk = i)
    ∧ (∀ lk s, lk ∈ links_of DATA_DIR w src tgt → s ∈ sentences_of DATA_DIR w src →
               sentence_id s = Link.sentence_id lk →
               is_Some (ParallelCorpus._sentences self' !! Link.sentence_id lk))
    ∧ (∀ i s, ParallelCorpus._translations self' !! i = Some s →
              sentence_id s = i ∧ s ∈ sentences_of DATA_DIR w tgt
              ∧ ∃ lk, lk ∈ links_of DATA_DIR w src tgt ∧ Link.translation_id lk = i)
    ∧ (∀ lk s, lk ∈ links_of DATA_DIR w src tgt → s ∈ sentences_of DATA_DIR w tgt →
               sentence_id s = Link.translation_id lk →
               is_Some (ParallelCorpus._translations self' !! Link.translation_id lk)).
Proof.
  intros src tgt Hc.
  destruct (load_consistent self w Hc)
    as (S & T & evs & -> & _ & _ & _ & _ & HS1 & HS2 & HT1 & HT2). fold src tgt.
  eexists. split; [reflexivity|]. cbn [ParallelCorpus._sentences ParallelCorpus._translations].
  done.
Qed.

(** X14.  Loading then iterating.  With three versions of one date, when each
    link record names a source sentence and a translation that the two
    sentence files hold, iterating the loaded corpus over the same data
    ends normally and yields one pair per link record, in the order of the
    link file: a record of the source file carrying the link's source
    identifier and a record of the target file carrying its target
    identifier. *)
Theorem loaded_corpus_yields_every_link self w :
  let src := ParallelCorpus._src_lg self in
  let tgt := ParallelCorpus._tgt_lg self in
  consistent w src tgt = true →
  (∀ lk, lk ∈ links_of DATA_DIR w src tgt →
         (∃ s, s ∈ sentences_of DATA_DIR w src ∧ sentence_id s = Link.sentence_id lk)
         ∧ (∃ t, t ∈ sentences_of DATA_DIR w tgt ∧ sentence_id t = Link.translation_id lk)) →
  ∃ self',
    value (ParallelCorpus._load DATA_DIR sentence_id self w) = Ok self'
    ∧ outcome (ParallelCorpus.__iter__ DATA_DIR self' w) = None
    ∧ Forall2 (λ lk p,
                 sentence_id p.1 = Link.sentence_id lk
                 ∧ sentence_id p.2 = Link.translation_id lk
                 ∧ p.1 ∈ sentences_of DATA_DIR w src
                 ∧ p.2 ∈ sentences_of DATA_DIR w tgt)
        (links_of DATA_DIR w src tgt)
        (Gen.yielded (ParallelCorpus.__iter__ DATA_DIR self' w)).
Proof.
  intros src tgt Hc Hlinked.
  destruct (load_consistent self w Hc)
    as (S & T & evs & -> & _ & _ & _ & _ & HS1 & HS2 & HT1 & HT2). fold src tgt.
  set (self' := ParallelCorpus.Make src tgt (ParallelCorpus._upd self)
                  (ParallelCorpus._vb self) S T).
  exists self'. split; [reflexivity|].
  assert (link_records DATA_DIR self' w = links_of DATA_DIR w src tgt) as Hrec.
  { unfold link_records. by rewrite Links_iter_yielded. }
  assert (forallb (both_present self') (link_records DATA_DIR self' w) = true) as Hall.
  { rewrite Hrec. apply forallb_forall. intros lk Hin. apply list_elem_of_In in Hin.
    destruct (Hlinked lk Hin) as [(s & Hs & Hsid) (t & Ht & Htid)].
    unfold both_present. cbn [ParallelCorpus._sentences ParallelCorpus._translations self'].
    apply andb_true_iff. split; apply bool_decide_eq_true; eauto. }
  destruct (iter_all_present self' w Hall) as [Hout Hpairs].
  split; [exact Hout|]. rewrite Hrec in Hpairs.
  eapply Forall2_impl; [exact Hpairs|].
  intros lk [s t] [Hs Ht]. cbn [fst snd] in *.
  cbn [ParallelCorpus._sentences ParallelCorpus._translations self'] in Hs, Ht.
  destruct (HS1 _ _ Hs) as (? & ? & _). destruct (HT1 _ _ Ht) as (? & ? & _). done.
Qed.

(** X15.  Construction: one call of the updater, then the load.  The
    trace of a construction has exactly one call of the updater; before it
    no data file is opened and nothing is logged; what comes after it is
    the trace of the load of the corpus, still empty, run on the data the
    updater left; the value of the construction is the value of that load,
    and the data stays as the updater left it. *)
Theorem construction_trace (src tgt : string) (upd vb : bool) w0 :
  let r := ParallelCorpus.__init__ DATA_DIR sentence_id Tatoeba_update src tgt upd vb w0 in
  ∃ before after tables langs,
    events r = before ++ EvUpdate tables langs false :: after
    ∧ opened before = [] ∧ errors before = [] ∧ update_calls before = []
    ∧ update_calls after = []
    ∧ world_after r = Tatoeba_update tables langs false w0
    ∧ let loaded :=
        ParallelCorpus._load DATA_DIR sentence_id
          (ParallelCorpus.Make src tgt upd vb ∅ ∅) (Tatoeba_update tables langs false w0) in
      after = events loaded ∧ value r = value loaded.
Proof.
  intros r. subst r. unfold ParallelCorpus.__init__.
  cbv beta iota zeta delta [bind ret].
  destruct (update_exact (ParallelCorpus.Make src tgt upd vb ∅ ∅) w0) as (tables & langs & ->).
  cbv beta iota zeta. cbn [ParallelCorpus._upd ParallelCorpus._src_lg ParallelCorpus._tgt_lg].
  set (self := ParallelCorpus.Make src tgt upd vb ∅ ∅).
  set (w1 := Tatoeba_update tables langs false w0).
  assert (∃ self' evs, ParallelCorpus._load DATA_DIR sentence_id self w1 = (Ok self', w1, evs)
                       ∧ update_calls evs = []) as (self' & evs & Hload & Hu).
  { destruct (consistent w1 src tgt) eqn:Hc.
    - destruct (load_consistent self w1 Hc) as (S & T & e & -> & _ & _ & _ & Hu & _).
      eexists _, _. split; [reflexivity|].
      unfold update_calls in *. by rewrite !omap_app, Hu.
    - rewrite (load_inconsistent self w1 Hc). eexists _, _. split; [reflexivity|].
      cbn [ParallelCorpus._src_lg ParallelCorpus._tgt_lg self].
      destruct (links_version w1 src tgt); [destruct (sentences_version w1 src)|]; done. }
  subst self w1. rewrite Hload.
  eexists _, evs, tables, langs. cbv zeta. rewrite Hload.
  cbv beta iota zeta delta [events world_after value fst snd].
  split.
  - rewrite <- app_assoc, app_nil_r. cbn [app]. reflexivity.
  - by destruct upd.
Qed.

End CorpusFurther.

(** ** The further statements at concrete data *)

Lemma indices_rows_read_back_witness :
  fs (Sample.table (Tsv.line <$> Sample.ragged))
    !! JpnIndices.path Scenario.DATA_DIR JpnIndices.new
  = Some (Readable (Tsv.line <$> Sample.ragged))
  ∧ forallb Tsv.row_ok Sample.ragged = true
  ∧ all_fit Sample.ragged = true
  ∧ Gen.yielded (JpnIndices.__iter__ Scenario.DATA_DIR JpnIndices.new
                   (Sample.table (Tsv.line <$> Sample.ragged)))
    = [JpnIndex.Make (PyStr "1") (PyStr "5") (PyStr "こんにちは");
       JpnIndex.Make (PyStr "2") (PyStr "6") PyNone;
       JpnIndex.Make (PyStr "3") PyNone PyNone].
Proof.
  assert (fs (Sample.table (Tsv.line <$> Sample.ragged))
            !! JpnIndices.path Scenario.DATA_DIR JpnIndices.new
          = Some (Readable (Tsv.line <$> Sample.ragged))) as Hf by (by vm_compute).
  assert (forallb Tsv.row_ok Sample.ragged = true) as Hok by (by vm_compute).
  assert (all_fit Sample.ragged = true) as Hfit by (by vm_compute).
  split; [exact Hf|]. split; [exact Hok|]. split; [exact Hfit|].
  destruct (indices_rows_read_back Scenario.DATA_DIR JpnIndices.new _ Sample.ragged
              Hf Hok Hfit) as (Hy & _ & _).
  rewrite Hy. by vm_compute.
Defined.

Lemma indices_wide_row_raises_witness :
  fs (Sample.table (Tsv.line <$> Sample.around_wide))
    !! JpnIndices.path Scenario.DATA_DIR JpnIndices.new
  = Some (Readable (Tsv.line <$> Sample.around_wide))
  ∧ forallb Tsv.row_ok Sample.around_wide = true
  ∧ (3 < length Sample.wide)%nat
  ∧ Gen.yielded (JpnIndices.__iter__ Scenario.DATA_DIR JpnIndices.new
                   (Sample.table (Tsv.line <$> Sample.around_wide)))
    = [JpnIndex.Make (PyStr "1") (PyStr "5") (PyStr "a")]
  ∧ outcome (JpnIndices.__iter__ Scenario.DATA_DIR JpnIndices.new
               (Sample.table (Tsv.line <$> Sample.around_wide)))
    = Some TypeError.
Proof.
  assert (fs (Sample.table (Tsv.line <$> Sample.around_wide))
            !! JpnIndices.path Scenario.DATA_DIR JpnIndices.new
          = Some (Readable (Tsv.line <$> ([["1"; "5"; "a"]] ++ Sample.wide :: [["3"; "7"; "d"]]))))
    as Hf by (by vm_compute).
  assert (forallb Tsv.row_ok ([["1"; "5"; "a"]] ++ Sample.wide :: [["3"; "7"; "d"]]) = true)
    as Hok by (by vm_compute).
  assert (all_fit [["1"; "5"; "a"]] = true) as Hfit by (by vm_compute).
  assert (3 < length Sample.wide)%nat as Hw by (vm_compute; lia).
  split; [exact Hf|]. split; [exact Hok|]. split; [exact Hw|].
  destruct (indices_wide_row_raises Scenario.DATA_DIR JpnIndices.new _ _ _ _
              Hf Hok Hfit Hw) as (Hy & Ho & _).
  split; [rewrite Hy; by vm_compute|exact Ho].
Defined.

Lemma indices_short_rows_fail_late_witness :
  fs (Sample.table (Tsv.line <$> Sample.ragged))
    !! JpnIndices.path Scenario.DATA_DIR JpnIndices.new
  = Some (Readable (Tsv.line <$> Sample.ragged))
  ∧ forallb Tsv.row_ok Sample.ragged = true
  ∧ all_fit Sample.ragged = true
  ∧ outcome (JpnIndices.__iter__ Scenario.DATA_DIR JpnIndices.new
               (Sample.table (Tsv.line <$> Sample.ragged))) = None.
Proof.
  assert (fs (Sample.table (Tsv.line <$> Sample.ragged))
            !! JpnIndices.path Scenario.DATA_DIR JpnIndices.new
          = Some (Readable (Tsv.line <$> Sample.ragged))) as Hf by (by vm_compute).
  assert (forallb Tsv.row_ok Sample.ragged = true) as Hok by (by vm_compute).
  assert (all_fit Sample.ragged = true) as Hfit by (by vm_compute).
  split; [exact Hf|]. split; [exact Hok|]. split; [exact Hfit|].
  exact (proj1 (indices_short_rows_fail_late Scenario.DATA_DIR JpnIndices.new _ Sample.ragged
                  Hf Hok Hfit)).
Defined.

Lemma index_entries_read_back_witness :
  fs (Sample.table (Tsv.index_line <$> Sample.entries))
    !! JpnIndices.path Scenario.DATA_DIR JpnIndices.new
  = Some (Readable (Tsv.index_line <$> Sample.entries))
  ∧ forallb Tsv.entry_ok Sample.entries = true
  ∧ Forall2 (λ e idx,
               JpnIndex.sentence_id idx = Ok e.1.1
               ∧ JpnIndex.meaning_id idx = Ok e.1.2
               ∧ JpnIndex.text idx = PyStr e.2)
      Sample.entries
      (Gen.yielded (JpnIndices.__iter__ Scenario.DATA_DIR JpnIndices.new
                      (Sample.table (Tsv.index_line <$> Sample.entries)))).
Proof.
  assert (fs (Sample.table (Tsv.index_line <$> Sample.entries))
            !! JpnIndices.path Scenario.DATA_DIR JpnIndices.new
          = Some (Readable (Tsv.index_line <$> Sample.entries))) as Hf by (by vm_compute).
  assert (forallb Tsv.entry_ok Sample.entries = true) as Hok by (by vm_compute).
  split; [exact Hf|]. split; [exact Hok|].
  exact (proj2 (index_entries_read_back Scenario.DATA_DIR JpnIndices.new _ Sample.entries
                  Hf Hok)).
Defined.

Lemma indices_quoted_text_loses_quotes_witness :
  fs (Sample.table Sample.with_quoted) !! JpnIndices.path Scenario.DATA_DIR JpnIndices.new
  = Some (Readable Sample.with_quoted)
  ∧ Tsv.quotable Sample.spaced = true
  ∧ Gen.yielded (JpnIndices.__iter__ Scenario.DATA_DIR JpnIndices.new
                   (Sample.table Sample.with_quoted))
    = [JpnIndex.Make (PyStr "1") (PyStr "5") (PyStr "a");
       JpnIndex.Make (PyStr "2") (PyStr "6") (PyStr Sample.spaced);
       JpnIndex.Make (PyStr "3") (PyStr "7") (PyStr "d")].
Proof.
  assert (fs (Sample.table Sample.with_quoted)
            !! JpnIndices.path Scenario.DATA_DIR JpnIndices.new
          = Some (Readable ((Tsv.line <$> [["1"; "5"; "a"]])
                            ++ Tsv.quoted_line "2" "6" Sample.spaced
                               :: (Tsv.line <$> [["3"; "7"; "d"]])))) as Hf
    by (by vm_compute).
  assert (forallb Tsv.row_ok ([["1"; "5"; "a"]] ++ [["3"; "7"; "d"]]) = true) as Hok
    by (by vm_compute).
  assert (all_fit ([["1"; "5"; "a"]] ++ [["3"; "7"; "d"]]) = true) as Hfit by (by vm_compute).
  assert (Tsv.field_ok "2" = true) as Ha by (by vm_compute).
  assert (Tsv.field_ok "6" = true) as Hb by (by vm_compute).
  assert (Tsv.quotable Sample.spaced = true) as Hq by (by vm_compute).
  assert (Z.of_nat (csv.field_len Sample.spaced) ≤ csv.field_limit) as Hlen by (by vm_compute).
  split; [exact Hf|]. split; [exact Hq|].
  destruct (indices_quoted_text_loses_quotes Scenario.DATA_DIR JpnIndices.new _ _ _ _ _ _
              Hf Hok Hfit Ha Hb Hq Hlen) as [Hy _].
  rewrite Hy. by vm_compute.
Defined.

Lemma indices_open_quote_swallows_rest_witness :
  fs (Sample.table Sample.with_open_quote)
    !! JpnIndices.path Scenario.DATA_DIR JpnIndices.new
  = Some (Readable Sample.with_open_quote)
  ∧ forallb Tsv.quotable [Tsv.line ["3"; "7"; "d"]] = true
  ∧ Gen.yielded (JpnIndices.__iter__ Scenario.DATA_DIR JpnIndices.new
                   (Sample.table Sample.with_open_quote))
    = [JpnIndex.Make (PyStr "1") (PyStr "5") (PyStr "a");
       JpnIndex.Make (PyStr "2") (PyStr "6")
         (PyStr (("x" +:+ String csv.LF "") +:+ Tsv.line ["3"; "7"; "d"]))].
Proof.
  assert (fs (Sample.table Sample.with_open_quote)
            !! JpnIndices.path Scenario.DATA_DIR JpnIndices.new
          = Some (Readable ((Tsv.line <$> [["1"; "5"; "a"]])
                            ++ Tsv.open_quote_line "2" "6" "x"
                               :: [Tsv.line ["3"; "7"; "d"]]))) as Hf
    by (by vm_compute).
  assert (forallb Tsv.row_ok [["1"; "5"; "a"]] = true) as Hok by (by vm_compute).
  assert (all_fit [["1"; "5"; "a"]] = true) as Hfit by (by vm_compute).
  assert (Tsv.field_ok "2" = true) as Ha by (by vm_compute).
  assert (Tsv.field_ok "6" = true) as Hb by (by vm_compute).
  assert (Tsv.quotable "x" = true) as Hq by (by vm_compute).
  assert (forallb Tsv.quotable [Tsv.line ["3"; "7"; "d"]] = true) as Ht by (by vm_compute).
  split; [exact Hf|]. split; [exact Ht|].
  pose proof (indices_open_quote_swallows_rest Scenario.DATA_DIR JpnIndices.new _ _ _ _ _ _
                Hf Hok Hfit Ha Hb Hq Ht) as H.
  cbv zeta in H.
  rewrite (proj2 (Z.leb_le _ _)) in H by (by vm_compute).
  destruct H as [Hy _]. rewrite Hy. by vm_compute.
Defined.

Lemma iter_pairs_follow_links_witness :
  let self := Scenario.corpus Scenario.aligned in
  forallb (both_present self) (link_records Scenario.DATA_DIR self Scenario.aligned) = true
  ∧ Gen.yielded (ParallelCorpus.__iter__ Scenario.DATA_DIR self Scenario.aligned)
    = [((1, "A"), (10, "X")); ((2, "B"), (11, "Y"))]
  ∧ Forall2 (λ lk p,
               ParallelCorpus._sentences self !! Link.sentence_id lk = Some p.1
               ∧ ParallelCorpus._translations self !! Link.translation_id lk = Some p.2)
      (link_records Scenario.DATA_DIR self Scenario.aligned)
      (Gen.yielded (ParallelCorpus.__iter__ Scenario.DATA_DIR self Scenario.aligned)).
Proof.
  cbv zeta.
  assert (forallb (both_present (Scenario.corpus Scenario.aligned))
            (link_records Scenario.DATA_DIR (Scenario.corpus Scenario.aligned)
               Scenario.aligned) = true) as Hall by (by vm_compute).
  split; [exact Hall|]. split; [by vm_compute|].
  exact (proj2 (iter_pairs_follow_links Scenario.DATA_DIR (Scenario.corpus Scenario.aligned)
                  Scenario.aligned Hall)).
Defined.

Lemma update_from_nothing_is_full_witness :
  sentences_version Scenario.nothing "eng" = None
  ∧ sentences_version Scenario.nothing "fra" = None
  ∧ links_version Scenario.nothing "eng" "fra" = None
  ∧ update_calls (events (ParallelCorpus._update Scenario.no_update
                            (ParallelCorpus.Make "eng" "fra" false true ∅ ∅)
                            Scenario.nothing))
    = [({["sentences_detailed"; "links"]}, {["eng"; "fra"]}, false)].
Proof.
  assert (sentences_version Scenario.nothing "eng" = None) as Hs by (by vm_compute).
  assert (sentences_version Scenario.nothing "fra" = None) as Ht by (by vm_compute).
  assert (links_version Scenario.nothing "eng" "fra" = None) as Hl by (by vm_compute).
  split; [exact Hs|]. split; [exact Ht|]. split; [exact Hl|].
  exact (proj1 (proj2 (update_from_nothing_is_full Scenario.no_update "eng" "fra"
                         true false ∅ ∅ ∅ ∅ Scenario.nothing Hs Ht Hl))).
Defined.

Lemma load_failure_trace_witness :
  consistent Scenario.unlinked "eng" "fra" = false
  ∧ registry_gets (events (ParallelCorpus._load Scenario.DATA_DIR Scenario.sentence_id
                             (ParallelCorpus.Make "eng" "fra" false true ∅ ∅)
                             Scenario.unlinked))
    = ["eng-fra_links.tsv"]
  ∧ opened (events (ParallelCorpus._load Scenario.DATA_DIR Scenario.sentence_id
                      (ParallelCorpus.Make "eng" "fra" false true ∅ ∅)
                      Scenario.unlinked)) = [].
Proof.
  assert (consistent Scenario.unlinked "eng" "fra" = false) as Hc by (by vm_compute).
  split; [exact Hc|].
  destruct (load_failure_trace Scenario.DATA_DIR Scenario.sentence_id
              (ParallelCorpus.Make "eng" "fra" false true ∅ ∅) Scenario.unlinked Hc)
    as (_ & _ & Ho & _ & _ & Hg).
  split; [rewrite Hg; by vm_compute|exact Ho].
Defined.

Lemma load_success_trace_witness :
  consistent Scenario.aligned "eng" "fra" = true
  ∧ opened (events (ParallelCorpus._load Scenario.DATA_DIR Scenario.sentence_id
                      (ParallelCorpus.Make "eng" "fra" false true ∅ ∅)
                      Scenario.aligned))
    = ["data/links/eng-fra_links.tsv";
       "data/sentences_detailed/eng_sentences_detailed.tsv";
       "data/sentences_detailed/fra_sentences_detailed.tsv"].
Proof.
  assert (consistent Scenario.aligned "eng" "fra" = true) as Hc by (by vm_compute).
  split; [exact Hc|].
  destruct (load_success_trace Scenario.DATA_DIR Scenario.sentence_id
              (ParallelCorpus.Make "eng" "fra" false true ∅ ∅) Scenario.aligned Hc)
    as (self' & _ & _ & _ & Ho & _).
  rewrite Ho. by vm_compute.
Defined.

Lemma load_fills_maps_from_links_witness :
  consistent Scenario.gap_last "eng" "fra" = true
  ∧ ∃ self',
      value (ParallelCorpus._load Scenario.DATA_DIR Scenario.sentence_id
               (ParallelCorpus.Make "eng" "fra" false true ∅ ∅) Scenario.gap_last)
      = Ok self'
      ∧ ∀ i s, ParallelCorpus._translations self' !! i = Some s → Scenario.sentence_id s = i.
Proof.
  assert (consistent Scenario.gap_last "eng" "fra" = true) as Hc by (by vm_compute).
  split; [exact Hc|].
  destruct (load_fills_maps_from_links Scenario.DATA_DIR Scenario.sentence_id
              (ParallelCorpus.Make "eng" "fra" false true ∅ ∅) Scenario.gap_last Hc)
    as (self' & Hv & _ & _ & HT & _).
  exists self'. split; [exact Hv|]. intros i s Hl. exact (proj1 (HT i s Hl)).
Defined.

Lemma loaded_corpus_yields_every_link_witness :
  consistent Scenario.aligned "eng" "fra" = true
  ∧ links_of Scenario.DATA_DIR Scenario.aligned "eng" "fra"
    = [Link.Make 1 10; Link.Make 2 11]
  ∧ ∃ self',
      value (ParallelCorpus._load Scenario.DATA_DIR Scenario.sentence_id
               (ParallelCorpus.Make "eng" "fra" false true ∅ ∅) Scenario.aligned)
      = Ok self'
      ∧ outcome (ParallelCorpus.__iter__ Scenario.DATA_DIR self' Scenario.aligned) = None
      ∧ length (Gen.yielded (ParallelCorpus.__iter__ Scenario.DATA_DIR self' Scenario.aligned))
        = 2%nat.
Proof.
  assert (consistent Scenario.aligned "eng" "fra" = true) as Hc by (by vm_compute).
  assert (links_of Scenario.DATA_DIR Scenario.aligned "eng" "fra"
          = [Link.Make 1 10; Link.Make 2 11]) as Hl by (by vm_compute).
  assert (sentences_of Scenario.DATA_DIR Scenario.aligned "eng" = [(1, "A"); (2, "B")])
    as Hs by (by vm_compute).
  assert (sentences_of Scenario.DATA_DIR Scenario.aligned "fra" = [(10, "X"); (11, "Y")])
    as Ht by (by vm_compute).
  split; [exact Hc|]. split; [exact Hl|].
  destruct (loaded_corpus_yields_every_link Scenario.DATA_DIR Scenario.sentence_id
              (ParallelCorpus.Make "eng" "fra" false true ∅ ∅) Scenario.aligned Hc)
    as (self' & Hv & Ho & Hp).
  { cbn [ParallelCorpus._src_lg ParallelCorpus._tgt_lg]. rewrite Hl, Hs, Ht.
    intros lk Hin. apply elem_of_cons in Hin as [->|Hin].
    - split; [exists (1, "A")|exists (10, "X")]; split; try reflexivity.
      + apply list_elem_of_here.
      + apply list_elem_of_here.
    - apply list_elem_of_singleton in Hin as ->.
      split; [exists (2, "B")|exists (11, "Y")]; split; try reflexivity.
      + apply list_elem_of_further, list_elem_of_here.
      + apply list_elem_of_further, list_elem_of_here. }
  exists self'. split; [exact Hv|]. split; [exact Ho|].
  cbn [ParallelCorpus._src_lg ParallelCorpus._tgt_lg] in Hp. rewrite Hl in Hp.
  apply Forall2_length in Hp. by rewrite <- Hp.
Defined.

(** Reading that fails part-way.  Bytes that are not text end the
    iteration with [UnicodeDecodeError] after the records of the lines
    read so far, and what was read of an unfinished record is lost; an
    input error ends it normally, with the warning of a missing file. *)
Example undecodable_table_runs :
  let r := JpnIndices.__iter__ Scenario.DATA_DIR JpnIndices.new
             (Sample.failing Sample.with_open_quote Undecodable) in
  Gen.yielded r = [JpnIndex.Make (PyStr "1") (PyStr "5") (PyStr "a")]
  ∧ outcome r = Some UnicodeDecodeError
  ∧ Gen.effects r = [EvOpen Sample.path].
Proof. by vm_compute. Qed.

Example interrupted_table_runs :
  let r := JpnIndices.__iter__ Scenario.DATA_DIR JpnIndices.new
             (Sample.failing (Tsv.line <$> Sample.ragged) Interrupted) in
  Gen.yielded r
  = [JpnIndex.Make (PyStr "1") (PyStr "5") (PyStr "こんにちは");
     JpnIndex.Make (PyStr "2") (PyStr "6") PyNone;
     JpnIndex.Make (PyStr "3") PyNone PyNone]
  ∧ outcome r = None
  ∧ Gen.effects r
    = [EvOpen Sample.path;
       EvLog WARNING "no data locally available for the 'jpn_indices' table."].
Proof. by vm_compute. Qed.
